(** * Book-Price-Predictor: the catalogue crawl of [scraping/]

    A shallow embedding of [scraping/scrape_books_bs.py] (the sequential
    crawler) and [scraping/scrape_local_async.py] (the concurrent one), with
    the properties their specification states about them; and of
    [scraping/generate_synthetic_books.py] (the generator of the local
    pages), of [preprocess_features] of [ml/train_model.py] and of the
    description length of [app/app.py], with properties read off the code.

    Conventions.
    - A Python [str] is a [string]; each [ascii] stands for one code point
      below 256.
    - An exception is a value of [exn]; a function that can raise returns
      [result].
    - A BeautifulSoup document is the record of what the scraper's own
      queries ([find], [find_all], [select]) return on it. *)

From Stdlib Require Import ZArith QArith Ascii Lia Lqa.
From Stdlib Require String.
From stdpp Require Import base option list gmap strings sorting pretty.

#[local] Arguments String.append !_ _ /.
#[local] Close Scope Q_scope.

(** ** Python string methods *)

Module PyStr.

(** [str.isspace] on one code point below 256: TAB..CR, FS..US, SPACE,
    NEL and NBSP. *)
Definition is_space (c : ascii) : bool :=
  let n := Ascii.N_of_ascii c in
  ((9 <=? n) && (n <=? 13) || (28 <=? n) && (n <=? 32)
   || (n =? 133) || (n =? 160))%N.

Fixpoint lstrip (s : string) : string :=
  match s with
  | String c s' => if is_space c then lstrip s' else s
  | EmptyString => EmptyString
  end.

Fixpoint rstrip (s : string) : string :=
  match s with
  | String c s' =>
      match rstrip s' with
      | EmptyString => if is_space c then EmptyString else String c EmptyString
      | t => String c t
      end
  | EmptyString => EmptyString
  end.

(** [s.strip()] *)
Definition strip (s : string) : string := rstrip (lstrip s).

Fixpoint all_space (s : string) : bool :=
  match s with
  | String c s' => is_space c && all_space s'
  | EmptyString => true
  end.

(** [s.startswith(p)] *)
Definition startswith (p s : string) : bool := String.prefix p s.

(** [s[n:]] *)
Fixpoint slice_from (n : nat) (s : string) : string :=
  match n, s with
  | S n', String _ s' => slice_from n' s'
  | _, _ => s
  end.

(** [s.endswith(p)] *)
Definition endswith (p s : string) : bool :=
  (String.length p <=? String.length s)%nat
  && String.eqb (slice_from (String.length s - String.length p) s) p.

(** [sub in s] *)
Fixpoint contains (sub s : string) : bool :=
  startswith sub s
  || match s with
     | String _ s' => contains sub s'
     | EmptyString => false
     end.

(** ** [str.replace]

    [replace_go old new skip s] scans [s] from the left; [skip] counts the
    characters of a match just replaced that are still to be passed over.
    A match at the scanning position is replaced and scanning resumes
    after it, so matches are the leftmost non-overlapping ones. *)
Fixpoint replace_go (old new : string) (skip : nat) (s : string) : string :=
  match s with
  | EmptyString => EmptyString
  | String c s' =>
      match skip with
      | S k => replace_go old new k s'
      | O =>
          if startswith old s
          then new +:+ replace_go old new (String.length old - 1) s'
          else String c (replace_go old new 0 s')
      end
  end.

(** With an empty [old], Python puts [new] before every character and
    at the end. *)
Fixpoint intersperse (new s : string) : string :=
  match s with
  | EmptyString => new
  | String c s' => new +:+ String c (intersperse new s')
  end.

(** [s.replace(old, new)] *)
Definition replace (old new s : string) : string :=
  match old with
  | EmptyString => intersperse new s
  | _ => replace_go old new 0 s
  end.

(** *** Which characters a replacement by the empty string deletes

    To tell which characters of [s] the call [s.replace(old, "")] takes
    out, the same scan is run on characters that each carry a mark (its
    position, say); the marks left in the result are those of the
    characters kept. *)
Fixpoint mark_from (n : nat) (s : string) : list (ascii * nat) :=
  match s with
  | EmptyString => []
  | String c s' => (c, n) :: mark_from (S n) s'
  end.

Fixpoint unmark {T : Type} (s : list (ascii * T)) : string :=
  match s with
  | [] => EmptyString
  | (c, _) :: s' => String c (unmark s')
  end.

Fixpoint delete_go {T : Type} (old : string) (skip : nat) (s : list (ascii * T))
  : list (ascii * T) :=
  match s with
  | [] => []
  | x :: s' =>
      match skip with
      | S k => delete_go old k s'
      | O =>
          if startswith old (unmark s)
          then delete_go old (String.length old - 1) s'
          else x :: delete_go old 0 s'
      end
  end.

(** [s.replace(old, "")] on marked characters, for a non-empty [old]. *)
Definition delete_marked {T : Type} (old : string) (s : list (ascii * T))
  : list (ascii * T) :=
  delete_go old 0 s.

(** [os.path.join(a, b)] on POSIX. *)
Definition path_join (a b : string) : string :=
  if startswith "/" b then b
  else if String.eqb a "" || endswith "/" a then a +:+ b
  else a +:+ "/" +:+ b.

(** [s * k], a string repeated. *)
Fixpoint times (s : string) (k : nat) : string :=
  match k with
  | O => EmptyString
  | S k' => s +:+ times s k'
  end.

End PyStr.


(** ** Python values, dictionaries and exceptions *)

Module Py.

(** The values the scrapers put into their records. A float is modelled
    by a rational in lowest terms: the rational a decimal numeral spells
    stands for the float that [float] makes of the numeral, the double
    nearest to it. The rounding is left out, and so is [inf]. [PNaN] is
    pandas' missing number. *)
Inductive pyval : Type :=
| PNone
| PNaN
| PStr (s : string)
| PInt (z : Z)
| PFloat (q : Q).

Definition of_optional (o : option string) : pyval :=
  match o with
  | Some s => PStr s
  | None => PNone
  end.

(** A [dict] with string keys, in insertion order. *)
Definition pydict : Type := list (string * pyval).

Fixpoint dict_get (k : string) (d : pydict) : option pyval :=
  match d with
  | [] => None
  | (k', v) :: d' => if String.eqb k k' then Some v else dict_get k d'
  end.

(** [d[k] = v]: an existing key keeps its place. *)
Fixpoint dict_set (k : string) (v : pyval) (d : pydict) : pydict :=
  match d with
  | [] => [(k, v)]
  | (k', v') :: d' =>
      if String.eqb k k' then (k, v) :: d' else (k', v') :: dict_set k v d'
  end.

(** [d.update(d2)] *)
Definition dict_update (d d2 : pydict) : pydict :=
  foldl (fun acc kv => dict_set kv.1 kv.2 acc) d d2.

Definition keys (d : pydict) : list string := d.*1.

Inductive exn : Type :=
| HTTPError (url : string) (status_code : Z)
| ConnectionError (url : string)
| AttributeError
| TypeError
| KeyError (key : string)
| ValueError (arg : string).

(** The outcome of a call: a value, an exception, or (for the crawl's
    [while True] only) a loop that has not ended within the steps
    allowed. *)
Inductive result (A : Type) : Type :=
| Ok (a : A)
| Raise (e : exn)
| Unfinished.
#[global] Arguments Ok {A} a.
#[global] Arguments Raise {A} e.
#[global] Arguments Unfinished {A}.

Definition rbind {A B : Type} (r : result A) (k : A -> result B) : result B :=
  match r with
  | Ok a => k a
  | Raise e => Raise e
  | Unfinished => Unfinished
  end.

(** [x.attr] or [x[...]] on a value that may be [None]. *)
Definition deref {A : Type} (e : exn) (o : option A) : result A :=
  match o with
  | Some a => Ok a
  | None => Raise e
  end.

Definition is_digit (c : ascii) : bool :=
  let n := Ascii.N_of_ascii c in ((48 <=? n) && (n <=? 57))%N.

(** Value of a string of decimal digits, read after [acc]. *)
Fixpoint digits_value (acc : N) (s : string) : option N :=
  match s with
  | EmptyString => Some acc
  | String c s' =>
      if is_digit c
      then digits_value (acc * 10 + (Ascii.N_of_ascii c - 48))%N s'
      else None
  end.

(** The part of [s] before the first ['.'], and the part after it if
    there is one. *)
Fixpoint split_dot (s : string) : string * option string :=
  match s with
  | EmptyString => (EmptyString, None)
  | String c s' =>
      if Ascii.eqb c "."
      then (EmptyString, Some s')
      else let '(i, f) := split_dot s' in (String c i, f)
  end.

(** [float(s)] for an [s] made of digits and dots, which is all the
    scraper passes: digits with at most one dot and at least one digit;
    anything else is [ValueError]. The result is the rational the numeral
    spells, which stands for the double nearest to it. *)
Definition py_float (s : string) : result Q :=
  let '(i, f) := split_dot s in
  let f := default EmptyString f in
  match digits_value 0 i, digits_value 0 f with
  | Some iv, Some fv =>
      if (String.length i + String.length f =? 0)%nat
      then Raise (ValueError s)
      else
        let scale := (10 ^ N.of_nat (String.length f))%N in
        Ok (Qred (Qmake (Z.of_N (iv * scale + fv)) (N.succ_pos (N.pred scale))))
  | _, _ => Raise (ValueError s)
  end.

(** [re.sub(r"[^0-9.]+", "", s)] *)
Fixpoint keep_digits_dots (s : string) : string :=
  match s with
  | EmptyString => EmptyString
  | String c s' =>
      if is_digit c || Ascii.eqb c "."
      then String c (keep_digits_dots s')
      else keep_digits_dots s'
  end.

End Py.

Notation "'let?' x ':=' r 'in' k" := (Py.rbind r (fun x => k))
  (at level 10, x pattern, r at level 100, k at level 200).

(** ** Documents as the scraper sees them *)

Module Bs4.

(** An element is given by the strings it contains, in document order.
    [get_text(strip=True)] strips each of them, drops the empty ones and
    joins the rest. *)
Definition get_text_strip (strings : list string) : string :=
  String.concat "" (filter (fun s => s <> "") (PyStr.strip <$> strings)).

(** An [<a>] element: its [title] and [href] attributes and its text. *)
Record anchor : Type := {
  a_title : option string;
  a_href : option string;
  a_strings : list string
}.

(** One [<article class="product_pod">], by what the scraper looks up in
    it: [find("h3")] and then [find("a")]; the [p.price_color] and
    [p.instock.availability] texts; the class list of the [<p>] whose
    class matches [star-rating]. *)
Record product_pod : Type := {
  h3_a : option (option anchor);
  price_color : option (list string);
  instock_availability : option (list string);
  star_rating : option (list string)
}.

(** One [<tr>]: its first [<th>] and first [<td>], if any. *)
Record table_row : Type := {
  th : option (list string);
  td : option (list string)
}.

(** A parsed page, by the results of the queries made on it. *)
Record soup : Type := {
  (** [find_all("article", class_="product_pod")] *)
  product_list : list product_pod;
  (** [find("li", class_="next")] and its [find("a")] *)
  li_next : option (option anchor);
  (** [select("ul.breadcrumb li a")] *)
  breadcrumb : list (list string);
  (** [find("table", class_="table table-striped")] and its [find_all("tr")] *)
  table_striped : option (list table_row);
  (** [find("div", id="product_description")] and its
      [find_next_sibling("p")] *)
  product_description : option (option (list string))
}.

(** What [requests.get] does for a URL: a response with a status code
    and a body, or no response at all (the call itself raises). The site
    is taken to answer a URL in the same way each time it is asked. *)
Inductive response : Type :=
| Response (status_code : Z) (text : soup)
| NoResponse.

Definition web : Type := string -> response.

End Bs4.

(** ** Data frames *)

Module Pandas.
Import Py.

Record DataFrame : Type := {
  columns : list string;
  rows : list (list pyval)
}.

(** Keys in order of first appearance. *)
Definition add_key (acc : list string) (k : string) : list string :=
  if bool_decide (k ∈ acc) then acc else acc ++ [k].

Definition all_keys (records : list pydict) : list string :=
  foldl add_key [] (mjoin (keys <$> records)).

(** [pd.DataFrame(records)] for a list of dicts: one column per key, one
    row per dict, [NaN] where a dict lacks a key. A value is kept as the
    dict has it; the dtype pandas infers for a column is left out, and
    with it the [NaN] that stands for a [None] in a column to which pandas
    gives a dtype of its own. *)
Definition of_records (records : list pydict) : DataFrame :=
  let cols := all_keys records in
  {| columns := cols;
     rows := (fun r => (fun c => default PNaN (dict_get c r)) <$> cols) <$> records |}.

(** Position of a column. *)
Fixpoint column_index (col : string) (cols : list string) : option nat :=
  match cols with
  | [] => None
  | c :: cols' =>
      if String.eqb col c then Some 0 else S <$> column_index col cols'
  end.

(** [df[col]] *)
Definition get_column (df : DataFrame) (col : string) : result (list pyval) :=
  match column_index col (columns df) with
  | Some i => Ok ((fun r => default PNaN (r !! i)) <$> rows df)
  | None => Raise (KeyError col)
  end.

(** [df[col] = series], for a series as long as the frame. *)
Definition set_column (df : DataFrame) (col : string) (series : list pyval)
  : DataFrame :=
  match column_index col (columns df) with
  | Some i =>
      {| columns := columns df;
         rows := zip_with (fun r v => <[i := v]> r) (rows df) series |}
  | None =>
      {| columns := columns df ++ [col];
         rows := zip_with (fun r v => r ++ [v]) (rows df) series |}
  end.

(** A frame given by its columns, its records and the cell of each
    record in each column. *)
Definition frame (cols : list string) (records : list pydict)
    (cell : pydict -> string -> pyval) : DataFrame :=
  {| columns := cols; rows := (fun r => cell r <$> cols) <$> records |}.

End Pandas.

(** ** [scrape_books_bs.py] *)

Module ScrapeBooksBs.
Import Py Bs4.

Definition BASE_URL : string := "https://books.toscrape.com/".

(** What the process does to the outside: the requests it sends and the
    file it writes. *)
Inductive event : Type :=
| Get (url : string)
| ToCsv (path : string) (df : Pandas.DataFrame).

(** [books_data], the accumulator of [scrape_books], and the events so
    far. *)
Record state : Type := {
  books_data : list pydict;
  log : list event
}.

Definition initial : state := {| books_data := []; log := [] |}.

(** A computation that reads and changes the state and ends in a
    [result]. *)
Definition M (A : Type) : Type := state -> state * result A.

Definition ret {A : Type} (a : A) : M A := fun st => (st, Ok a).

Definition bind {A B : Type} (m : M A) (k : A -> M B) : M B :=
  fun st =>
    match m st with
    | (st', Ok a) => k a st'
    | (st', Raise e) => (st', Raise e)
    | (st', Unfinished) => (st', Unfinished)
    end.

Definition lift {A : Type} (r : result A) : M A := fun st => (st, r).

Definition logged (e : event) (st : state) : state :=
  {| books_data := books_data st; log := log st ++ [e] |}.

Definition emit (e : event) : M unit := fun st => (logged e st, Ok tt).

(** [books_data.append(book_info)] *)
Definition append (book_info : pydict) : M unit :=
  fun st =>
    ({| books_data := books_data st ++ [book_info]; log := log st |}, Ok tt).

Notation "'let*' x ':=' m 'in' k" := (bind m (fun x => k))
  (at level 10, x pattern, m at level 100, k at level 200).
Notation "m ';;' k" := (bind m (fun _ => k))
  (at level 100, k at level 200, right associativity).

(** [response.raise_for_status()] raises for the 4xx and 5xx codes. *)
Definition raise_for_status (url : string) (status_code : Z) : result unit :=
  if ((400 <=? status_code) && (status_code <? 600))%Z
  then Raise (HTTPError url status_code)
  else Ok tt.

(** What one [requests.get] followed by [raise_for_status] comes to:
    the parsed body, or the exception raised. *)
Definition respond (w : web) (url : string) : result soup :=
  match w url with
  | Response status_code text =>
      let? _ := raise_for_status url status_code in Ok text
  | NoResponse => Raise (ConnectionError url)
  end.

(** One request, and no second one whatever the answer. *)
Definition get_soup (w : web) (url : string) : M soup :=
  emit (Get url) ;; lift (respond w url).

Definition ratings_map : gmap string Z :=
  <["Five" := 5%Z]> (<["Four" := 4%Z]> (<["Three" := 3%Z]>
  (<["Two" := 2%Z]> (<["One" := 1%Z]> (<["Zero" := 0%Z]> ∅))))).

Definition parse_rating (rating_str : string) : Z :=
  default 0%Z (ratings_map !! PyStr.strip rating_str).

(** The loop over the rows of the product information table. *)
Fixpoint read_rows (rs : list table_row) (product_info : gmap string string)
  : result (gmap string string) :=
  match rs with
  | [] => Ok product_info
  | row :: rs' =>
      let? header := deref AttributeError (th row) in
      let? value := deref AttributeError (td row) in
      read_rows rs' (<[get_text_strip header := get_text_strip value]> product_info)
  end.

(** [breadcrumb[2].get_text(strip=True) if len(breadcrumb) > 2 else None] *)
Definition category_of (page : soup) : option string :=
  if bool_decide (2 < length (breadcrumb page))
  then get_text_strip <$> (breadcrumb page !! 2)
  else None.

(** The part of [parse_product_page] after the page is fetched. *)
Definition parse_product_soup (page : soup) : result pydict :=
  let category := category_of page in
  let? product_info :=
    match table_striped page with
    | Some rs => read_rows rs ∅
    | None => Ok ∅
    end in
  let? description :=
    match product_description page with
    | Some sibling =>
        let? p := deref AttributeError sibling in Ok (Some (get_text_strip p))
    | None => Ok None
    end in
  Ok [ ("upc", of_optional (product_info !! "UPC"));
       ("product_type", of_optional (product_info !! "Product Type"));
       ("price_excl_tax", of_optional (product_info !! "Price (excl. tax)"));
       ("price_incl_tax", of_optional (product_info !! "Price (incl. tax)"));
       ("tax", of_optional (product_info !! "Tax"));
       ("availability_detail", of_optional (product_info !! "Availability"));
       ("num_reviews", of_optional (product_info !! "Number of reviews"));
       ("category", of_optional category);
       ("description", of_optional description) ].

Definition parse_product_page (w : web) (url : string) : M pydict :=
  let* page := get_soup w url in
  lift (parse_product_soup page).

(** [relative_link.replace("../../../", "").replace("../", "")] *)
Definition strip_parents (relative_link : string) : string :=
  PyStr.replace "../" "" (PyStr.replace "../../../" "" relative_link).

(** The same two passes on marked characters, and the positions of
    [relative_link] whose characters are still there at the end. *)
Definition strip_parents_marked {T : Type} (s : list (ascii * T)) : list (ascii * T) :=
  PyStr.delete_marked "../" (PyStr.delete_marked "../../../" s).

Definition kept_positions (relative_link : string) : list nat :=
  (strip_parents_marked (PyStr.mark_from 0 relative_link)).*2.

(** The [product_url] built from a product's [href]. *)
Definition resolve (relative_link : string) : string :=
  BASE_URL +:+ "catalogue/" +:+ strip_parents relative_link.

(** What the body of the [for] loop computes from one product before it
    fetches the product's page. *)
Record summary : Type := {
  title : string;
  product_url : string;
  price : Q;
  availability_text : string;
  rating : Z
}.

Definition product_summary (product : product_pod) : result summary :=
  let? h3 := deref AttributeError (h3_a product) in
  let? title_tag := deref AttributeError h3 in
  let title :=
    match a_title title_tag with
    | Some t => t
    | None => get_text_strip (a_strings title_tag)
    end in
  let? relative_link := deref (KeyError "href") (a_href title_tag) in
  let product_url := resolve relative_link in
  let? price_tag := deref AttributeError (price_color product) in
  let price_text := get_text_strip price_tag in
  let? price := py_float (keep_digits_dots price_text) in
  let? availability_tag := deref AttributeError (instock_availability product) in
  let availability_text := get_text_strip availability_tag in
  let? star_classes := deref TypeError (star_rating product) in
  let rating_word := if bool_decide (1 < length star_classes)
                     then default "Zero" (star_classes !! 1)
                     else "Zero" in
  let rating := parse_rating rating_word in
  Ok {| title := title; product_url := product_url; price := price;
        availability_text := availability_text; rating := rating |}.

Definition basic_info (sm : summary) : pydict :=
  [ ("title", PStr (title sm));
    ("price", PFloat (price sm));
    ("availability", PStr (availability_text sm));
    ("rating", PInt (rating sm)) ].

(** The [for product in product_list] loop. *)
Fixpoint for_products (w : web) (products : list product_pod) : M unit :=
  match products with
  | [] => ret tt
  | product :: rest =>
      let* sm := lift (product_summary product) in
      let* details := parse_product_page w (product_url sm) in
      append (dict_update (basic_info sm) details) ;;
      for_products w rest
  end.

(** The URL of the page after this one, if the page has a "next" link. *)
Definition next_page (page : soup) : result (option string) :=
  match li_next page with
  | Some (Some a) =>
      let? next_href := deref (KeyError "href") (a_href a) in
      if PyStr.contains "catalogue/" next_href
      then Ok (Some (BASE_URL +:+ next_href))
      else Ok (Some (BASE_URL +:+ "catalogue/" +:+ next_href))
  | _ => Ok None
  end.

(** The [while True] loop, run for at most [fuel] pages. *)
Fixpoint while_pages (fuel : nat) (w : web) (page_url : string) : M unit :=
  match fuel with
  | O => lift Unfinished
  | S fuel' =>
      let* page := get_soup w page_url in
      for_products w (product_list page) ;;
      let* next := lift (next_page page) in
      match next with
      | Some url => while_pages fuel' w url
      | None => ret tt
      end
  end.

Definition scrape_books (fuel : nat) (w : web) : M Pandas.DataFrame :=
  (fun st => ({| books_data := []; log := log st |}, Ok tt)) ;;
  while_pages fuel w (BASE_URL +:+ "index.html") ;;
  fun st => (st, Ok (Pandas.of_records (books_data st))).

Section Main.
(** The directory above the script's, from [__file__]. *)
Variable project_dir : string.

Definition DATA_DIR : string := PyStr.path_join project_dir "data".
Definition CSV_FILE : string := PyStr.path_join DATA_DIR "books_data_bs.csv".

(** [main]: the crawl, then the one write of the file ([makedirs] and
    the prints are left out). *)
Definition main (fuel : nat) (w : web) : M unit :=
  let* df := scrape_books fuel w in
  emit (ToCsv CSV_FILE df).
End Main.

End ScrapeBooksBs.

(** ** Words for stating what a crawl does *)

Module Crawl.
Import Py Bs4 ScrapeBooksBs.

(** What one pass through the body of the [for] loop appends for a
    product, or the exception that ends it. *)
Definition enrich (w : web) (product : product_pod) : result pydict :=
  let? sm := product_summary product in
  let? page := respond w (product_url sm) in
  let? details := parse_product_soup page in
  Ok (dict_update (basic_info sm) details).

(** The page requested for a product, when its summary can be read. *)
Definition detail_url (product : product_pod) : option string :=
  match product_summary product with
  | Ok sm => Some (product_url sm)
  | _ => None
  end.

(** A detail page on which [parse_product_soup] meets no [None] where
    it expects an element: every row has its two cells, and a
    description heading has its paragraph. *)
Definition row_complete (row : table_row) : Prop :=
  is_Some (th row) /\ is_Some (td row).

Definition well_formed_detail (page : soup) : Prop :=
  (forall rs, table_striped page = Some rs -> Forall row_complete rs)
  /\ product_description page <> Some None.

(** [n] pages done: from the cursor [url] in state [st], the crawl
    works through [n] whole pages and stands at [url'] in state [st']. *)
Inductive crawl_to (w : web) : nat -> string -> state -> string -> state -> Prop :=
| crawl_here url st : crawl_to w 0 url st url st
| crawl_page n url st page st1 st2 url1 url' st' :
    get_soup w url st = (st1, Ok page) ->
    for_products w (product_list page) st1 = (st2, Ok tt) ->
    next_page page = Ok (Some url1) ->
    crawl_to w n url1 st2 url' st' ->
    crawl_to w (S n) url st url' st'.

End Crawl.

(** ** [scrape_local_async.py] *)

Module ScrapeLocalAsync.
Import Py.

(** A number as pandas reads one from a string: an integer or a float. *)
Definition number : Type := Z + Q.

Definition of_number (n : number) : pyval :=
  match n with
  | inl z => PInt z
  | inr q => PFloat q
  end.

Definition is_number (v : pyval) : bool :=
  match v with
  | PInt _ | PFloat _ => true
  | _ => false
  end.

Definition is_int (v : pyval) : bool :=
  match v with
  | PInt _ => true
  | _ => false
  end.

(** The value of an integer in a float64 column. *)
Definition as_float (v : pyval) : pyval :=
  match v with
  | PInt z => PFloat (inject_Z z)
  | _ => v
  end.

(** [asyncio.gather]: one slot per awaitable; a unit that completes
    fills its own slot, a unit that raises makes [gather] raise at once.
    [completion] lists the units in the order in which they complete. *)
Fixpoint gather_go {A : Type} (units : list (result A)) (completion : list nat)
    (slots : list (option A)) : result (list (option A)) :=
  match completion with
  | [] => Ok slots
  | i :: later =>
      match units !! i with
      | Some (Ok a) => gather_go units later (<[i := Some a]> slots)
      | Some (Raise e) => Raise e
      | Some Unfinished => Unfinished
      | None => gather_go units later slots
      end
  end.

(** The results in the order of the awaitables, once every slot is
    filled. *)
Definition gather {A : Type} (units : list (result A)) (completion : list nat)
  : result (list A) :=
  let? slots := gather_go units completion (replicate (length units) None) in
  match mapM id slots with
  | Some results => Ok results
  | None => Unfinished
  end.

(** What the completion of unit [i] does to the slots when every unit
    returns its value. *)
Definition fill {A : Type} (values : list A) (slots : list (option A)) (i : nat)
  : list (option A) :=
  match values !! i with
  | Some a => <[i := Some a]> slots
  | None => slots
  end.

Definition numeric_cols : list string := ["id"; "rating"; "price"; "availability"].

Section Async.
(** [parse_html_file] of [scrape_local_html.py], whose source is not
    among the files at hand: any function from a path to the records
    of that file, or to an exception. *)
Variable parse_html_file : string -> result (list pydict).

(** pandas' reading of a string as a number, if it is one. *)
Variable str_to_number : string -> option number.

(** [asyncio.to_thread(parse_html_file, file_path)], awaited. *)
Definition parse_file_async (file_path : string) : result (list pydict) :=
  parse_html_file file_path.

(** What [pd.to_numeric(..., errors='coerce')] reads one value as: a
    number as the number it is, a string as the number it spells, and
    [NaN] for a string that spells none and for a missing value. *)
Definition coerce (v : pyval) : pyval :=
  match v with
  | PInt z => PInt z
  | PFloat q => PFloat q
  | PStr s => from_option of_number PNaN (str_to_number s)
  | PNone | PNaN => PNaN
  end.

(** [pd.to_numeric(series, errors='coerce')]: every value is read, and
    the column gets one dtype, int64 when every value is read as an
    integer and float64 otherwise, that is as soon as one of them is a
    float or [NaN]; in a float64 column the integer [z] is the float
    [z.0]. *)
Definition to_numeric_coerce (series : list pyval) : list pyval :=
  let values := coerce <$> series in
  if forallb is_int values then values else as_float <$> values.

(** The value that stands for [v] in the column [to_numeric_coerce]
    makes of [series]. *)
Definition converted (series : list pyval) (v : pyval) : pyval :=
  if forallb is_int (coerce <$> series) then coerce v else as_float (coerce v).

(** The loop [for col in numeric_cols: df[col] = pd.to_numeric(...)]. *)
Fixpoint convert_columns (cols : list string) (df : Pandas.DataFrame)
  : result Pandas.DataFrame :=
  match cols with
  | [] => Ok df
  | col :: cols' =>
      let? series := Pandas.get_column df col in
      convert_columns cols'
        (Pandas.set_column df col (to_numeric_coerce series))
  end.

(** The paths of the [.html] files of the directory, sorted by name.
    [listdir] is what [os.listdir(html_dir)] returns. *)
Definition html_files (html_dir : string) (listdir : list string) : list string :=
  PyStr.path_join html_dir
    <$> filter (fun filename => PyStr.endswith ".html" filename)
          (merge_sort String.le listdir).

(** What follows the gathering: flatten, build the frame, convert. *)
Definition assemble (all_results : list (list pydict)) : result Pandas.DataFrame :=
  let records := mjoin all_results in
  let df := Pandas.of_records records in
  convert_columns numeric_cols df.

Definition scrape_all_pages_async (html_dir : string) (listdir : list string)
    (completion : list nat) : result Pandas.DataFrame :=
  let tasks := parse_file_async <$> html_files html_dir listdir in
  let? all_results := gather tasks completion in
  assemble all_results.

(** Specification: the same files parsed one after the other, in the
    same order, and assembled in the same way. *)
Fixpoint parse_in_turn (files : list string) : result (list (list pydict)) :=
  match files with
  | [] => Ok []
  | file_path :: files' =>
      let? recs := parse_html_file file_path in
      let? rest := parse_in_turn files' in
      Ok (recs :: rest)
  end.

Definition scrape_all_pages_in_turn (html_dir : string) (listdir : list string)
  : result Pandas.DataFrame :=
  let? all_results := parse_in_turn (html_files html_dir listdir) in
  assemble all_results.
End Async.

End ScrapeLocalAsync.

(** ** The sink: [df.to_csv(path, index=False, quoting=csv.QUOTE_NONNUMERIC)]

    Fields are separated by commas and lines end with a line feed, as on
    POSIX. *)

Module Csv.
Import Py.

Definition quotechar : ascii := Ascii.ascii_of_nat 34.
Definition delimiter : ascii := ",".
Definition LF : ascii := Ascii.ascii_of_nat 10.
Definition CR : ascii := Ascii.ascii_of_nat 13.

(** A field between quotes, each quote inside it doubled. *)
Fixpoint escape (s : string) : string :=
  match s with
  | EmptyString => EmptyString
  | String c s' =>
      if Ascii.eqb c quotechar
      then String quotechar (String quotechar (escape s'))
      else String c (escape s')
  end.

Definition quote_field (s : string) : string :=
  String quotechar (escape s +:+ String quotechar EmptyString).

(** A field as the reader sees it: whether it stood between quotes, and
    its text. *)
Record field : Type := { quoted : bool; text : string }.

Section ToCsv.
(** [repr] of a float. *)
Variable float_repr : Q -> string.

(** The field a value is written as. pandas first puts [na_rep], the
    empty [str], in the place of every missing value; the writer then
    quotes every [str] and leaves numbers bare. *)
Definition field_of (v : pyval) : field :=
  match v with
  | PNone | PNaN => {| quoted := true; text := "" |}
  | PStr s => {| quoted := true; text := s |}
  | PInt z => {| quoted := false; text := pretty z |}
  | PFloat q => {| quoted := false; text := float_repr q |}
  end.

Definition write_field (f : field) : string :=
  if quoted f then quote_field (text f) else text f.

Fixpoint write_row (fs : list field) : string :=
  match fs with
  | [] => String LF EmptyString
  | [f] => write_field f +:+ String LF EmptyString
  | f :: fs' => write_field f +:+ String delimiter (write_row fs')
  end.

Fixpoint write_rows (rs : list (list field)) : string :=
  match rs with
  | [] => EmptyString
  | r :: rs' => write_row r +:+ write_rows rs'
  end.

(** The fields of the file: the header, then one row per record. *)
Definition fields_of (df : Pandas.DataFrame) : list (list field) :=
  ((fun c : string => {| quoted := true; text := c |}) <$> Pandas.columns df)
  :: ((fun r : list pyval => field_of <$> r) <$> Pandas.rows df).

Definition to_csv (df : Pandas.DataFrame) : string :=
  write_rows (fields_of df).
End ToCsv.

(** *** Reading the file back into fields

    The reader splits a file into rows and fields by the rules the writer
    follows: fields end at a comma or a line break, a field that opens with
    a quote runs to the next single quote, and two quotes inside it stand
    for one. What pandas then makes of each field (a number, a string, a
    missing value) is not part of it. *)

Inductive pstate : Type :=
| StartField
| InField
| InQuoted
| QuoteInQuoted.

(** The reader: [cur] is the text of the field being read, in reverse;
    [q] tells whether it opened with a quote; [row] and [rows] are the
    fields and rows already read, in reverse. *)
Fixpoint read_go (s : string) (st : pstate) (q : bool) (cur : string)
    (row : list field) (rows : list (list field)) : option (list (list field)) :=
  let close := {| quoted := q; text := String.rev cur |} in
  match s with
  | EmptyString =>
      match st, row with
      | StartField, [] => Some (reverse rows)
      | InQuoted, _ => None
      | _, _ => Some (reverse (reverse (close :: row) :: rows))
      end
  | String c s' =>
      match st with
      | StartField =>
          if Ascii.eqb c quotechar then read_go s' InQuoted true "" row rows
          else if Ascii.eqb c delimiter
          then read_go s' StartField false "" ({| quoted := false; text := "" |} :: row) rows
          else if Ascii.eqb c LF || Ascii.eqb c CR
          then read_go s' StartField false ""
                 [] (reverse ({| quoted := false; text := "" |} :: row) :: rows)
          else read_go s' InField false (String c "") row rows
      | InField =>
          if Ascii.eqb c delimiter
          then read_go s' StartField false "" (close :: row) rows
          else if Ascii.eqb c LF || Ascii.eqb c CR
          then read_go s' StartField false "" [] (reverse (close :: row) :: rows)
          else read_go s' InField q (String c cur) row rows
      | InQuoted =>
          if Ascii.eqb c quotechar then read_go s' QuoteInQuoted q cur row rows
          else read_go s' InQuoted q (String c cur) row rows
      | QuoteInQuoted =>
          if Ascii.eqb c quotechar then read_go s' InQuoted q (String c cur) row rows
          else if Ascii.eqb c delimiter
          then read_go s' StartField false "" (close :: row) rows
          else if Ascii.eqb c LF || Ascii.eqb c CR
          then read_go s' StartField false "" [] (reverse (close :: row) :: rows)
          else None
      end
  end.

Definition read_fields (s : string) : option (list (list field)) :=
  read_go s StartField false "" [] [].

(** A bare field can be told from its neighbours: it is not empty and
    has no delimiter, quote or line break in it. *)
Fixpoint plain_chars (s : string) : bool :=
  match s with
  | EmptyString => true
  | String c s' =>
      negb (Ascii.eqb c quotechar || Ascii.eqb c delimiter
            || Ascii.eqb c LF || Ascii.eqb c CR)
      && plain_chars s'
  end.

Definition plain (s : string) : bool :=
  negb (String.eqb s "") && plain_chars s.

(** The fields the reader gives back as written: quoted ones, and bare
    ones that are plain. *)
Definition field_ok (f : field) : Prop :=
  quoted f = true \/ (quoted f = false /\ plain (text f) = true).

Definition row_ok (fs : list field) : Prop := fs <> [] /\ Forall field_ok fs.


End Csv.

(** ** Sample documents *)

Module Sample.
Import Py Bs4 ScrapeBooksBs ScrapeLocalAsync.

(** The pound sign, code point 163. *)
Definition pound : string := String (Ascii.ascii_of_nat 163) "".

Definition pod (t href price_text word stock : string) : product_pod :=
  {| h3_a := Some (Some {| a_title := Some t; a_href := Some href; a_strings := [t] |});
     price_color := Some [price_text];
     instock_availability := Some [stock];
     star_rating := Some ["star-rating"; word] |}.

Definition alpha : product_pod :=
  pod "Alpha" "alpha.html" (pound +:+ "12.50") "Three" "In stock (5 available)".
Definition beta : product_pod :=
  pod "Beta" "beta.html" (pound +:+ "7.00") "Zero-typo" "In stock (1 available)".
Definition gamma : product_pod :=
  pod "Gamma" "../../../gamma.html" (pound +:+ "3.10") "Five" "In stock (2 available)".

Definition blank : soup :=
  {| product_list := []; li_next := None; breadcrumb := [];
     table_striped := None; product_description := None |}.

Definition listing (products : list product_pod) (next : option string) : soup :=
  {| product_list := products;
     li_next := (fun href => Some {| a_title := None; a_href := Some href; a_strings := ["next"] |})
                <$> next;
     breadcrumb := []; table_striped := None; product_description := None |}.

Definition detail (category upc : string) (description : option (option (list string)))
  : soup :=
  {| product_list := []; li_next := None;
     breadcrumb := [["Home"]; ["Books"]; [category]; ["A title"]];
     table_striped := Some [ {| th := Some ["UPC"]; td := Some [upc] |};
                             {| th := Some ["Number of reviews"]; td := Some ["0"] |} ];
     product_description := description |}.

(** A detail page with the description heading and no paragraph after
    it. *)
Definition detail_without_paragraph : soup := detail "Poetry" "a897fe39" (Some None).

(** A site with the pages listed; any other URL answers 404. *)
Fixpoint serve (pages : list (string * response)) : web :=
  fun url =>
    match pages with
    | [] => Response 404 blank
    | (u, r) :: pages' => if String.eqb u url then r else serve pages' url
    end.

(** One listing page of two products. *)
Definition one_page : web :=
  serve [ (BASE_URL +:+ "index.html", Response 200 (listing [alpha; beta] None));
          (BASE_URL +:+ "catalogue/alpha.html",
            Response 200 (detail "Poetry" "a897fe39" (Some (Some ["  A poem. "]))));
          (BASE_URL +:+ "catalogue/beta.html", Response 200 blank) ].

(** Two listing pages; the page of the second product of the second
    listing is not there (status 404). *)
Definition broken_second_page : web :=
  serve [ (BASE_URL +:+ "index.html",
            Response 200 (listing [alpha] (Some "catalogue/page-2.html")));
          (BASE_URL +:+ "catalogue/page-2.html",
            Response 200 (listing [gamma; beta; alpha] None));
          (BASE_URL +:+ "catalogue/alpha.html",
            Response 200 (detail "Poetry" "a897fe39" (Some (Some ["  A poem. "]))));
          (BASE_URL +:+ "catalogue/gamma.html", Response 200 blank) ].

(** What the crawl records for [alpha], [beta] and [gamma] on these
    sites. *)
Definition alpha_record : pydict :=
  [ ("title", PStr "Alpha"); ("price", PFloat (Qmake 25 2));
    ("availability", PStr "In stock (5 available)"); ("rating", PInt 3);
    ("upc", PStr "a897fe39"); ("product_type", PNone); ("price_excl_tax", PNone);
    ("price_incl_tax", PNone); ("tax", PNone); ("availability_detail", PNone);
    ("num_reviews", PStr "0"); ("category", PStr "Poetry");
    ("description", PStr "A poem.") ].

Definition beta_record : pydict :=
  [ ("title", PStr "Beta"); ("price", PFloat (Qmake 7 1));
    ("availability", PStr "In stock (1 available)"); ("rating", PInt 0);
    ("upc", PNone); ("product_type", PNone); ("price_excl_tax", PNone);
    ("price_incl_tax", PNone); ("tax", PNone); ("availability_detail", PNone);
    ("num_reviews", PNone); ("category", PNone); ("description", PNone) ].

Definition gamma_record : pydict :=
  [ ("title", PStr "Gamma"); ("price", PFloat (Qmake 31 10));
    ("availability", PStr "In stock (2 available)"); ("rating", PInt 5);
    ("upc", PNone); ("product_type", PNone); ("price_excl_tax", PNone);
    ("price_incl_tax", PNone); ("tax", PNone); ("availability_detail", PNone);
    ("num_reviews", PNone); ("category", PNone); ("description", PNone) ].

(** The frame the sequential crawl returns on [one_page]. *)
Definition sequential_frame : Pandas.DataFrame :=
  {| Pandas.columns := keys alpha_record;
     Pandas.rows := [alpha_record.*2; beta_record.*2] |}.

(** A reading of plain decimal numerals, used where an example needs a
    [str_to_number]. *)
Definition decimal_number (s : string) : option number :=
  match digits_value 0 s, py_float s with
  | Some n, Ok _ => Some (inl (Z.of_N n))
  | None, Ok q => Some (inr q)
  | _, _ => None
  end.

(** A record as a page of the local site gives it: every field a
    string. *)
Definition local_row (id rating price availability : string) : pydict :=
  [ ("id", PStr id); ("title", PStr "A title"); ("category", PStr "Poetry");
    ("rating", PStr rating); ("price", PStr price);
    ("availability", PStr availability); ("description", PStr "A poem.") ].

(** Two local pages; the second record of the first has a rating, a
    price and a stock count that are not numbers. *)
Definition local_pages (file_path : string) : result (list pydict) :=
  if String.eqb file_path "pages/page_1.html"
  then Ok [local_row "1" "3" "12.5" "5"; local_row "2" "three" "" "n/a"]
  else if String.eqb file_path "pages/page_2.html"
  then Ok [local_row "3" "5" "7" "1"]
  else Raise (KeyError file_path).

(** A [repr] for the floats of the examples: the integer part, a dot
    and one decimal. *)
Definition one_decimal (q : Q) : string :=
  let tenths := (Qnum q * 10 / Zpos (Qden q))%Z in
  pretty (tenths / 10)%Z +:+ "." +:+ pretty (tenths mod 10)%Z.


End Sample.

(** ** Names the statements about the crawl use *)

Module Schema.

(** The keys of a record of [scrape_books], in the order in which
    [book_info] gets them: the four of the listing, then the nine of
    [parse_product_page]. *)
Definition book_columns : list string :=
  [ "title"; "price"; "availability"; "rating";
    "upc"; "product_type"; "price_excl_tax"; "price_incl_tax"; "tax";
    "availability_detail"; "num_reviews"; "category"; "description" ].

(** The keys [parse_product_page] fills from the product information
    table, each with the header it looks up. *)
Definition table_fields : list (string * string) :=
  [ ("upc", "UPC"); ("product_type", "Product Type");
    ("price_excl_tax", "Price (excl. tax)"); ("price_incl_tax", "Price (incl. tax)");
    ("tax", "Tax"); ("availability_detail", "Availability");
    ("num_reviews", "Number of reviews") ].

(** The cell of a frame holds the value [v] of a record: it is [v], or
    it is [NaN] for a [v] that is [None], as pandas stores a missing text
    in the columns to which it gives a dtype of their own. *)
Definition holds (v cell : Py.pyval) : Prop :=
  cell = v \/ (v = Py.PNone /\ cell = Py.PNaN).

Definition is_dot (c : ascii) : bool := Ascii.eqb c ".".

(** How many characters of [s] satisfy [p]. *)
Fixpoint count_char (p : ascii -> bool) (s : string) : nat :=
  match s with
  | EmptyString => 0
  | String c s' => (if p c then 1 else 0) + count_char p s'
  end.

(** The characters of [s] that satisfy [p], in their order. *)
Fixpoint keep_char (p : ascii -> bool) (s : string) : string :=
  match s with
  | EmptyString => EmptyString
  | String c s' => if p c then String c (keep_char p s') else keep_char p s'
  end.

End Schema.

(** ** More sample documents *)

Module Fixtures.
Import Py Bs4 ScrapeBooksBs.

(** The second listing page of a site, whose "next" link names the
    page itself. *)
Definition looping_page : soup := Sample.listing [Sample.gamma] (Some "page-2.html").

Definition looping_site : web :=
  Sample.serve [ (BASE_URL +:+ "catalogue/page-2.html", Response 200 looping_page);
                 (BASE_URL +:+ "catalogue/gamma.html", Response 200 Sample.blank) ].

(** The site [Sample.one_page], except that the page of its second
    product answers with the status 304 ("Not Modified") and an empty
    body. *)
Definition not_modified : web :=
  Sample.serve
    [ (BASE_URL +:+ "index.html",
        Response 200 (Sample.listing [Sample.alpha; Sample.beta] None));
      (BASE_URL +:+ "catalogue/alpha.html",
        Response 200 (Sample.detail "Poetry" "a897fe39" (Some (Some ["  A poem. "]))));
      (BASE_URL +:+ "catalogue/beta.html", Response 304 Sample.blank) ].

(** Local pages of which the second cannot be parsed. *)
Definition failing_second (file_path : string) : result (list pydict) :=
  if String.eqb file_path "pages/page_2.html" then Raise AttributeError
  else Sample.local_pages file_path.

(** Local pages whose records have an id and a rating and nothing
    else. *)
Definition unpriced (file_path : string) : result (list pydict) :=
  Ok [[("id", PStr "1"); ("rating", PStr "4")]].

(** A frame as [load_data] gives one: two books, the second without a
    description. *)
Definition local_frame : Pandas.DataFrame :=
  {| Pandas.columns := ["title"; "category"; "rating"; "price"; "availability";
                        "description"];
     Pandas.rows :=
       [ [PStr "Alpha"; PStr "Poetry"; PInt 3; PFloat (Qmake 25 2); PInt 5;
          PStr "A poem  about spring."];
         [PStr "Beta"; PStr "Art"; PInt 4; PFloat (Qmake 7 1); PInt 1; PNaN] ] |}.

End Fixtures.

(** ** The script of [scrape_local_async.py] *)

Module AsyncScript.
Import Py PyStr ScrapeLocalAsync.

Section Main.
(** [parse_html_file], [HTML_DIR] and [DATA_DIR] of
    [scrape_local_html.py]. *)
Variable parse_html_file : string -> result (list pydict).
Variable HTML_DIR DATA_DIR : string.
(** pandas' reading of a string as a number, and [repr] of a float. *)
Variable str_to_number : string -> option number.
Variable float_repr : Q -> string.

Definition OUTPUT_CSV_ASYNC : string :=
  path_join DATA_DIR "scraped_books_local_async.csv".

(** [main]: the files written, each with its content, and how the
    script ends. [listdir] is what the directory holds and [completion] the
    order in which the units complete (the prints are left out). *)
Definition main (listdir : list string) (completion : list nat)
  : list (string * string) * result unit :=
  match scrape_all_pages_async parse_html_file str_to_number HTML_DIR listdir
          completion with
  | Ok df => ([(OUTPUT_CSV_ASYNC, Csv.to_csv float_repr df)], Ok tt)
  | Raise e => ([], Raise e)
  | Unfinished => ([], Unfinished)
  end.
End Main.

End AsyncScript.

(** ** More of Python's built-ins *)

Module PyMore.
Import PyStr.

(** [s.split()]: the maximal runs of characters that are not whitespace,
    in their order. [cur] is the run being read. *)
Fixpoint split_go (cur : string) (s : string) : list string :=
  match s with
  | EmptyString => if String.eqb cur "" then [] else [cur]
  | String c s' =>
      if is_space c
      then if String.eqb cur "" then split_go "" s' else cur :: split_go "" s'
      else split_go (cur +:+ String c "") s'
  end.

Definition split (s : string) : list string := split_go "" s.

(** [sep.join(parts)] *)
Definition join (sep : string) (parts : list string) : string :=
  String.concat sep parts.

Definition is_lower (c : ascii) : bool :=
  let n := Ascii.N_of_ascii c in ((97 <=? n) && (n <=? 122))%N.

Definition is_upper (c : ascii) : bool :=
  let n := Ascii.N_of_ascii c in ((65 <=? n) && (n <=? 90))%N.

Definition upper (c : ascii) : ascii :=
  if is_lower c then Ascii.ascii_of_N (Ascii.N_of_ascii c - 32) else c.

Definition lower (c : ascii) : ascii :=
  if is_upper c then Ascii.ascii_of_N (Ascii.N_of_ascii c + 32) else c.

Fixpoint map_chars (f : ascii -> ascii) (s : string) : string :=
  match s with
  | EmptyString => EmptyString
  | String c s' => String (f c) (map_chars f s')
  end.

(** [s.capitalize()] for an [s] of ASCII characters, which is all the
    generator passes: the first character in upper case, the others in
    lower case. *)
Definition capitalize (s : string) : string :=
  match s with
  | EmptyString => EmptyString
  | String c s' => String (upper c) (map_chars lower s')
  end.

(** A bound of a slice on a sequence of [len] items: a negative bound
    counts from the end, and a bound outside the sequence is brought back
    to its nearer end. *)
Definition slice_bound (len i : Z) : Z :=
  if (i <? 0)%Z then Z.max 0 (i + len) else Z.min i len.

(** [l[start:stop]] *)
Definition slice {A : Type} (start stop : Z) (l : list A) : list A :=
  let len := Z.of_nat (length l) in
  let lo := slice_bound len start in
  let hi := slice_bound len stop in
  take (Z.to_nat (hi - lo)) (drop (Z.to_nat lo) l).

(** [range(n)] *)
Definition range (n : Z) : list Z := Z.of_nat <$> seq 0 (Z.to_nat n).

(** The double quote, and the line feed. *)
Definition dq : string := String (Ascii.ascii_of_nat 34) "".
Definition nl : string := String (Ascii.ascii_of_nat 10) "".

End PyMore.

(** ** [generate_synthetic_books.py] *)

Module GenerateSyntheticBooks.
Import Py PyStr PyMore.

Definition NUM_RECORDS : Z := 5000.
Definition ROWS_PER_PAGE : Z := 1000.

(** What the generator can raise: [IndexError] when [random.choice]
    finds no item, [ValueError] when [random.randint] is given an empty
    range, [ZeroDivisionError] when [save_html_pages] divides by zero
    rows per page. *)
Inductive error : Type :=
| IndexError
| EmptyRangeError
| ZeroDivisionError.

Inductive outcome (A : Type) : Type :=
| Returns (a : A)
| Raises (e : error).
#[global] Arguments Returns {A} a.
#[global] Arguments Raises {A} e.

(** *** The random generator

    [random] is used through three of its functions. Each draws from the
    generator, whose state is [rng]: [randbelow n] is [_randbelow(n)], an
    integer below [n], and [random_float] is [random()], a float in
    [0, 1). *)
Section Random.
Variable rng : Type.
Variable randbelow : N -> rng -> N * rng.
Variable random_float : rng -> Q * rng.

(** A computation that draws from the generator and may raise. *)
Definition Rand (A : Type) : Type := rng -> outcome (A * rng).

Definition rret {A : Type} (a : A) : Rand A := fun g => Returns (a, g).

Definition rbind {A B : Type} (m : Rand A) (k : A -> Rand B) : Rand B :=
  fun g =>
    match m g with
    | Returns (a, g') => k a g'
    | Raises e => Raises e
    end.

Notation "'draw' x ':=' m 'in' k" := (rbind m (fun x => k))
  (at level 10, x pattern, m at level 100, k at level 200).

(** [random.choice(seq)] *)
Definition choice {A : Type} (seq : list A) : Rand A :=
  fun g =>
    match seq with
    | [] => Raises IndexError
    | _ =>
        let '(i, g') := randbelow (N.of_nat (length seq)) g in
        match seq !! N.to_nat i with
        | Some x => Returns (x, g')
        | None => Raises IndexError
        end
    end.

(** [random.randint(a, b)], that is [randrange(a, b + 1)] *)
Definition randint (a b : Z) : Rand Z :=
  fun g =>
    let width := (b + 1 - a)%Z in
    if (0 <? width)%Z
    then let '(i, g') := randbelow (Z.to_N width) g in Returns ((a + Z.of_N i)%Z, g')
    else Raises EmptyRangeError.

(** [random.uniform(a, b)] *)
Definition uniform (a b : Q) : Rand Q :=
  fun g => let '(x, g') := random_float g in Returns ((a + (b - a) * x)%Q, g').

(** [[f() for _ in range(n)]] *)
Fixpoint repeat_draw {A : Type} (n : nat) (m : Rand A) : Rand (list A) :=
  match n with
  | O => rret []
  | S n' => draw x := m in draw xs := repeat_draw n' m in rret (x :: xs)
  end.

Definition letters : list ascii := String.list_ascii_of_string "abcdefghijklmnopqrstuvwxyz".

(** [random_word(length)] *)
Definition random_word (length : Z) : Rand string :=
  draw chars := repeat_draw (Z.to_nat length) (choice letters) in
  rret (String.string_of_list_ascii chars).

(** [random_sentence(min_words, max_words)] *)
Definition random_sentence (min_words max_words : Z) : Rand string :=
  draw num_words := randint min_words max_words in
  draw words := repeat_draw (Z.to_nat num_words)
                  (draw length := randint 3 10 in random_word length) in
  rret (capitalize (join " " words) +:+ ".").

Definition categories : list string :=
  [ "Travel"; "Mystery"; "Historical Fiction"; "Sequential Art"; "Classics";
    "Philosophy"; "Romance"; "Womens Fiction"; "Fiction"; "Childrens";
    "Religion"; "Nonfiction"; "Music"; "Default"; "Science Fiction";
    "Sports and Games"; "Fantasy"; "New Adult"; "Young Adult"; "Science";
    "Poetry"; "Paranormal"; "Art"; "Psychology"; "Autobiography";
    "Parenting"; "Adult Fiction"; "Humor"; "Horror"; "History" ].

Definition adjectives : list string :=
  [ "Amazing"; "Incredible"; "Mysterious"; "Fantastic"; "Enchanting";
    "Thrilling"; "Majestic"; "Curious"; "Serene"; "Vivid"; "Silent";
    "Forgotten"; "Golden"; "Hidden"; "Ancient"; "Brave"; "Clever";
    "Whispering"; "Radiant"; "Shadowy" ].

Definition nouns : list string :=
  [ "Journey"; "Legacy"; "Secret"; "Chronicle"; "Saga"; "Quest"; "Tale";
    "Legend"; "Story"; "Odyssey"; "Mystery"; "Adventure"; "Dream"; "Voice";
    "Whisper"; "Echo"; "Promise"; "Empire"; "Garden"; "Sky" ].

(** [round(x, 2)]: the multiple of 1/100 nearest to [x], the even one
    of the two when [x] is half way between them. *)
Definition round2 (x : Q) : Q :=
  let scaled := (x * 100)%Q in
  let below := (Qnum scaled / Zpos (Qden scaled))%Z in
  let twice_rest := (2 * (Qnum scaled - below * Zpos (Qden scaled)))%Z in
  let nearest :=
    if (twice_rest <? Zpos (Qden scaled))%Z then below
    else if (Zpos (Qden scaled) <? twice_rest)%Z then (below + 1)%Z
    else if Z.even below then below else (below + 1)%Z in
  Qred (Qmake nearest 100).

(** The body of the loop of [generate_dataset], for the index [i]. *)
Definition generate_record (i : Z) : Rand pydict :=
  draw adjective := choice adjectives in
  draw noun := choice nouns in
  let title := adjective +:+ " " +:+ noun +:+ " " +:+ pretty (i + 1)%Z in
  draw category := choice categories in
  draw rating := randint 1 5 in
  let base_price := (rating * 5)%Z in
  draw noise := uniform 5 25 in
  let price := round2 (inject_Z base_price + noise)%Q in
  draw availability := randint 1 20 in
  draw description := random_sentence 8 20 in
  rret [ ("id", PInt (i + 1)); ("title", PStr title); ("category", PStr category);
         ("rating", PInt rating); ("price", PFloat price);
         ("availability", PInt availability); ("description", PStr description) ].

Fixpoint generate_records (indices : list Z) : Rand (list pydict) :=
  match indices with
  | [] => rret []
  | i :: rest =>
      draw record := generate_record i in
      draw data := generate_records rest in
      rret (record :: data)
  end.

(** [generate_dataset(num_records)] *)
Definition generate_dataset (num_records : Z) : Rand Pandas.DataFrame :=
  draw data := generate_records (range num_records) in
  rret (Pandas.of_records data).
End Random.

(** *** The pages *)

(** [df.iloc[start:stop]] *)
Definition iloc (df : Pandas.DataFrame) (start stop : Z) : Pandas.DataFrame :=
  {| Pandas.columns := Pandas.columns df;
     Pandas.rows := slice start stop (Pandas.rows df) |}.

Definition previous_link (page_idx : Z) : string :=
  "<a href=" +:+ dq +:+ "page_" +:+ pretty page_idx +:+ ".html" +:+ dq +:+ ">Previous</a>".

Definition next_link (page_idx : Z) : string :=
  "<a href=" +:+ dq +:+ "page_" +:+ pretty (page_idx + 2)%Z +:+ ".html" +:+ dq +:+ ">Next</a>".

Definition html_content (page_number : Z) (nav_html table_html : string) : string :=
  "<!DOCTYPE html>" +:+ nl +:+
  "<html lang=" +:+ dq +:+ "en" +:+ dq +:+ ">" +:+ nl +:+
  "<head>" +:+ nl +:+
  "    <meta charset=" +:+ dq +:+ "UTF-8" +:+ dq +:+ ">" +:+ nl +:+
  "    <title>Synthetic Books Page " +:+ pretty page_number +:+ "</title>" +:+ nl +:+
  "</head>" +:+ nl +:+
  "<body>" +:+ nl +:+
  "    <h1>Synthetic Books Page " +:+ pretty page_number +:+ "</h1>" +:+ nl +:+
  "    <div class=" +:+ dq +:+ "navigation" +:+ dq +:+ ">" +:+ nav_html +:+ "</div>" +:+ nl +:+
  "    " +:+ table_html +:+ nl +:+
  "</body>" +:+ nl +:+
  "</html>" +:+ nl.

(** One pass of the loop of [save_html_pages], by the values of its
    variables. *)
Record page : Type := {
  start : Z;
  stop : Z;
  page_df : Pandas.DataFrame;
  page_number : Z;
  nav_links : list string;
  file_path : string
}.

Definition page_of (df : Pandas.DataFrame) (directory : string)
    (rows_per_page num_pages page_idx : Z) : page :=
  let total_records := Z.of_nat (length (Pandas.rows df)) in
  let start := (page_idx * rows_per_page)%Z in
  let stop := Z.min (start + rows_per_page) total_records in
  {| start := start;
     stop := stop;
     page_df := iloc df start stop;
     page_number := (page_idx + 1)%Z;
     nav_links := (if (0 <? page_idx)%Z then [previous_link page_idx] else [])
                  ++ (if (page_idx <? num_pages - 1)%Z then [next_link page_idx] else []);
     file_path := path_join directory
                    ("page_" +:+ pretty (page_idx + 1)%Z +:+ ".html") |}.

(** The passes of the loop, in order; [ZeroDivisionError] when there
    are to be no rows per page. *)
Definition pages_of (df : Pandas.DataFrame) (directory : string) (rows_per_page : Z)
  : outcome (list page) :=
  let total_records := Z.of_nat (length (Pandas.rows df)) in
  if (rows_per_page =? 0)%Z then Raises ZeroDivisionError
  else
    let num_pages := ((total_records + rows_per_page - 1) / rows_per_page)%Z in
    Returns (page_of df directory rows_per_page num_pages <$> range num_pages).

Section SaveHtml.
(** [page_df.to_html(index=False, classes='table table-striped',
    border=0)] *)
Variable to_html : Pandas.DataFrame -> string.

(** [save_html_pages(df, directory, rows_per_page)]: the files it
    writes, each with its content, in the order in which it writes them. *)
Definition save_html_pages (df : Pandas.DataFrame) (directory : string)
    (rows_per_page : Z) : outcome (list (string * string)) :=
  match pages_of df directory rows_per_page with
  | Returns pages =>
      Returns ((fun p => (file_path p,
                          html_content (page_number p) (join " | " (nav_links p))
                            (to_html (page_df p)))) <$> pages)
  | Raises e => Raises e
  end.
End SaveHtml.

(** *** The script *)

Section Main.
Variable rng : Type.
Variable randbelow : N -> rng -> N * rng.
Variable random_float : rng -> Q * rng.
(** [repr] of a float, and [DataFrame.to_html]. *)
Variable float_repr : Q -> string.
Variable to_html : Pandas.DataFrame -> string.
(** The directory of the script, and the one above it. *)
Variable script_dir project_dir : string.

Definition DATA_DIR : string := path_join project_dir "data".
Definition LOCAL_HTML_DIR : string := path_join (path_join script_dir "local") "pages".
Definition CSV_FILE : string := path_join DATA_DIR "synthetic_books.csv".

(** [save_csv(df, path)]: the file it writes. *)
Definition save_csv (df : Pandas.DataFrame) (path : string) : string * string :=
  (path, Csv.to_csv float_repr df).

(** [main]: the files written, in the order in which they are written,
    and how the script ends (its prints are left out). *)
Definition main (g : rng) : list (string * string) * outcome unit :=
  match generate_dataset rng randbelow random_float NUM_RECORDS g with
  | Raises e => ([], Raises e)
  | Returns (df, _) =>
      let csv := save_csv df CSV_FILE in
      match save_html_pages to_html df LOCAL_HTML_DIR ROWS_PER_PAGE with
      | Returns files => (csv :: files, Returns tt)
      | Raises e => ([csv], Raises e)
      end
  end.
End Main.

End GenerateSyntheticBooks.

(** Names the statements about the generator use. *)
Module PageNames.
Import PyMore GenerateSyntheticBooks.

(** A computation that, whatever the state of the generator, returns a
    value that satisfies [P]. *)
Definition always {rng A : Type} (m : rng -> outcome (A * rng)) (P : A -> Prop) : Prop :=
  forall g, exists a g', m g = Returns (a, g') /\ P a.

(** Every character of [s] satisfies [p]. *)
Fixpoint all_chars (p : ascii -> bool) (s : string) : bool :=
  match s with
  | EmptyString => true
  | String c s' => p c && all_chars p s'
  end.

(** The name of the file of the [k]-th page, counting from 1. *)
Definition page_name (k : nat) : string :=
  "page_" +:+ pretty (Z.of_nat k) +:+ ".html".

(** A link to [href] that reads [text]. *)
Definition link (href text : string) : string :=
  "<a href=" +:+ dq +:+ href +:+ dq +:+ ">" +:+ text +:+ "</a>".

(** What [generate_dataset] makes of the index [i]: a record with the
    identifier [i + 1]; a title made of an adjective, a noun and the
    identifier; a category, a rating from 1 to 5 and a stock from 1 to 20;
    a price that exceeds five times the rating by 5 to 25 and is rounded
    to two decimals, so that [round(price, 2)] is the price again; and a
    description of 8 to 20 words. *)
Definition generated_record (i : Z) (record : Py.pydict) : Prop :=
  exists (adjective noun category description : string) (rating availability : Z)
         (price : Q),
    record = [ ("id", Py.PInt (i + 1));
               ("title", Py.PStr (adjective +:+ " " +:+ noun +:+ " " +:+ pretty (i + 1)%Z));
               ("category", Py.PStr category); ("rating", Py.PInt rating);
               ("price", Py.PFloat price); ("availability", Py.PInt availability);
               ("description", Py.PStr description) ]
    /\ adjective ∈ adjectives /\ noun ∈ nouns /\ category ∈ categories
    /\ (1 <= rating <= 5)%Z /\ (1 <= availability <= 20)%Z
    /\ (inject_Z (5 * rating + 5) <= price /\ price <= inject_Z (5 * rating + 25))%Q
    /\ round2 price = price
    /\ 8 <= length (split description) <= 20.

(** A generator for the examples: it counts its draws. *)
Definition counting_randbelow (n : N) (g : N) : N * N := ((g mod n)%N, (g + 1)%N).
Definition counting_random (g : N) : Q * N := (Qmake (Z.of_N (g mod 10)) 10, (g + 1)%N).

End PageNames.

(** ** [train_model.py] and [app.py]: the length of a description *)

Module Words.

(** A word: a string that is not empty and has no whitespace in it. *)
Definition is_word (w : string) : Prop :=
  w <> "" /\ Schema.count_char PyStr.is_space w = 0.

End Words.

Module TrainModel.
Import Py PyStr PyMore Pandas.

Definition feature_cols : list string :=
  ["category"; "rating"; "availability"; "description_length"].

Section Preprocess.
(** [str] of a float. *)
Variable float_str : Q -> string.
(** The message of the [KeyError] pandas raises for a list of labels of
    which some, given second, are no columns. *)
Variable not_in_index : list string -> list string -> string.

(** [x] after [fillna('')] *)
Definition fillna_empty (x : pyval) : pyval :=
  match x with
  | PNone | PNaN => PStr ""
  | _ => x
  end.

(** [str(x)] *)
Definition str (x : pyval) : string :=
  match x with
  | PStr s => s
  | PInt z => pretty z
  | PFloat q => float_str q
  | PNone => "None"
  | PNaN => "nan"
  end.

(** [lambda x: len(str(x).split())] on a cell of the description column
    after [fillna('')]. *)
Definition description_length (x : pyval) : pyval :=
  PInt (Z.of_nat (length (split (str (fillna_empty x))))).

(** The cell of the row [r] of [df] under the label [c]. *)
Definition cell (df : DataFrame) (r : list pyval) (c : string) : pyval :=
  default PNaN (i ← column_index c (columns df); r !! i).

(** [df[cols]] for a list of labels *)
Definition select_columns (df : DataFrame) (cols : list string) : result DataFrame :=
  let missing := filter (fun c => c ∉ columns df) cols in
  match missing with
  | [] => Ok {| columns := cols; rows := (fun r => cell df r <$> cols) <$> rows df |}
  | _ => Raise (KeyError (not_in_index cols missing))
  end.

(** [preprocess_features(df)] *)
Definition preprocess_features (df : DataFrame) : result (DataFrame * list pyval) :=
  let? description := get_column df "description" in
  let df := set_column df "description_length" (description_length <$> description) in
  let? X := select_columns df feature_cols in
  let? y := get_column df "price" in
  Ok (X, y).
End Preprocess.

End TrainModel.

Module App.
Import PyStr PyMore.

(** [len(description.split()) if description else 0], the length the
    application gives the model for the text the user has typed. *)
Definition desc_length (description : string) : nat :=
  if String.eqb description "" then 0 else length (split description).

End App.


(** * Properties *)

(** ** Strings *)

Module PyStrFacts.
Import PyStr.

Example strip_ex : strip "  Three " = "Three".
Proof. reflexivity. Qed.

Example replace_ex :
  replace "../" "" (replace "../../../" "" "..../../.././") = "."
  /\ replace "../" "" "..../../.././" = ".../"
  /\ replace "" "x" "abc" = "xaxbxcx".
Proof. repeat split; reflexivity. Qed.

Lemma sapp_nil_r (s : string) : s +:+ "" = s.
Proof. induction s as [|c s IH]; simpl; [done | by rewrite IH]. Qed.

Lemma sapp_assoc (s t u : string) : (s +:+ t) +:+ u = s +:+ t +:+ u.
Proof. induction s as [|c s IH]; simpl; [done | by rewrite IH]. Qed.

Lemma slength_app (s t : string) :
  String.length (s +:+ t) = String.length s + String.length t.
Proof. induction s as [|c s IH]; simpl; [done | by rewrite IH]. Qed.

Lemma prefix_app (p t : string) : startswith p (p +:+ t) = true.
Proof.
  unfold startswith. induction p as [|c p IH]; simpl; [by destruct t |].
  by destruct (ascii_dec c c).
Qed.

Lemma prefix_inv (p s : string) :
  startswith p s = true -> s = p +:+ slice_from (String.length p) s.
Proof.
  unfold startswith. revert s. induction p as [|c p IH]; intros [|d s]; simpl; try done.
  destruct (ascii_dec c d) as [->|]; [|done]. intros H. f_equal. by apply IH.
Qed.

Lemma prefix_iff (p s : string) :
  startswith p s = true <-> exists t, s = p +:+ t.
Proof.
  split; [intros H; eexists; by apply prefix_inv | intros [t ->]; apply prefix_app].
Qed.

Lemma prefix_app_l (p s t : string) :
  startswith p s = true -> startswith p (s +:+ t) = true.
Proof. intros [u ->]%prefix_iff. rewrite sapp_assoc. apply prefix_app. Qed.

Lemma slice_from_app (p t : string) : slice_from (String.length p) (p +:+ t) = t.
Proof. induction p as [|c p IH]; simpl; done. Qed.

Lemma replace_go_skip (old new : string) (k : nat) (s : string) :
  replace_go old new k s = replace_go old new 0 (slice_from k s).
Proof. revert k. induction s as [|c s IH]; intros [|k]; simpl; done. Qed.

(** The three equations of [s.replace(old, new)] for a non-empty [old]. *)
Lemma replace_nil (old new : string) : old <> "" -> replace old new "" = "".
Proof. by destruct old. Qed.

Lemma replace_match (old new t : string) :
  old <> "" -> replace old new (old +:+ t) = new +:+ replace old new t.
Proof.
  destruct old as [|c old]; [done | intros _]. unfold replace.
  pose proof (prefix_app (String c old) t) as H.
  simpl in *. unfold startswith in *. simpl in *. rewrite H.
  f_equal. rewrite replace_go_skip. f_equal. rewrite Nat.sub_0_r. apply slice_from_app.
Qed.

Lemma replace_skip (old new : string) (c : ascii) (s : string) :
  old <> "" -> startswith old (String c s) = false ->
  replace old new (String c s) = String c (replace old new s).
Proof.
  destruct old as [|d old]; [done | intros _ H]. unfold replace. simpl.
  unfold startswith in *. simpl in *. by rewrite H.
Qed.

Lemma contains_false_cons (sub : string) (c : ascii) (s : string) :
  contains sub (String c s) = false ->
  startswith sub (String c s) = false /\ contains sub s = false.
Proof. cbn [contains]. by intros [? ?]%orb_false_iff. Qed.

Lemma replace_absent (old new s : string) :
  old <> "" -> contains old s = false -> replace old new s = s.
Proof.
  intros Hne. induction s as [|c s IH]; intros H.
  - by apply replace_nil.
  - apply contains_false_cons in H as [H1 H2].
    rewrite replace_skip by done. by rewrite IH.
Qed.

Lemma contains_prefix_mono (p q s : string) :
  (forall t, startswith q t = true -> startswith p t = true) ->
  contains p s = false -> contains q s = false.
Proof.
  intros Hpq. induction s as [|c s IH]; cbn [contains].
  - intros [H _]%orb_false_iff. apply orb_false_iff. split; [|done].
    destruct (startswith q "") eqn:E; [|done]. apply Hpq in E. congruence.
  - intros [H1 H2]%orb_false_iff. apply orb_false_iff. split; [|by apply IH].
    destruct (startswith q (String c s)) eqn:E; [|done]. apply Hpq in E. congruence.
Qed.

Lemma contains_app_r (sub u v : string) :
  contains sub v = true -> contains sub (u +:+ v) = true.
Proof.
  intros H. induction u as [|c u IH]; [done |].
  cbn [String.append contains]. rewrite IH. apply orb_true_r.
Qed.

Lemma contains_app_here (sub v : string) : contains sub (sub +:+ v) = true.
Proof.
  destruct (sub +:+ v) eqn:E; cbn [contains]; rewrite <- E, prefix_app; done.
Qed.

Lemma length_replace_le (old s : string) :
  old <> "" -> String.length (replace old "" s) <= String.length s.
Proof.
  intros Hne. remember (String.length s) as n eqn:Hn.
  revert s Hn. induction (lt_wf n) as [n _ IH]. intros s ->.
  destruct s as [|c s]; [by rewrite replace_nil |].
  destruct (startswith old (String c s)) eqn:E.
  - apply prefix_iff in E as [t Ht]. rewrite Ht in *.
    rewrite replace_match by done. simpl.
    assert (String.length old <> 0) by (by destruct old).
    assert (String.length (replace old "" t) <= String.length t)
      by (eapply (IH (String.length t)); [rewrite slength_app; lia | done]).
    rewrite slength_app. lia.
  - rewrite replace_skip by done. simpl.
    assert (String.length (replace old "" s) <= String.length s)
      by (eapply (IH (String.length s)); [simpl; lia | done]).
    lia.
Qed.

Lemma length_replace_lt (old s : string) :
  old <> "" -> contains old s = true ->
  String.length (replace old "" s) < String.length s.
Proof.
  intros Hne. induction s as [|c s IH]; intros H.
  - cbn [contains] in H. rewrite orb_false_r in H. apply prefix_iff in H as [t Ht].
    destruct old; simpl in Ht; done.
  - destruct (startswith old (String c s)) eqn:E.
    + apply prefix_iff in E as [t Ht]. rewrite Ht.
      rewrite replace_match by done. simpl. rewrite slength_app.
      assert (String.length old <> 0) by (by destruct old).
      pose proof (length_replace_le old t Hne). lia.
    + rewrite replace_skip by done. cbn [contains] in H. rewrite E in H. simpl in *.
      apply IH in H. lia.
Qed.

Lemma lstrip_pad (l s : string) : all_space l = true -> lstrip (l +:+ s) = lstrip s.
Proof.
  induction l as [|c l IH]; simpl; [done |].
  intros [-> ?]%andb_true_iff. auto.
Qed.

Lemma rstrip_all_space (r : string) : all_space r = true -> rstrip r = "".
Proof.
  induction r as [|c r IH]; simpl; [done |].
  intros [-> ?]%andb_true_iff. by rewrite IH.
Qed.

Lemma rstrip_pad (s r : string) : all_space r = true -> rstrip (s +:+ r) = rstrip s.
Proof.
  intros Hr. induction s as [|c s IH]; simpl.
  - by apply rstrip_all_space.
  - by rewrite IH.
Qed.

Lemma length_lstrip (w : string) : String.length (lstrip w) <= String.length w.
Proof. induction w as [|d w IH]; simpl; [done |]. destruct (is_space d); simpl; lia. Qed.

Lemma lstrip_fixed_app (w r : string) :
  w <> "" -> lstrip w = w -> lstrip (w +:+ r) = w +:+ r.
Proof.
  destruct w as [|c w]; [done |]. intros _. simpl.
  destruct (is_space c); [|done].
  intros H. apply (f_equal String.length) in H. simpl in H.
  pose proof (length_lstrip w). lia.
Qed.

(** Whitespace around a word that has none at its ends is stripped. *)
Lemma strip_pad (l w r : string) :
  all_space l = true -> all_space r = true ->
  lstrip w = w -> rstrip w = w -> strip (l +:+ w +:+ r) = w.
Proof.
  intros Hl Hr Hw1 Hw2. unfold strip. rewrite lstrip_pad by done.
  destruct (decide (w = "")) as [->|Hne].
  - change ("" +:+ r) with r. rewrite <- (sapp_nil_r r).
    by rewrite (lstrip_pad r "").
  - rewrite lstrip_fixed_app by done. by rewrite rstrip_pad.
Qed.

End PyStrFacts.

(** ** The rating decoder *)

Module RatingFacts.
Import PyStr PyStrFacts ScrapeBooksBs.

Lemma ratings_map_lookup (w : string) (n : Z) :
  ratings_map !! w = Some n
  <-> (w, n) ∈ [("Zero", 0%Z); ("One", 1%Z); ("Two", 2%Z); ("Three", 3%Z);
                ("Four", 4%Z); ("Five", 5%Z)].
Proof.
  split.
  - unfold ratings_map. rewrite !lookup_insert, lookup_empty.
    repeat case_decide; intros; simplify_eq; set_solver.
  - rewrite !elem_of_cons, elem_of_nil.
    intros [H|[H|[H|[H|[H|[H|[]]]]]]]; by injection H as -> ->.
Qed.

(** Claim C3, as amended. [parse_rating] is a total function. Its
    vocabulary is the six words Zero, One, Two, Three, Four and Five. A
    string that is one of these words once the whitespace around it is
    stripped decodes to the matching integer, which lies in 0..5; any
    other string, the empty one included, decodes to 0. *)
Theorem parse_rating_spec :
  (forall w n, ratings_map !! w = Some n
     <-> (w, n) ∈ [("Zero", 0%Z); ("One", 1%Z); ("Two", 2%Z); ("Three", 3%Z);
                   ("Four", 4%Z); ("Five", 5%Z)])
  /\ (forall w n l r,
        ratings_map !! w = Some n -> all_space l = true -> all_space r = true ->
        parse_rating (l +:+ w +:+ r) = n /\ (0 <= n <= 5)%Z)
  /\ (forall s, ratings_map !! strip s = None -> parse_rating s = 0%Z)
  /\ parse_rating "" = 0%Z.
Proof.
  split_and!.
  - apply ratings_map_lookup.
  - intros w n l r Hw Hl Hr. unfold parse_rating.
    pose proof Hw as Hin. apply ratings_map_lookup in Hin.
    rewrite !elem_of_cons, elem_of_nil in Hin.
    assert (lstrip w = w /\ rstrip w = w /\ (0 <= n <= 5)%Z) as (H1 & H2 & H3).
    { destruct Hin as [H|[H|[H|[H|[H|[H|[]]]]]]]; injection H as -> ->;
        (split_and!; [reflexivity | reflexivity | lia | lia]). }
    by rewrite strip_pad, Hw.
  - intros s Hs. unfold parse_rating. by rewrite Hs.
  - reflexivity.
Qed.

Lemma parse_rating_spec_witness :
  parse_rating (" " +:+ "Three" +:+ "  ") = 3%Z /\ (0 <= 3 <= 5)%Z.
Proof.
  destruct parse_rating_spec as (_ & Hword & _).
  apply (Hword "Three" 3%Z " " "  "); reflexivity.
Defined.

(** Claim C3, as stated, fails: "Three " is none of the words of the
    vocabulary, and yet it does not decode to 0; and the vocabulary has six
    words, not seven. *)
Lemma parse_rating_outside_vocabulary :
  ~ (forall s, ratings_map !! s = None -> parse_rating s = 0%Z)
  /\ size ratings_map = 6.
Proof.
  split; [|reflexivity]. intros H. specialize (H "Three " eq_refl). done.
Qed.

End RatingFacts.

(** ** Locators *)

Module LocatorFacts.
Import PyStr PyStrFacts ScrapeBooksBs.



Lemma prefix_up2_up1 (s : string) :
  startswith "../../" s = true -> startswith "../" s = true.
Proof. intros [t ->]%prefix_iff. by apply prefix_iff; exists ("../" +:+ t). Qed.

Lemma prefix_up3_up1 (s : string) :
  startswith "../../../" s = true -> startswith "../" s = true.
Proof. intros [t ->]%prefix_iff. by apply prefix_iff; exists ("../../" +:+ t). Qed.

(** A "../" that does not open a "../../../" goes through the first pass. *)
Lemma up3_pass_keeps (s : string) :
  startswith "../../" s = false ->
  replace "../../../" "" ("../" +:+ s) = "../" +:+ replace "../../../" "" s.
Proof.
  intros H. change ("../" +:+ s) with (String "." (String "." (String "/" s))).
  rewrite replace_skip; [|done|exact H].
  rewrite replace_skip; [|done|reflexivity].
  rewrite replace_skip; [|done|reflexivity]. done.
Qed.

Lemma up1_pass_drops (s : string) : replace "../" "" ("../" +:+ s) = replace "../" "" s.
Proof. by rewrite replace_match. Qed.

Lemma up3_pass_drops (s : string) : replace "../../../" "" ("../../../" +:+ s) = replace "../../../" "" s.
Proof. by rewrite replace_match. Qed.

Lemma strip_parents_up1 (s : string) : strip_parents ("../" +:+ s) = strip_parents s.
Proof.
  unfold strip_parents.
  remember (String.length s) as n eqn:Hn. revert s Hn.
  induction (lt_wf n) as [n _ IH]. intros s ->.
  destruct (startswith "../../" s) eqn:E.
  - apply prefix_iff in E as [t ->].
    change ("../" +:+ "../../" +:+ t) with ("../../../" +:+ t). rewrite up3_pass_drops.
    destruct (startswith "../" t) eqn:E2.
    + apply prefix_iff in E2 as [u ->].
      change ("../../" +:+ "../" +:+ u) with ("../../../" +:+ u). rewrite up3_pass_drops.
      apply (IH (String.length u)); [simpl; lia | done].
    + change ("../../" +:+ t) with ("../" +:+ "../" +:+ t).
      rewrite !up3_pass_keeps, !up1_pass_drops; [done | |].
      * destruct (startswith "../../" t) eqn:E3; [|done].
        apply prefix_up2_up1 in E3. congruence.
      * exact E2.
  - by rewrite up3_pass_keeps, up1_pass_drops.
Qed.

Lemma strip_parents_repeat (k : nat) (suffix : string) :
  strip_parents (times "../" k +:+ suffix) = strip_parents suffix.
Proof.
  induction k as [|k IH]; [done |].
  cbn [times]. rewrite sapp_assoc, strip_parents_up1. exact IH.
Qed.

Lemma strip_parents_id (s : string) :
  contains "../" s = false -> strip_parents s = s.
Proof.
  intros H. unfold strip_parents.
  rewrite (replace_absent "../../../"), (replace_absent "../"); try done.
  eapply contains_prefix_mono; [|exact H]. apply prefix_up3_up1.
Qed.

Lemma strip_parents_shorter (s : string) :
  contains "../" s = true -> String.length (strip_parents s) < String.length s.
Proof.
  intros H. unfold strip_parents.
  destruct (contains "../" (replace "../../../" "" s)) eqn:E.
  - apply (length_replace_lt "../") in E; [|done].
    pose proof (length_replace_le "../../../" s ltac:(done)). lia.
  - rewrite (replace_absent "../") by done.
    destruct (contains "../../../" s) eqn:E3.
    + by apply length_replace_lt.
    + rewrite replace_absent in E by done. congruence.
Qed.


Section Marked.
Context {T : Type}.
Implicit Types s t m o pre post rest : list (ascii * T).

Lemma unmark_app s t : unmark (s ++ t) = unmark s +:+ unmark t.
Proof. induction s as [|[c x] s IH]; simpl; [done | by rewrite IH]. Qed.

Lemma unmark_length s : String.length (unmark s) = length s.
Proof. induction s as [|[c x] s IH]; simpl; [done | by rewrite IH]. Qed.

Lemma unmark_prefix_inv (p : string) s :
  startswith p (unmark s) = true -> exists m t, s = m ++ t /\ unmark m = p.
Proof.
  unfold startswith. revert s. induction p as [|c p IH]; intros s H.
  - by exists [], s.
  - destruct s as [|[d x] s]; simpl in H; [done |].
    destruct (ascii_dec c d) as [->|]; [|done].
    destruct (IH s H) as (m & t & -> & <-). by exists ((d, x) :: m), t.
Qed.

Lemma delete_go_skip (old : string) (k : nat) s :
  delete_go old k s = delete_go old 0 (drop k s).
Proof. revert k. induction s as [|x s IH]; intros [|k]; simpl; done. Qed.

Lemma delete_match (old : string) m t :
  old <> "" -> unmark m = old -> delete_marked old (m ++ t) = delete_marked old t.
Proof.
  intros Hne Hm. unfold delete_marked.
  destruct m as [|x m]; [by rewrite <- Hm in Hne |].
  cbn [app delete_go].
  change (unmark (x :: m ++ t)) with (unmark ((x :: m) ++ t)).
  rewrite unmark_app, Hm, prefix_app, delete_go_skip.
  f_equal. apply drop_app_length'.
  rewrite <- Hm, unmark_length. simpl. lia.
Qed.

Lemma delete_skip (old : string) x s :
  startswith old (unmark (x :: s)) = false ->
  delete_marked old (x :: s) = x :: delete_marked old s.
Proof. intros H. unfold delete_marked. cbn [delete_go]. by rewrite H. Qed.

Lemma delete_go_sublist (old : string) (k : nat) s :
  delete_go old k s `sublist_of` s.
Proof.
  revert k. induction s as [|x s IH]; intros k; [done |].
  cbn [delete_go]. destruct k; [|by apply sublist_cons].
  destruct (startswith old (unmark (x :: s)));
    [by apply sublist_cons | by apply sublist_skip].
Qed.

Lemma delete_sublist (old : string) s : delete_marked old s `sublist_of` s.
Proof. apply delete_go_sublist. Qed.

(** The marked scan and the scan of the string delete the same
    characters. *)
Lemma unmark_delete_go (old : string) (k : nat) s :
  unmark (delete_go old k s) = replace_go old "" k (unmark s).
Proof.
  revert k. induction s as [|[c x] s IH]; intros k; [done |].
  cbn [delete_go unmark replace_go]. destruct k; [|apply IH].
  change (String c (unmark s)) with (unmark ((c, x) :: s)).
  destruct (startswith old (unmark ((c, x) :: s))); simpl; by rewrite IH.
Qed.

Lemma unmark_delete (old : string) s :
  old <> "" -> unmark (delete_marked old s) = replace old "" (unmark s).
Proof. intros H. destruct old; [done |]. apply unmark_delete_go. Qed.

Lemma unmark_up1_inv o :
  unmark o = "../" -> exists x y z, o = [(".", x); (".", y); ("/", z)]%char.
Proof.
  destruct o as [|[c1 x] [|[c2 y] [|[c3 z] [|[c4 u] o]]]]; simpl; intros H;
    simplify_eq; eauto.
Qed.

(** Two occurrences of "../" do not overlap. *)
Lemma up1_no_overlap pre o post o' rest :
  unmark o = "../" -> unmark o' = "../" -> pre ++ o ++ post = o' ++ rest ->
  (pre = [] /\ o = o' /\ post = rest)
  \/ exists pre2, pre = o' ++ pre2 /\ pre2 ++ o ++ post = rest.
Proof.
  intros (x & y & z & ->)%unmark_up1_inv (x' & y' & z' & ->)%unmark_up1_inv H.
  destruct pre as [|a [|b [|c pre2]]]; simplify_eq/=; eauto.
Qed.

Lemma unmark_up3_inv m :
  unmark m = "../../../" ->
  exists o1 o2 o3, m = o1 ++ o2 ++ o3
    /\ unmark o1 = "../" /\ unmark o2 = "../" /\ unmark o3 = "../".
Proof.
  intros H.
  destruct m as [|[c1 x1] [|[c2 x2] [|[c3 x3] [|[c4 x4] [|[c5 x5] [|[c6 x6]
    [|[c7 x7] [|[c8 x8] [|[c9 x9] [|[c10 x10] m]]]]]]]]]]; simplify_eq/=.
  by exists [(".", x1); (".", x2); ("/", x3)]%char,
            [(".", x4); (".", x5); ("/", x6)]%char,
            [(".", x7); (".", x8); ("/", x9)]%char.
Qed.

(** The pass that deletes "../" takes out every occurrence and treats
    what is before and after it separately. *)
Lemma delete_up1_split pre o post :
  unmark o = "../" ->
  delete_marked "../" (pre ++ o ++ post)
  = delete_marked "../" pre ++ delete_marked "../" post.
Proof.
  intros Ho. remember (length pre) as n eqn:Hn. revert pre Hn.
  induction (lt_wf n) as [n _ IH]. intros pre ->.
  destruct (startswith "../" (unmark (pre ++ o ++ post))) eqn:E.
  - apply unmark_prefix_inv in E as (m & t & Heq & Hm).
    destruct (up1_no_overlap _ _ _ _ _ Ho Hm Heq)
      as [(-> & -> & ->) | (pre2 & -> & <-)].
    + simpl. by rewrite delete_match.
    + rewrite <- (assoc_L (++)).
      rewrite (delete_match "../" m (pre2 ++ o ++ post)) by done.
      rewrite (delete_match "../" m pre2) by done.
      apply (IH (length pre2)); [rewrite length_app|done].
      apply unmark_up1_inv in Hm as (? & ? & ? & ->). simpl. lia.
  - destruct pre as [|a pre2].
    + simpl in E. rewrite unmark_app, Ho, prefix_app in E. done.
    + rewrite <- app_comm_cons, delete_skip by done.
      rewrite (IH (length pre2)) by (done || simpl; lia).
      rewrite delete_skip; [done |].
      destruct (startswith "../" (unmark (a :: pre2))) eqn:E2; [|done].
      apply (prefix_app_l _ _ (unmark (o ++ post))) in E2.
      rewrite <- unmark_app in E2. congruence.
Qed.

(** The pass that deletes "../../../" either takes an occurrence of
    "../" out or leaves it in one piece. *)
Lemma delete_up3_cases pre o post :
  unmark o = "../" ->
  exists pre' post',
    pre' `sublist_of` pre /\ post' `sublist_of` post
    /\ (delete_marked "../../../" (pre ++ o ++ post) = pre' ++ o ++ post'
        \/ delete_marked "../../../" (pre ++ o ++ post) = pre' ++ post').
Proof.
  intros Ho. remember (length pre) as n eqn:Hn. revert pre Hn.
  induction (lt_wf n) as [n _ IH]. intros pre ->.
  destruct (startswith "../../../" (unmark (pre ++ o ++ post))) eqn:E.
  - apply unmark_prefix_inv in E as (m & rest & Heq & Hm).
    rewrite Heq, delete_match by done.
    apply unmark_up3_inv in Hm as (o1 & o2 & o3 & -> & H1 & H2 & H3).
    rewrite <- !(assoc_L (++)) in Heq.
    destruct (up1_no_overlap _ _ _ _ _ Ho H1 Heq)
      as [(-> & -> & ->) | (pre2 & -> & Heq2)].
    { exists [], (delete_marked "../../../" rest). split_and!; [done | | by right].
      do 2 apply sublist_inserts_l. apply delete_sublist. }
    destruct (up1_no_overlap _ _ _ _ _ Ho H2 Heq2)
      as [(-> & -> & ->) | (pre3 & -> & Heq3)].
    { exists [], (delete_marked "../../../" rest). split_and!; [apply sublist_nil_l | | by right].
      apply sublist_inserts_l, delete_sublist. }
    destruct (up1_no_overlap _ _ _ _ _ Ho H3 Heq3)
      as [(-> & -> & ->) | (pre4 & -> & <-)].
    { exists [], (delete_marked "../../../" rest). split_and!; [apply sublist_nil_l | | by right].
      apply delete_sublist. }
    destruct (IH (length pre4)) with (pre := pre4)
      as (pre' & post' & Hpre & Hpost & Hcases); [|done|].
    { rewrite !length_app. apply unmark_up1_inv in H1 as (? & ? & ? & ->).
      simpl. lia. }
    exists pre', post'. split_and!; [|done|done].
    by do 3 apply sublist_inserts_l.
  - destruct pre as [|a pre2].
    + apply unmark_up1_inv in Ho as (x & y & z & ->).
      exists [], (delete_marked "../../../" post). split_and!; [done | apply delete_sublist |].
      left. cbn [app] in *.
      rewrite delete_skip by done.
      rewrite delete_skip by reflexivity.
      by rewrite delete_skip by reflexivity.
    + destruct (IH (length pre2)) with (pre := pre2)
        as (pre' & post' & Hpre & Hpost & Hcases); [simpl; lia | done |].
      exists (a :: pre'), post'. split_and!; [by apply sublist_skip | done |].
      rewrite <- app_comm_cons, delete_skip by done.
      destruct Hcases as [-> | ->]; [by left | by right].
Qed.

(** After both passes nothing of an occurrence of "../" is left. *)
Lemma strip_parents_marked_sublist pre o post :
  unmark o = "../" ->
  strip_parents_marked (pre ++ o ++ post) `sublist_of` pre ++ post.
Proof.
  intros Ho. unfold strip_parents_marked.
  destruct (delete_up3_cases pre o post Ho)
    as (pre' & post' & Hpre & Hpost & [-> | ->]).
  - rewrite delete_up1_split by done.
    apply sublist_app; (etrans; [apply delete_sublist | done]).
  - etrans; [apply delete_sublist | by apply sublist_app].
Qed.

Lemma unmark_strip_parents s :
  unmark (strip_parents_marked s) = strip_parents (unmark s).
Proof. unfold strip_parents_marked, strip_parents. by rewrite !unmark_delete. Qed.
End Marked.

Lemma mark_from_app (n : nat) (s t : string) :
  mark_from n (s +:+ t) = mark_from n s ++ mark_from (n + String.length s) t.
Proof.
  revert n. induction s as [|c s IH]; intros n; simpl.
  - by rewrite Nat.add_0_r.
  - rewrite IH. do 3 f_equal. lia.
Qed.

Lemma unmark_mark_from (n : nat) (s : string) : unmark (mark_from n s) = s.
Proof. revert n. induction s as [|c s IH]; intros n; simpl; [done | by rewrite IH]. Qed.

Lemma marks_mark_from (n : nat) (s : string) :
  (mark_from n s).*2 = seq n (String.length s).
Proof. revert n. induction s as [|c s IH]; intros n; simpl; [done | by rewrite IH]. Qed.

Lemma kept_positions_occurrence (u v : string) (j : nat) :
  String.length u <= j < String.length u + 3 ->
  j ∉ kept_positions (u +:+ "../" +:+ v).
Proof.
  intros Hj Hin. unfold kept_positions in Hin.
  rewrite !mark_from_app in Hin.
  eapply sublist_subseteq in Hin;
    [|apply fmap_sublist, strip_parents_marked_sublist, unmark_mark_from].
  rewrite fmap_app, !marks_mark_from in Hin.
  apply elem_of_app in Hin as [Hin | Hin]; apply elem_of_seq in Hin; simpl in *; lia.
Qed.

(** Claim C7, as amended. For every suffix and every count, resolving
    "../" repeated [k] times followed by the suffix gives the same locator
    whatever [k] is: the catalogue root followed by the suffix with the two
    replacement passes applied to it, which is the suffix itself when no
    "../" occurs in it. *)
Theorem resolve_ignores_leading_parents (suffix : string) (k k' : nat) :
  resolve (times "../" k +:+ suffix) = resolve (times "../" k' +:+ suffix)
  /\ resolve (times "../" k +:+ suffix)
     = BASE_URL +:+ "catalogue/" +:+ strip_parents suffix
  /\ (contains "../" suffix = false ->
      resolve (times "../" k +:+ suffix) = BASE_URL +:+ "catalogue/" +:+ suffix).
Proof.
  unfold resolve. rewrite !strip_parents_repeat. split_and!; [done | done |].
  intros H. by rewrite strip_parents_id.
Qed.

Lemma resolve_ignores_leading_parents_witness :
  resolve (times "../" 3 +:+ "alpha.html") = resolve (times "../" 0 +:+ "alpha.html")
  /\ resolve (times "../" 3 +:+ "alpha.html")
     = "https://books.toscrape.com/catalogue/alpha.html".
Proof.
  destruct (resolve_ignores_leading_parents "alpha.html" 3 0) as (Hk & _ & Hroot).
  split; [exact Hk | apply Hroot; reflexivity].
Defined.

(** Claim C7, as stated, fails: with a "../" inside the suffix the
    result is not the catalogue root followed by the suffix. *)
Lemma resolve_alters_suffix :
  resolve (times "../" 2 +:+ "a/../b.html")
  <> BASE_URL +:+ "catalogue/" +:+ "a/../b.html".
Proof. intros H. vm_compute in H. discriminate H. Qed.

(** Claim C9. For every href, resolution puts the catalogue root in
    front of what the two passes leave of the href, whatever the href is,
    an absolute one included. What they leave is made of characters of the
    href in their order, and no character of any occurrence of "../" in the
    href, wherever it stands, is among them; so an href with a "../"
    anywhere in it is altered. *)
Theorem resolve_deletes_parent_segments (href : string) :
  resolve href
    = BASE_URL +:+ "catalogue/" +:+ unmark (strip_parents_marked (mark_from 0 href))
  /\ startswith (BASE_URL +:+ "catalogue/") (resolve href) = true
  /\ strip_parents_marked (mark_from 0 href) `sublist_of` mark_from 0 href
  /\ (forall u v j, href = u +:+ "../" +:+ v ->
        String.length u <= j < String.length u + 3 -> j ∉ kept_positions href)
  /\ (forall u v, href = u +:+ "../" +:+ v ->
        resolve href <> BASE_URL +:+ "catalogue/" +:+ href).
Proof.
  split_and!.
  - by rewrite unmark_strip_parents, unmark_mark_from.
  - unfold resolve. rewrite <- sapp_assoc. apply prefix_app.
  - unfold strip_parents_marked. etrans; apply delete_sublist.
  - intros u v j -> Hj. by apply kept_positions_occurrence.
  - intros u v -> H. unfold resolve in H.
    apply (inj (String.app BASE_URL)), (inj (String.app "catalogue/")) in H.
    pose proof (strip_parents_shorter (u +:+ "../" +:+ v)) as Hlt.
    rewrite H in Hlt. ospecialize (Hlt _); [|lia].
    apply contains_app_r, contains_app_here.
Qed.

Lemma resolve_deletes_parent_segments_witness :
  resolve "https://books.toscrape.com/a/../b.html"
    = "https://books.toscrape.com/catalogue/https://books.toscrape.com/a/b.html"
  /\ (29 ∉ kept_positions "https://books.toscrape.com/a/../b.html")
  /\ (30 ∉ kept_positions "https://books.toscrape.com/a/../b.html")
  /\ (31 ∉ kept_positions "https://books.toscrape.com/a/../b.html").
Proof.
  destruct (resolve_deletes_parent_segments "https://books.toscrape.com/a/../b.html")
    as (_ & _ & _ & Hocc & _).
  split; [reflexivity |].
  split_and!;
    apply (Hocc "https://books.toscrape.com/a/" "b.html"); (reflexivity || simpl; lia).
Defined.

End LocatorFacts.

(** ** Data frames *)

Module FrameFacts.
Import Py Pandas.

Lemma of_records_frame records :
  of_records records
  = frame (all_keys records) records (fun r c => default PNaN (dict_get c r)).
Proof. done. Qed.

Lemma frame_ext cols records cell cell' :
  (forall r c, r ∈ records -> c ∈ cols -> cell r c = cell' r c) ->
  frame cols records cell = frame cols records cell'.
Proof.
  intros H. unfold frame. f_equal.
  apply list_fmap_ext. intros i r Hr.
  apply list_fmap_ext. intros j c Hc.
  apply H; by eapply list_elem_of_lookup_2.
Qed.

Lemma column_index_Some col cols :
  col ∈ cols -> exists i, column_index col cols = Some i /\ cols !! i = Some col.
Proof.
  induction cols as [|c cols IH]; intros Hin; [by apply elem_of_nil in Hin |].
  simpl. destruct (String.eqb_spec col c) as [->|Hne]; [by exists 0 |].
  apply elem_of_cons in Hin as [?|Hin]; [done |].
  destruct (IH Hin) as (i & -> & Hi). by exists (S i).
Qed.

Lemma column_index_None col cols : col ∉ cols -> column_index col cols = None.
Proof.
  induction cols as [|c cols IH]; intros Hin; [done |]. simpl.
  destruct (String.eqb_spec col c) as [->|_]; [by destruct Hin; left |].
  rewrite IH; [done |]. intros ?. apply Hin. by right.
Qed.

Lemma get_column_frame cols records cell col :
  col ∈ cols ->
  get_column (frame cols records cell) col = Ok ((fun r => cell r col) <$> records).
Proof.
  intros (i & Hi & Hcol)%column_index_Some. unfold get_column. simpl. rewrite Hi.
  f_equal. rewrite <- list_fmap_compose. apply list_fmap_ext. intros j r _. simpl.
  by rewrite list_lookup_fmap, Hcol.
Qed.

Lemma set_column_frame cols records cell col (g : pyval -> pyval) :
  NoDup cols -> col ∈ cols ->
  set_column (frame cols records cell) col (g <$> ((fun r => cell r col) <$> records))
  = frame cols records (fun r c => if decide (c = col) then g (cell r col) else cell r c).
Proof.
  intros Hnd (i & Hi & Hcol)%column_index_Some. unfold set_column. simpl. rewrite Hi.
  unfold frame. f_equal.
  rewrite <- list_fmap_compose, zip_with_fmap_l, zip_with_fmap_r, zip_with_diag.
  apply list_fmap_ext. intros _ r _. simpl.
  apply list_eq. intros j. rewrite list_lookup_fmap.
  destruct (decide (j = i)) as [->|Hne].
  - rewrite list_lookup_insert_eq, Hcol; simpl.
    + by rewrite decide_True.
    + rewrite length_fmap. by eapply lookup_lt_Some.
  - rewrite list_lookup_insert_ne, list_lookup_fmap by done.
    destruct (cols !! j) as [c|] eqn:E; [simpl|done].
    rewrite decide_False; [done |]. intros ->.
    by pose proof (NoDup_lookup _ _ _ _ Hnd E Hcol).
Qed.

Lemma add_key_NoDup acc k : NoDup acc -> NoDup (add_key acc k).
Proof.
  intros H. unfold add_key. case_bool_decide as Hin; [done |].
  apply NoDup_app. split_and!; [done | | apply NoDup_singleton].
  intros x Hx ->%list_elem_of_singleton. done.
Qed.

Lemma elem_of_add_keys acc ks k :
  k ∈ foldl add_key acc ks <-> k ∈ acc \/ k ∈ ks.
Proof.
  revert acc. induction ks as [|k' ks IH]; intros acc; simpl.
  - split; [by left | intros [?|?%elem_of_nil]; done].
  - rewrite IH. unfold add_key. case_bool_decide as Hin.
    + rewrite elem_of_cons. split; [tauto |]. intros [?|[->|?]]; tauto.
    + rewrite elem_of_app, list_elem_of_singleton, elem_of_cons. tauto.
Qed.

Lemma all_keys_NoDup records : NoDup (all_keys records).
Proof.
  unfold all_keys. generalize (mjoin (keys <$> records)).
  assert (NoDup (@nil string)) as H by constructor. revert H.
  generalize (@nil string). intros acc H ks. revert acc H.
  induction ks as [|k ks IH]; intros acc H; [done |].
  simpl. by apply IH, add_key_NoDup.
Qed.

(** A column is there as soon as one record has the key. *)
Lemma elem_of_all_keys records col :
  col ∈ all_keys records <-> exists r, r ∈ records /\ col ∈ keys r.
Proof.
  unfold all_keys. rewrite elem_of_add_keys, list_elem_of_join.
  split.
  - intros [?%elem_of_nil | (ks & Hcol & (r & -> & Hr)%list_elem_of_fmap)]; [done |].
    by exists r.
  - intros (r & Hr & Hcol). right. exists (keys r). split; [done |].
    apply list_elem_of_fmap. by exists r.
Qed.

End FrameFacts.

(** ** The sequential crawl *)

Module CrawlFacts.
Import Py Bs4 ScrapeBooksBs Crawl.

Lemma get_soup_run w url st :
  get_soup w url st = (logged (Get url) st, respond w url).
Proof. unfold get_soup, bind, emit, lift. by destruct (respond w url). Qed.

(** From [get_soup w url st = (st1, r)]: the state after the request,
    and what the site answered. *)
Ltac fetched H :=
  rewrite get_soup_run in H; injection H as <- H.

Lemma parse_product_page_run w url st :
  parse_product_page w url st
  = (logged (Get url) st, let? page := respond w url in parse_product_soup page).
Proof.
  unfold parse_product_page, bind. rewrite get_soup_run.
  by destruct (respond w url).
Qed.

Lemma for_products_cons w product rest st :
  for_products w (product :: rest) st
  = match product_summary product with
    | Ok sm =>
        match (let? page := respond w (product_url sm) in parse_product_soup page) with
        | Ok details =>
            for_products w rest
              {| books_data := books_data st ++ [dict_update (basic_info sm) details];
                 log := log st ++ [Get (product_url sm)] |}
        | Raise e => (logged (Get (product_url sm)) st, Raise e)
        | Unfinished => (logged (Get (product_url sm)) st, Unfinished)
        end
    | Raise e => (st, Raise e)
    | Unfinished => (st, Unfinished)
    end.
Proof.
  cbn [for_products]. unfold bind at 1. unfold lift at 1.
  destruct (product_summary product) as [sm|e|]; [|done..].
  unfold bind at 1. rewrite parse_product_page_run.
  destruct (let? page := respond w (product_url sm) in parse_product_soup page);
    [|done..].
  unfold bind at 1, append. done.
Qed.

Lemma for_products_app w pre rest st :
  for_products w (pre ++ rest) st
  = match for_products w pre st with
    | (st', Ok _) => for_products w rest st'
    | other => other
    end.
Proof.
  revert st. induction pre as [|product pre IH]; intros st; [done |].
  rewrite <- app_comm_cons, !for_products_cons.
  destruct (product_summary product) as [sm|e|]; [|done..].
  destruct (let? page := respond w (product_url sm) in parse_product_soup page);
    [apply IH|done..].
Qed.

(** Whatever happens, the loop over the products only sends requests
    and only appends records. *)
Lemma for_products_grows w products st st' r :
  for_products w products st = (st', r) ->
  (exists urls, log st' = log st ++ (Get <$> urls))
  /\ (exists recs, books_data st' = books_data st ++ recs
        /\ length recs <= length products
        /\ (r = Ok tt -> length recs = length products)).
Proof.
  revert st. induction products as [|product rest IH]; intros st.
  - intros [= <- <-]. split; [by exists []; rewrite app_nil_r |].
    exists []. by rewrite app_nil_r.
  - rewrite for_products_cons.
    destruct (product_summary product) as [sm|e|].
    2,3: intros [= <- <-]; (split; [by exists []; rewrite app_nil_r |]);
         exists []; rewrite app_nil_r; split_and!; [done | simpl; lia | done].
    destruct (let? page := respond w (product_url sm) in parse_product_soup page)
      as [details|e|].
    2,3: intros [= <- <-]; (split; [by exists [product_url sm] |]);
         exists []; rewrite app_nil_r; split_and!; [done | simpl; lia | done].
    intros H. apply IH in H as [(urls & Hl) (recs & Hb & Hle & Hok)].
    simpl in Hl, Hb. split.
    + exists (product_url sm :: urls). by rewrite Hl, <- (assoc_L (++)).
    + exists (dict_update (basic_info sm) details :: recs).
      rewrite Hb, <- (assoc_L (++)). split_and!; [done | simpl; lia |].
      intros ?. simpl. by rewrite Hok.
Qed.

Lemma enrich_inv w product rec :
  enrich w product = Ok rec ->
  exists sm page details,
    product_summary product = Ok sm /\ respond w (product_url sm) = Ok page
    /\ parse_product_soup page = Ok details
    /\ rec = dict_update (basic_info sm) details.
Proof.
  unfold enrich. destruct (product_summary product) as [sm|e|] eqn:E1; [simpl|done..].
  destruct (respond w (product_url sm)) as [page|e|] eqn:E2; [simpl|done..].
  destruct (parse_product_soup page) as [details|e|] eqn:E; [simpl|done..].
  intros [= <-]. by exists sm, page, details.
Qed.

Lemma for_products_ok w products records st :
  Forall2 (fun product rec => enrich w product = Ok rec) products records ->
  for_products w products st
  = ({| books_data := books_data st ++ records;
        log := log st ++ (Get <$> omap detail_url products) |}, Ok tt).
Proof.
  intros H. revert st. induction H as [|product rec products records Hp _ IH]; intros st.
  - simpl. unfold ret. destruct st. simpl. by rewrite ?app_nil_r.
  - rewrite for_products_cons.
    apply enrich_inv in Hp as (sm & page & details & Hsm & Hpage & Hd & ->).
    rewrite Hsm, Hpage. simpl. rewrite Hd, IH. simpl.
    assert (detail_url product = Some (product_url sm)) as ->
      by (unfold detail_url; by rewrite Hsm).
    by rewrite <- !(assoc_L (++)).
Qed.

(** Each pass of the [while] loop starts with one request. *)
Lemma while_pages_step fuel w page_url st :
  while_pages (S fuel) w page_url st
  = match respond w page_url with
    | Ok page =>
        match for_products w (product_list page) (logged (Get page_url) st) with
        | (st', Ok _) =>
            match next_page page with
            | Ok (Some url) => while_pages fuel w url st'
            | Ok None => (st', Ok tt)
            | Raise e => (st', Raise e)
            | Unfinished => (st', Unfinished)
            end
        | (st', Raise e) => (st', Raise e)
        | (st', Unfinished) => (st', Unfinished)
        end
    | Raise e => (logged (Get page_url) st, Raise e)
    | Unfinished => (logged (Get page_url) st, Unfinished)
    end.
Proof.
  cbn [while_pages]. unfold bind at 1. rewrite get_soup_run.
  destruct (respond w page_url) as [page|e|]; [|done..].
  unfold bind at 1.
  destruct (for_products w (product_list page) (logged (Get page_url) st)) as [st' [[]|e|]];
    [|done..].
  unfold bind at 1, lift.
  by destruct (next_page page) as [[url|]|e|].
Qed.

Lemma crawl_to_while w n url st url' st' fuel :
  crawl_to w n url st url' st' ->
  while_pages (n + fuel) w url st = while_pages fuel w url' st'.
Proof.
  induction 1 as [|n url st page st1 st2 url1 url' st' Hget Hfor Hnext _ IH]; [done |].
  cbn [Nat.add]. rewrite while_pages_step.
  fetched Hget.
  by rewrite Hget, Hfor, Hnext.
Qed.

Lemma crawl_to_log w n url st url' st' :
  crawl_to w n url st url' st' -> exists urls, log st' = log st ++ (Get <$> urls).
Proof.
  induction 1 as [|n url st page st1 st2 url1 url' st' Hget Hfor Hnext _ IH].
  - exists []. by rewrite app_nil_r.
  - fetched Hget.
    apply for_products_grows in Hfor as [(urls1 & H1) _].
    destruct IH as (urls2 & H2). exists (url :: urls1 ++ urls2).
    rewrite H2, H1. simpl. rewrite fmap_app. by rewrite <- !(assoc_L (++)).
Qed.

Lemma gets_no_write (urls : list string) path df : ToCsv path df ∉ Get <$> urls.
Proof. intros (url & ? & _)%list_elem_of_fmap. done. Qed.

(** The fetcher raises exactly when there is no response or the status
    is a 4xx or a 5xx. *)
Lemma respond_raises_iff (w : web) (url : string) (e : exn) :
  respond w url = Raise e
  <-> (w url = NoResponse /\ e = ConnectionError url)
      \/ (exists status_code text,
            w url = Response status_code text
            /\ (400 <= status_code < 600)%Z /\ e = HTTPError url status_code).
Proof.
  unfold respond, raise_for_status. destruct (w url) as [status_code text|].
  - destruct (400 <=? status_code)%Z eqn:E1; destruct (status_code <? 600)%Z eqn:E2;
      simpl; (split; [intros H | intros [[? _] | (c & t & [= <- <-] & Hc & ->)]]);
      try done; try lia.
    injection H as <-. right. exists status_code, text. split_and!; [done | lia | lia | done].
  - split; [intros [= <-]; by left | intros [[_ ->] | (c & t & ? & _)]; done].
Qed.

(** Claim C2, as amended. Take a crawl that has worked through [n] whole
    pages, has fetched the next listing page and has recorded the products
    before the [k]-th of that page, and let the fetch of the [k]-th
    product's page fail: the request gets no response, or a response with
    a 4xx or 5xx status. Then [main] ends with the exception of that
    request, [ConnectionError] or [HTTPError] with the locator in it; the
    failed request is the last thing it did, sent once; the accumulator
    holds the records of the earlier pages and of the products before the
    [k]-th and nothing more; and no file is written. *)
Theorem fetch_failure_is_terminal (project_dir : string) (w : web) (n fuel : nat)
    (url : string) (st st1 st_k : state) (page : soup)
    (pre post : list product_pod) (product : product_pod) (sm : summary) (e : exn) :
  crawl_to w n (BASE_URL +:+ "index.html") initial url st ->
  get_soup w url st = (st1, Ok page) ->
  product_list page = pre ++ product :: post ->
  for_products w pre st1 = (st_k, Ok tt) ->
  product_summary product = Ok sm ->
  (w (product_url sm) = NoResponse /\ e = ConnectionError (product_url sm))
  \/ (exists status_code text,
        w (product_url sm) = Response status_code text
        /\ (400 <= status_code < 600)%Z /\ e = HTTPError (product_url sm) status_code) ->
  main project_dir (n + S fuel) w initial
    = (logged (Get (product_url sm)) st_k, Raise e)
  /\ length (books_data st_k) = length (books_data st) + length pre
  /\ (forall path df, ToCsv path df ∉ log (logged (Get (product_url sm)) st_k)).
Proof.
  intros Hcrawl Hget Hlist Hpre Hsm Hfail. apply respond_raises_iff in Hfail.
  assert (while_pages (n + S fuel) w (BASE_URL +:+ "index.html") initial
          = (logged (Get (product_url sm)) st_k, Raise e)) as Hwhile.
  { rewrite (crawl_to_while _ _ _ _ _ _ _ Hcrawl), while_pages_step.
    fetched Hget.
    rewrite Hget, Hlist, for_products_app, Hpre, for_products_cons, Hsm, Hfail.
    done. }
  split_and!.
  - unfold main, scrape_books. unfold bind at 1. unfold bind at 1. unfold bind at 1.
    change ({| books_data := []; log := log initial |}) with initial.
    by rewrite Hwhile.
  - fetched Hget.
    apply for_products_grows in Hpre as [_ (recs & -> & _ & Hlen)].
    rewrite length_app, Hlen by done. done.
  - intros path df. apply crawl_to_log in Hcrawl as (urls0 & H0).
    fetched Hget.
    apply for_products_grows in Hpre as [(urls1 & H1) _].
    assert (log (logged (Get (product_url sm)) st_k)
            = Get <$> (urls0 ++ [url] ++ urls1 ++ [product_url sm])) as ->.
    { cbn [logged log]. rewrite H1. cbn [logged log]. rewrite H0.
      rewrite !fmap_app, <- !(assoc_L (++)). done. }
    apply gets_no_write.
Qed.

(** The nine keys of the details, whatever the page. *)
Lemma parse_product_soup_keys page details :
  parse_product_soup page = Ok details ->
  keys details = ["upc"; "product_type"; "price_excl_tax"; "price_incl_tax"; "tax";
                  "availability_detail"; "num_reviews"; "category"; "description"]
  /\ dict_get "category" details = Some (of_optional (category_of page)).
Proof.
  unfold parse_product_soup.
  destruct (match table_striped page with Some rs => read_rows rs ∅ | None => Ok ∅ end)
    as [product_info|e|]; [simpl|done..].
  destruct (match product_description page with
            | Some sibling => let? p := deref AttributeError sibling in Ok (Some (get_text_strip p))
            | None => Ok None end) as [description|e|]; [simpl|done..].
  by intros [= <-].
Qed.

Lemma update_details sm details :
  keys details = ["upc"; "product_type"; "price_excl_tax"; "price_incl_tax"; "tax";
                  "availability_detail"; "num_reviews"; "category"; "description"] ->
  dict_update (basic_info sm) details = basic_info sm ++ details.
Proof.
  unfold keys. intros H.
  destruct details as [|[k1 v1] [|[k2 v2] [|[k3 v3] [|[k4 v4] [|[k5 v5] [|[k6 v6]
    [|[k7 v7] [|[k8 v8] [|[k9 v9] [|[k10 v10] details]]]]]]]]]]; simplify_eq/=.
  reflexivity.
Qed.

Lemma fetch_failure_is_terminal_witness :
  exists st_k,
    main "/repo" 2 Sample.broken_second_page initial
      = (logged (Get (BASE_URL +:+ "catalogue/beta.html")) st_k,
         Raise (HTTPError (BASE_URL +:+ "catalogue/beta.html") 404))
    /\ books_data st_k = [Sample.alpha_record; Sample.gamma_record]
    /\ log (logged (Get (BASE_URL +:+ "catalogue/beta.html")) st_k)
       = Get <$> [ BASE_URL +:+ "index.html"; BASE_URL +:+ "catalogue/alpha.html";
                   BASE_URL +:+ "catalogue/page-2.html";
                   BASE_URL +:+ "catalogue/gamma.html";
                   BASE_URL +:+ "catalogue/beta.html" ]
    /\ (forall path df,
          ToCsv path df ∉ log (logged (Get (BASE_URL +:+ "catalogue/beta.html")) st_k)).
Proof.
  eassert (_ /\ _ /\ _) as (Hmain & Hlen & Hlog).
  { eapply (fetch_failure_is_terminal "/repo" Sample.broken_second_page 1 0
              (BASE_URL +:+ "catalogue/page-2.html")).
    - eapply crawl_page; [vm_compute; reflexivity .. | apply crawl_here].
    - vm_compute; reflexivity.
    - exact (eq_refl : _ = [Sample.gamma] ++ Sample.beta :: [Sample.alpha]).
    - vm_compute; reflexivity.
    - vm_compute; reflexivity.
    - right. exists 404%Z, Sample.blank.
      split_and!; [vm_compute; reflexivity | lia | lia | reflexivity]. }
  eexists. split_and!; [exact Hmain | reflexivity | reflexivity | exact Hlog].
Defined.

(** Claim C2, as stated, fails. On the site [Fixtures.not_modified] the
    page of the second product answers with the status 304, which is no
    success status. [raise_for_status] lets it pass: the crawl takes the
    record of the product from the body it got, and [main] writes the file
    and returns. It is so for every status below 400 and from 600 on: the
    fetcher returns the body and raises nothing. *)
Lemma non_success_status_passes :
  Fixtures.not_modified (BASE_URL +:+ "catalogue/beta.html") = Response 304 Sample.blank
  /\ main "/repo" 1 Fixtures.not_modified initial
     = ({| books_data := [Sample.alpha_record; Sample.beta_record];
           log := (Get <$> [ BASE_URL +:+ "index.html";
                             BASE_URL +:+ "catalogue/alpha.html";
                             BASE_URL +:+ "catalogue/beta.html" ])
                  ++ [ToCsv "/repo/data/books_data_bs.csv" Sample.sequential_frame] |},
        Ok tt)
  /\ (forall (w : web) url status_code text,
        w url = Response status_code text ->
        (status_code < 400 \/ 600 <= status_code)%Z ->
        respond w url = Ok text).
Proof.
  split_and!; [vm_compute; reflexivity | vm_compute; reflexivity |].
  intros w url status_code text Hw Hcode. unfold respond, raise_for_status.
  rewrite Hw.
  destruct (400 <=? status_code)%Z eqn:E1; destruct (status_code <? 600)%Z eqn:E2;
    simpl; (done || lia).
Qed.

(** Claim C4. When a listing page has no "next" control and each of its
    [N] products can be read and enriched, one pass of the loop appends
    exactly [N] records, the [i]-th carrying the title, price, availability
    and rating of the [i]-th product of the page, and the loop ends there:
    no further listing page is requested. *)
Theorem listing_without_next (w : web) (page_url : string) (page : soup)
    (records : list pydict) (st : state) (fuel : nat) :
  respond w page_url = Ok page ->
  li_next page = None ->
  Forall2 (fun product rec => enrich w product = Ok rec) (product_list page) records ->
  while_pages (S fuel) w page_url st
    = ({| books_data := books_data st ++ records;
          log := log st ++ Get page_url :: (Get <$> omap detail_url (product_list page)) |},
       Ok tt)
  /\ length records = length (product_list page)
  /\ Forall2 (fun product rec =>
               exists sm, product_summary product = Ok sm
                 /\ dict_get "title" rec = Some (PStr (title sm))
                 /\ dict_get "price" rec = Some (PFloat (price sm))
                 /\ dict_get "availability" rec = Some (PStr (availability_text sm))
                 /\ dict_get "rating" rec = Some (PInt (rating sm)))
       (product_list page) records.
Proof.
  intros Hresp Hnext Hitems. split_and!.
  - rewrite while_pages_step, Hresp, (for_products_ok _ _ _ _ Hitems).
    unfold next_page. rewrite Hnext. cbn [logged books_data log].
    by rewrite <- (assoc_L (++)).
  - symmetry. by eapply Forall2_length.
  - eapply Forall2_impl; [exact Hitems |].
    intros product rec (sm & page' & details & Hsm & _ & Hd & ->)%enrich_inv.
    exists sm. apply parse_product_soup_keys in Hd as [Hk _].
    by rewrite (update_details _ _ Hk).
Qed.

Lemma listing_without_next_witness :
  while_pages 1 Sample.one_page (BASE_URL +:+ "index.html") initial
    = ({| books_data := [Sample.alpha_record; Sample.beta_record];
          log := Get <$> [ BASE_URL +:+ "index.html"; BASE_URL +:+ "catalogue/alpha.html";
                           BASE_URL +:+ "catalogue/beta.html" ] |}, Ok tt)
  /\ length [Sample.alpha_record; Sample.beta_record]
     = length (product_list (Sample.listing [Sample.alpha; Sample.beta] None)).
Proof.
  destruct (listing_without_next Sample.one_page (BASE_URL +:+ "index.html")
              (Sample.listing [Sample.alpha; Sample.beta] None)
              [Sample.alpha_record; Sample.beta_record] initial 0)
    as (Hrun & Hlen & _).
  - reflexivity.
  - reflexivity.
  - repeat constructor.
  - split; [exact Hrun | exact Hlen].
Defined.

Lemma read_rows_total rs product_info :
  Forall row_complete rs -> exists m, read_rows rs product_info = Ok m.
Proof.
  intros H. revert product_info.
  induction H as [|row rs [[header Hh] [value Hv]] _ IH]; intros product_info.
  - by eexists.
  - simpl. rewrite Hh, Hv. simpl. apply IH.
Qed.

Lemma parse_product_soup_total page :
  well_formed_detail page -> exists details, parse_product_soup page = Ok details.
Proof.
  intros [Hrows Hdesc]. unfold parse_product_soup.
  assert (exists m, match table_striped page with
                    | Some rs => read_rows rs ∅ | None => Ok ∅ end = Ok m) as [m ->].
  { destruct (table_striped page) as [rs|]; [|by eexists].
    by apply read_rows_total, Hrows. }
  simpl. destruct (product_description page) as [[p|]|]; [simpl | done | simpl];
    by eexists.
Qed.

(** Whenever [parse_product_page] returns, the page was served and the
    category is what [category_of] finds in its breadcrumb. *)
Lemma category_when_returned (w : web) (url : string) (st st' : state) (details : pydict) :
  parse_product_page w url st = (st', Ok details) ->
  exists page, respond w url = Ok page
    /\ dict_get "category" details = Some (of_optional (category_of page)).
Proof.
  rewrite parse_product_page_run.
  destruct (respond w url) as [page|e|]; [simpl|done..].
  intros [= _ Hd]. exists page. split; [done |].
  by apply parse_product_soup_keys in Hd as [_ ->].
Qed.

(** Claim C8. On a detail page that can be fetched and parsed, the
    category is the text of the third link of the breadcrumb trail when the
    trail has at least three links, and [None] when it is shorter. *)
Theorem category_is_third_breadcrumb (w : web) (url : string) (page : soup) (st : state) :
  respond w url = Ok page ->
  well_formed_detail page ->
  exists details,
    parse_product_page w url st = (logged (Get url) st, Ok details)
    /\ (3 <= length (breadcrumb page) ->
          exists link, breadcrumb page !! 2 = Some link
            /\ dict_get "category" details = Some (PStr (get_text_strip link)))
    /\ (length (breadcrumb page) < 3 -> dict_get "category" details = Some PNone).
Proof.
  intros Hresp [details Hd]%parse_product_soup_total. exists details.
  rewrite parse_product_page_run, Hresp. simpl. split; [by rewrite Hd |].
  apply parse_product_soup_keys in Hd as [_ ->]. unfold category_of. split.
  - intros Hlen. destruct (lookup_lt_is_Some_2 (breadcrumb page) 2) as [link Hlink]; [lia |].
    exists link. split; [done |]. rewrite bool_decide_true by lia. by rewrite Hlink.
  - intros Hlen. by rewrite bool_decide_false by lia.
Qed.

Lemma category_is_third_breadcrumb_witness :
  exists details,
    parse_product_page Sample.one_page (BASE_URL +:+ "catalogue/alpha.html") initial
      = (logged (Get (BASE_URL +:+ "catalogue/alpha.html")) initial, Ok details)
    /\ dict_get "category" details = Some (PStr "Poetry").
Proof.
  assert (well_formed_detail
            (Sample.detail "Poetry" "a897fe39" (Some (Some ["  A poem. "])))) as Hwf.
  { split; [|done]. intros rs [= <-]. repeat constructor; by eexists. }
  destruct (category_is_third_breadcrumb Sample.one_page
              (BASE_URL +:+ "catalogue/alpha.html") _ initial eq_refl Hwf)
    as (details & Hrun & Hlong & _).
  exists details. split; [exact Hrun |].
  destruct Hlong as (link & Hlink & ->); [simpl; lia |].
  by injection Hlink as <-.
Defined.

(** On a well-formed detail page every field is looked up on its own:
    a key the table lacks gives [None] and leaves the other fields as they
    are. *)
Lemma details_of_well_formed (page : soup) :
  well_formed_detail page ->
  exists (product_info : gmap string string) (description : option string),
    parse_product_soup page
    = Ok [ ("upc", of_optional (product_info !! "UPC"));
           ("product_type", of_optional (product_info !! "Product Type"));
           ("price_excl_tax", of_optional (product_info !! "Price (excl. tax)"));
           ("price_incl_tax", of_optional (product_info !! "Price (incl. tax)"));
           ("tax", of_optional (product_info !! "Tax"));
           ("availability_detail", of_optional (product_info !! "Availability"));
           ("num_reviews", of_optional (product_info !! "Number of reviews"));
           ("category", of_optional (category_of page));
           ("description", of_optional description) ]
    /\ (table_striped page = None -> product_info = ∅)
    /\ (product_description page = None -> description = None).
Proof.
  intros [Hrows Hdesc]. unfold parse_product_soup.
  destruct (table_striped page) as [rs|] eqn:Ht.
  - destruct (read_rows_total rs ∅) as [m Hm]; [by apply Hrows |]. rewrite Hm. simpl.
    destruct (product_description page) as [[p|]|]; [|done|].
    + by exists m, (Some (get_text_strip p)).
    + by exists m, None.
  - simpl. destruct (product_description page) as [[p|]|]; [|done|].
    + by exists ∅, (Some (get_text_strip p)).
    + by exists ∅, None.
Qed.

(** Claim C5 at a detail page that has the description heading and no
    paragraph after it: the page is served, its breadcrumb gives the
    category and its table the UPC, and [parse_product_page] raises
    [AttributeError] all the same, whereas the same page without the
    heading gives every field, the description as [None]. *)
Theorem detail_without_paragraph_raises (st : state) :
  respond (Sample.serve [("poem.html", Response 200 Sample.detail_without_paragraph)])
    "poem.html"
    = Ok Sample.detail_without_paragraph
  /\ parse_product_page
       (Sample.serve [("poem.html", Response 200 Sample.detail_without_paragraph)])
       "poem.html" st
     = (logged (Get "poem.html") st, Raise AttributeError)
  /\ category_of Sample.detail_without_paragraph = Some "Poetry"
  /\ read_rows [ {| th := Some ["UPC"]; td := Some ["a897fe39"] |};
                 {| th := Some ["Number of reviews"]; td := Some ["0"] |} ] ∅
     = Ok (<["Number of reviews" := "0"]> (<["UPC" := "a897fe39"]> ∅))
  /\ parse_product_soup (Sample.detail "Poetry" "a897fe39" None)
     = Ok [ ("upc", PStr "a897fe39"); ("product_type", PNone);
            ("price_excl_tax", PNone); ("price_incl_tax", PNone); ("tax", PNone);
            ("availability_detail", PNone); ("num_reviews", PStr "0");
            ("category", PStr "Poetry"); ("description", PNone) ].
Proof. split_and!; reflexivity. Qed.

(** The thirteen keys of every record the crawl appends. *)
Lemma for_products_keys w products st st' r :
  for_products w products st = (st', r) ->
  Forall (fun rec => keys rec = keys Sample.alpha_record) (books_data st) ->
  Forall (fun rec => keys rec = keys Sample.alpha_record) (books_data st').
Proof.
  revert st. induction products as [|product rest IH]; intros st.
  - by intros [= <- <-].
  - rewrite for_products_cons.
    destruct (product_summary product) as [sm|e|]; [|by intros [= <- <-]..].
    destruct (respond w (product_url sm)) as [page|e|]; simpl;
      [|by intros [= <- <-]..].
    destruct (parse_product_soup page) as [details|e|] eqn:Hd;
      [|by intros [= <- <-]..].
    intros H Hst. apply IH in H; [done |]. simpl.
    apply Forall_app. split; [done |]. apply Forall_singleton.
    apply parse_product_soup_keys in Hd as [Hk _].
    rewrite (update_details _ _ Hk). unfold keys in *.
    by rewrite fmap_app, Hk.
Qed.

Lemma while_pages_keys fuel w page_url st st' r :
  while_pages fuel w page_url st = (st', r) ->
  Forall (fun rec => keys rec = keys Sample.alpha_record) (books_data st) ->
  Forall (fun rec => keys rec = keys Sample.alpha_record) (books_data st').
Proof.
  revert page_url st. induction fuel as [|fuel IH]; intros page_url st.
  - by intros [= <- <-].
  - rewrite while_pages_step.
    destruct (respond w page_url) as [page|e|]; [|by intros [= <- <-]..].
    destruct (for_products w (product_list page) (logged (Get page_url) st))
      as [st1 r1] eqn:Hfor.
    intros H Hst. apply for_products_keys in Hfor; [|done].
    destruct r1 as [[]|e|]; [|by injection H as <- <-..].
    destruct (next_page page) as [[url|]|e|]; [by eapply IH | by injection H as <- <-..].
Qed.

End CrawlFacts.

(** ** The concurrent variant *)

Module GatherFacts.
Import Py ScrapeLocalAsync.

Section Gather.
Context {A : Type}.
Implicit Types (units : list (result A)) (values : list A)
  (completion : list nat) (slots : list (option A)).

Lemma gather_go_ok values completion slots :
  gather_go (Ok <$> values) completion slots
  = Ok (foldl (fill values) slots completion).
Proof.
  revert slots. induction completion as [|i later IH]; intros slots; [done |].
  cbn [gather_go foldl]. rewrite list_lookup_fmap. unfold fill at 2.
  destruct (values !! i); simpl; apply IH.
Qed.

Lemma length_fill values completion slots :
  length (foldl (fill values) slots completion) = length slots.
Proof.
  revert slots. induction completion as [|i later IH]; intros slots; [done |].
  cbn [foldl]. rewrite IH. unfold fill. destruct (values !! i); [|done].
  apply length_insert.
Qed.

Lemma lookup_fill values completion slots (i : nat) :
  length slots = length values ->
  foldl (fill values) slots completion !! i
  = if decide (i ∈ completion) then (Some <$> values) !! i else slots !! i.
Proof.
  intros Hlen. revert slots Hlen.
  induction completion as [|j later IH]; intros slots Hlen.
  - cbn [foldl]. case_decide as Hin; [by apply elem_of_nil in Hin | done].
  - cbn [foldl]. rewrite IH; last first.
    { unfold fill. destruct (values !! j); [by rewrite length_insert | done]. }
    destruct (decide (i ∈ later)) as [Hin|Hnin].
    + by rewrite decide_True by (by right).
    + destruct (decide (i = j)) as [->|Hne].
      * rewrite decide_True by left. unfold fill. rewrite list_lookup_fmap.
        destruct (values !! j) as [a|] eqn:E; simpl.
        -- apply list_lookup_insert_eq. rewrite Hlen. by eapply lookup_lt_Some.
        -- apply lookup_ge_None. rewrite Hlen. by apply lookup_ge_None.
      * rewrite decide_False by (by intros [?|?]%elem_of_cons).
        unfold fill. destruct (values !! j); [|done].
        by apply list_lookup_insert_ne.
Qed.

(** Once every unit has completed, in whatever order, the slots hold
    the results in the order of the units. *)
Lemma gather_ok values completion :
  (forall i, i < length values -> i ∈ completion) ->
  gather (Ok <$> values) completion = Ok values.
Proof.
  intros Hall. unfold gather. rewrite gather_go_ok. simpl.
  assert (foldl (fill values) (replicate (length (Ok <$> values)) None) completion
          = Some <$> values) as ->.
  { apply list_eq. intros i.
    rewrite lookup_fill by (by rewrite length_replicate, length_fmap).
    destruct (decide (i ∈ completion)) as [|Hnin]; [done |].
    destruct (decide (i < length values)) as [Hi|Hi]; [by apply Hall in Hi |].
    rewrite !lookup_ge_None_2; [done | | ];
      rewrite ?length_replicate, ?length_fmap; lia. }
  by rewrite mapM_fmap_Some.
Qed.

Lemma gather_go_Ok_inv units completion slots slots' (i : nat) :
  gather_go units completion slots = Ok slots' ->
  i ∈ completion -> i < length units -> exists a, units !! i = Some (Ok a).
Proof.
  revert slots. induction completion as [|j later IH]; intros slots H Hin Hi.
  - by apply elem_of_nil in Hin.
  - cbn [gather_go] in H.
    destruct (units !! j) as [[a|e|]|] eqn:E; try done.
    + apply elem_of_cons in Hin as [->|Hin]; [by exists a | by eapply IH].
    + apply elem_of_cons in Hin as [->|Hin]; [|by eapply IH].
      apply lookup_ge_None in E. lia.
Qed.

Lemma all_ok_values units :
  (forall i, i < length units -> exists a, units !! i = Some (Ok a)) ->
  exists values, units = Ok <$> values.
Proof.
  induction units as [|u units IH]; intros H; [by exists [] |].
  destruct (H 0) as [a [= ->]]; [simpl; lia |].
  destruct IH as [values ->].
  { intros i Hi. apply (H (S i)). simpl. lia. }
  by exists (a :: values).
Qed.

Lemma gather_Ok_inv units completion values :
  (forall i, i < length units -> i ∈ completion) ->
  gather units completion = Ok values -> units = Ok <$> values.
Proof.
  intros Hall H.
  destruct (all_ok_values units) as [values' ->].
  { intros i Hi. unfold gather in H.
    destruct (gather_go units completion _) as [slots'| |] eqn:E; [|done..].
    eapply gather_go_Ok_inv; eauto. }
  rewrite gather_ok in H; [by injection H as -> |].
  intros i Hi. apply Hall. by rewrite length_fmap.
Qed.
End Gather.

Lemma permutation_covers (completion : list nat) (n i : nat) :
  completion ≡ₚ seq 0 n -> i < n -> i ∈ completion.
Proof. intros -> ?. apply elem_of_seq. lia. Qed.

End GatherFacts.

Module AsyncFacts.
Import Py Pandas ScrapeLocalAsync GatherFacts FrameFacts.

Section Async.
Variable parse_html_file : string -> result (list pydict).
Variable str_to_number : string -> option number.

Lemma parse_in_turn_Ok files rs :
  parse_in_turn parse_html_file files = Ok rs
  <-> parse_html_file <$> files = Ok <$> rs.
Proof.
  revert rs. induction files as [|f files IH]; intros rs; simpl.
  - split; [by intros [= <-] | by destruct rs].
  - destruct (parse_html_file f) as [r|e|]; simpl.
    2,3: split; [done | by destruct rs].
    destruct (parse_in_turn parse_html_file files) as [rs'|e|]; simpl.
    + split.
      * intros [= <-]. simpl. f_equal. by apply IH.
      * destruct rs as [|r0 rs0]; [done |]. intros [= -> H].
        apply IH in H. by injection H as ->.
    + split; [done |]. destruct rs as [|r0 rs0]; [done |]. intros [= -> H].
      by apply IH in H.
    + split; [done |]. destruct rs as [|r0 rs0]; [done |]. intros [= -> H].
      by apply IH in H.
Qed.

(** Claim C1, as amended. Whatever the order in which the units
    complete, the concurrent variant returns a frame exactly when parsing
    the same files one after the other, in the same (sorted) order, and
    assembling the results in the same way returns one, and it is the same
    frame, row for row. *)
Theorem gather_matches_in_turn (html_dir : string) (listdir : list string)
    (completion : list nat) (df : DataFrame) :
  completion ≡ₚ seq 0 (length (html_files html_dir listdir)) ->
  scrape_all_pages_async parse_html_file str_to_number html_dir listdir completion = Ok df
  <-> scrape_all_pages_in_turn parse_html_file str_to_number html_dir listdir = Ok df.
Proof.
  intros Hperm. unfold scrape_all_pages_async, scrape_all_pages_in_turn.
  set (files := html_files html_dir listdir) in *.
  change (parse_file_async parse_html_file <$> files) with (parse_html_file <$> files).
  split.
  - destruct (gather (parse_html_file <$> files) completion) as [rs|e|] eqn:E;
      [simpl|done..].
    apply gather_Ok_inv in E.
    + apply parse_in_turn_Ok in E. by rewrite E.
    + intros i Hi. rewrite length_fmap in Hi. by eapply permutation_covers.
  - destruct (parse_in_turn parse_html_file files) as [rs|e|] eqn:E; [simpl|done..].
    apply parse_in_turn_Ok in E. rewrite E, gather_ok; [done |].
    intros i Hi. eapply permutation_covers; [done |].
    apply (f_equal length) in E. rewrite !length_fmap in E. lia.
Qed.

Lemma coerce_cases v :
  is_number (coerce str_to_number v) = true \/ coerce str_to_number v = PNaN.
Proof.
  destruct v as [| |s|z|q]; simpl; auto.
  destruct (str_to_number s) as [[z|q]|]; simpl; auto.
Qed.

Lemma as_float_cases v :
  is_number v = true \/ v = PNaN ->
  (is_number (as_float v) = true \/ as_float v = PNaN) /\ is_int (as_float v) = false.
Proof. destruct v; simpl; intros [?|?]; (split; [auto | done]) || done. Qed.

Lemma to_numeric_coerce_converted series :
  to_numeric_coerce str_to_number series = converted str_to_number series <$> series.
Proof.
  unfold to_numeric_coerce, converted.
  destruct (forallb is_int (coerce str_to_number <$> series)); [done |].
  by rewrite <- list_fmap_compose.
Qed.

(** What a converted value is, by the value it stands for. *)
Lemma converted_cases series v :
  let cell := converted str_to_number series v in
  (is_number cell = true \/ cell = PNaN)
  /\ (is_number v = true -> cell = v \/ cell = as_float v)
  /\ (forall s n, v = PStr s -> str_to_number s = Some n ->
        cell = of_number n \/ cell = as_float (of_number n))
  /\ (forall s, v = PStr s -> str_to_number s = None -> cell = PNaN)
  /\ (v = PNone \/ v = PNaN -> cell = PNaN).
Proof.
  unfold converted. destruct (forallb is_int (coerce str_to_number <$> series)).
  - split_and!.
    + apply coerce_cases.
    + destruct v; simpl; intros; (done || by left).
    + intros s n -> Hn. simpl. rewrite Hn. by left.
    + intros s -> Hs. simpl. by rewrite Hs.
    + by intros [->| ->].
  - split_and!.
    + apply as_float_cases, coerce_cases.
    + destruct v; simpl; intros; (done || by right).
    + intros s n -> Hn. simpl. rewrite Hn. by right.
    + intros s -> Hs. simpl. by rewrite Hs.
    + by intros [->| ->].
Qed.

(** A converted column has one dtype. *)
Lemma converted_dtype series :
  Forall (fun cell => is_int cell = true) (converted str_to_number series <$> series)
  \/ Forall (fun cell => is_int cell = false) (converted str_to_number series <$> series).
Proof.
  unfold converted.
  destruct (forallb is_int (coerce str_to_number <$> series)) eqn:E.
  - left. apply Forall_fmap, Forall_forall. intros v Hv. cbv beta.
    rewrite forallb_forall in E. apply E, list_elem_of_In, list_elem_of_fmap.
    by exists v.
  - right. apply Forall_fmap, Forall_true. intros v. cbv beta.
    apply as_float_cases, coerce_cases.
Qed.

Lemma convert_columns_frame todo cols records cell :
  NoDup cols -> NoDup todo -> (forall c, c ∈ todo -> c ∈ cols) ->
  convert_columns str_to_number todo (frame cols records cell)
  = Ok (frame cols records
          (fun r c => if decide (c ∈ todo)
                      then converted str_to_number ((fun r' => cell r' c) <$> records)
                             (cell r c)
                      else cell r c)).
Proof.
  intros Hnd Htodo. revert cell.
  induction Htodo as [|col todo Hcol _ IH]; intros cell Hin.
  - cbn [convert_columns]. apply (f_equal Ok), frame_ext. intros r c _ _.
    case_decide as Hc; [by apply elem_of_nil in Hc | done].
  - cbn [convert_columns]. rewrite get_column_frame by (apply Hin; left).
    cbn [rbind]. rewrite to_numeric_coerce_converted.
    rewrite set_column_frame; [|done|apply Hin; left].
    rewrite IH by (intros c Hc; apply Hin; by right).
    apply (f_equal Ok), frame_ext. intros r c _ _.
    destruct (decide (c = col)) as [->|Hne].
    + rewrite (decide_True (P := col ∈ col :: todo)) by left.
      rewrite (decide_False (P := col ∈ todo)) by done.
      by rewrite ?decide_True.
    + destruct (decide (c ∈ todo)) as [Hc|Hc].
      * by rewrite decide_True by (by right).
      * rewrite decide_False; [done |]. by intros [?|?]%elem_of_cons.
Qed.

Lemma numeric_cols_NoDup : NoDup numeric_cols.
Proof. apply (bool_decide_unpack _). vm_compute. reflexivity. Qed.

(** Claim C10. Once the units are gathered, and as long as each of the
    columns id, rating, price and availability is there (some record has
    the key), the conversion raises nothing and the scrape returns a frame
    with the columns and as many rows as there are records. In each of the
    four columns every cell is a number or [NaN]: a number stays the
    number it is and a string becomes the number it spells, as an integer
    or as the float of the same value; a string that spells no number
    becomes [NaN], and so does a missing value. The cells of a column are
    integers throughout or floats and [NaN] throughout. The other columns
    are as the frame of the records has them. *)
Theorem malformed_numbers_become_missing (html_dir : string) (listdir : list string)
    (completion : list nat) (all_results : list (list pydict)) :
  gather (parse_file_async parse_html_file <$> html_files html_dir listdir) completion
    = Ok all_results ->
  (forall col, col ∈ numeric_cols -> exists r, r ∈ mjoin all_results /\ col ∈ keys r) ->
  exists df,
    scrape_all_pages_async parse_html_file str_to_number html_dir listdir completion
      = Ok df
    /\ columns df = all_keys (mjoin all_results)
    /\ length (rows df) = length (mjoin all_results)
    /\ (forall col, col ∈ numeric_cols ->
          exists series,
            get_column df col = Ok series
            /\ Forall2 (fun r cell =>
                          let v := default PNaN (dict_get col r) in
                          (is_number cell = true \/ cell = PNaN)
                          /\ (is_number v = true -> cell = v \/ cell = as_float v)
                          /\ (forall s n, v = PStr s -> str_to_number s = Some n ->
                                cell = of_number n \/ cell = as_float (of_number n))
                          /\ (forall s, v = PStr s -> str_to_number s = None ->
                                cell = PNaN)
                          /\ (v = PNone \/ v = PNaN -> cell = PNaN))
                 (mjoin all_results) series
            /\ (Forall (fun cell => is_int cell = true) series
                \/ Forall (fun cell => is_int cell = false) series))
    /\ (forall col, col ∉ numeric_cols ->
          get_column df col = get_column (of_records (mjoin all_results)) col).
Proof.
  intros Hgather Hcols.
  assert (forall c, c ∈ numeric_cols -> c ∈ all_keys (mjoin all_results)) as Hin.
  { intros c Hc. by apply elem_of_all_keys, Hcols. }
  unfold scrape_all_pages_async. rewrite Hgather. cbn [rbind]. unfold assemble.
  rewrite of_records_frame, convert_columns_frame;
    [| apply all_keys_NoDup | apply numeric_cols_NoDup | exact Hin].
  eexists. split; [reflexivity |]. split_and!.
  - done.
  - cbn [frame rows]. by rewrite length_fmap.
  - intros col Hcol. eexists. split; [by apply get_column_frame, Hin |].
    cbv beta. destruct (decide (col ∈ numeric_cols)) as [_|?]; [|done]. split.
    + apply Forall2_fmap_r, Forall_Forall2_diag, Forall_true. intros r.
      apply converted_cases.
    + pose proof (converted_dtype
                    ((fun r => default PNaN (dict_get col r)) <$> mjoin all_results))
        as Hdtype.
      by rewrite <- list_fmap_compose in Hdtype.
  - intros col Hcol. destruct (decide (col ∈ all_keys (mjoin all_results))) as [Hc|Hc].
    + rewrite !get_column_frame by done. f_equal.
      apply list_fmap_ext. intros i r _. by rewrite decide_False.
    + unfold get_column. cbn [frame columns]. by rewrite column_index_None.
Qed.
End Async.

Lemma gather_matches_in_turn_witness :
  scrape_all_pages_async Sample.local_pages Sample.decimal_number "pages"
    ["page_2.html"; "notes.txt"; "page_1.html"] [1; 0]
  = scrape_all_pages_in_turn Sample.local_pages Sample.decimal_number "pages"
      ["page_2.html"; "notes.txt"; "page_1.html"].
Proof.
  destruct (scrape_all_pages_in_turn Sample.local_pages Sample.decimal_number "pages"
              ["page_2.html"; "notes.txt"; "page_1.html"]) as [df| |] eqn:E;
    [|vm_compute in E; discriminate..].
  apply (gather_matches_in_turn Sample.local_pages Sample.decimal_number "pages"
           ["page_2.html"; "notes.txt"; "page_1.html"] [1; 0] df); [|exact E].
  change (length _) with 2. simpl. apply Permutation_swap.
Defined.

Lemma malformed_numbers_become_missing_witness :
  exists df series,
    scrape_all_pages_async Sample.local_pages Sample.decimal_number "pages"
      ["page_2.html"; "notes.txt"; "page_1.html"] [1; 0]
    = Ok df
    /\ df = {| columns := ["id"; "title"; "category"; "rating"; "price"; "availability";
                           "description"];
               rows := [ [PInt 1; PStr "A title"; PStr "Poetry"; PFloat (inject_Z 3);
                          PFloat (Qmake 25 2); PFloat (inject_Z 5); PStr "A poem."];
                         [PInt 2; PStr "A title"; PStr "Poetry"; PNaN; PNaN; PNaN;
                          PStr "A poem."];
                         [PInt 3; PStr "A title"; PStr "Poetry"; PFloat (inject_Z 5);
                          PFloat (inject_Z 7); PFloat (inject_Z 1); PStr "A poem."] ] |}
    /\ get_column df "rating" = Ok series
    /\ Forall (fun cell => is_int cell = false) series.
Proof.
  destruct (malformed_numbers_become_missing Sample.local_pages Sample.decimal_number
              "pages" ["page_2.html"; "notes.txt"; "page_1.html"] [1; 0]
              [ [Sample.local_row "1" "3" "12.5" "5"; Sample.local_row "2" "three" "" "n/a"];
                [Sample.local_row "3" "5" "7" "1"] ])
    as (df & Hrun & _ & _ & Hnumeric & _).
  - vm_compute; reflexivity.
  - intros col Hcol. exists (Sample.local_row "1" "3" "12.5" "5"). split; [by left |].
    unfold numeric_cols in Hcol. rewrite !elem_of_cons, elem_of_nil in Hcol.
    destruct Hcol as [->|[->|[->|[->|[]]]]];
      apply (bool_decide_unpack _); reflexivity.
  - destruct (Hnumeric "rating") as (series & Hseries & _ & Hdtype).
    { apply (bool_decide_unpack _). vm_compute. reflexivity. }
    exists df, series. split; [exact Hrun |].
    assert (Ok df
            = Ok {| columns := ["id"; "title"; "category"; "rating"; "price";
                                "availability"; "description"];
                    rows := [ [PInt 1; PStr "A title"; PStr "Poetry"; PFloat (inject_Z 3);
                               PFloat (Qmake 25 2); PFloat (inject_Z 5); PStr "A poem."];
                              [PInt 2; PStr "A title"; PStr "Poetry"; PNaN; PNaN; PNaN;
                               PStr "A poem."];
                              [PInt 3; PStr "A title"; PStr "Poetry"; PFloat (inject_Z 5);
                               PFloat (inject_Z 7); PFloat (inject_Z 1); PStr "A poem."] ] |})
      as Hframe by (rewrite <- Hrun; vm_compute; reflexivity).
    injection Hframe as ->. split; [reflexivity |]. split; [exact Hseries |].
    destruct Hdtype as [Hint|Hfloat]; [|exact Hfloat].
    vm_compute in Hseries. injection Hseries as <-. by inversion Hint.
Defined.

Lemma convert_columns_columns str_to_number todo df df' :
  convert_columns str_to_number todo df = Ok df' ->
  columns df' = columns df /\ forall c, c ∈ todo -> c ∈ columns df.
Proof.
  revert df. induction todo as [|col todo IH]; intros df.
  - intros [= <-]. split; [done |]. by intros c ?%elem_of_nil.
  - cbn [convert_columns]. unfold get_column, set_column.
    destruct (column_index col (columns df)) as [i|] eqn:E; [simpl|done].
    intros [Hcols Hin]%IH. simpl in *. split; [done |].
    intros c [->|Hc]%elem_of_cons; [|by apply Hin].
    clear -E. revert i E. induction (columns df) as [|c0 cols IHc]; intros i; [done |].
    simpl. destruct (String.eqb_spec col c0) as [->|Hne]; [by left |].
    destruct (column_index col cols) as [j|]; [|done]. intros _. right. by eapply IHc.
Qed.

(** The frame [scrape_books] returns has no [id] column. *)
Lemma scrape_books_no_id fuel w st st' df :
  ScrapeBooksBs.scrape_books fuel w st = (st', Ok df) -> "id" ∉ columns df.
Proof.
  unfold ScrapeBooksBs.scrape_books.
  unfold ScrapeBooksBs.bind at 1. unfold ScrapeBooksBs.bind at 1.
  destruct (ScrapeBooksBs.while_pages fuel w _ _) as [st1 r1] eqn:Hwhile.
  apply CrawlFacts.while_pages_keys in Hwhile; [|by constructor].
  destruct r1 as [[]|e|]; [|done..]. intros [= <- <-]. simpl.
  intros (rec & Hrec & Hid)%elem_of_all_keys.
  rewrite Forall_forall in Hwhile. rewrite (Hwhile _ Hrec) in Hid.
  revert Hid. apply (bool_decide_unpack _). vm_compute. reflexivity.
Qed.

(** The frame [scrape_all_pages_async] returns has one. *)
Lemma scrape_all_pages_async_id parse_html_file str_to_number html_dir listdir
    completion df :
  scrape_all_pages_async parse_html_file str_to_number html_dir listdir completion
    = Ok df ->
  "id" ∈ columns df.
Proof.
  unfold scrape_all_pages_async.
  destruct (gather _ completion) as [all_results|e|]; [simpl|done..].
  unfold assemble. intros [Hcols Hin]%convert_columns_columns.
  rewrite Hcols. apply Hin. by left.
Qed.

(** Claim C1, as stated, fails. On the site [Sample.one_page] the
    sequential crawl returns a frame of two records with thirteen columns.
    Units that return these very records make the concurrent variant raise
    [KeyError], for want of an [id] column; and on no site and for no units
    does the concurrent variant return the frame the sequential crawl
    returns. *)
Lemma concurrent_differs_from_sequential :
  (ScrapeBooksBs.scrape_books 1 Sample.one_page ScrapeBooksBs.initial).2
    = Ok Sample.sequential_frame
  /\ scrape_all_pages_async (fun _ => Ok [Sample.alpha_record; Sample.beta_record])
       Sample.decimal_number "pages" ["page_1.html"] [0]
     = Raise (KeyError "id")
  /\ (forall fuel w st st' df parse_html_file str_to_number html_dir listdir completion,
        ScrapeBooksBs.scrape_books fuel w st = (st', Ok df) ->
        scrape_all_pages_async parse_html_file str_to_number html_dir listdir completion
        <> Ok df).
Proof.
  split_and!; [reflexivity | reflexivity |].
  intros fuel w st st' df parse_html_file str_to_number html_dir listdir completion
    Hseq Hasync.
  apply scrape_books_no_id in Hseq. by apply scrape_all_pages_async_id in Hasync.
Qed.

End AsyncFacts.

(** ** The sink *)

Module CsvFacts.
Import Py Pandas Csv PyStrFacts.

Lemma rev_app_rev_app (s t u : string) :
  String.rev_app (String.rev_app s t) u = String.rev_app t (s +:+ u).
Proof.
  revert t u. induction s as [|c s IH]; intros t u; simpl; [done |].
  by rewrite IH.
Qed.

Lemma rev_rev_app (s : string) : String.rev (String.rev_app s "") = s.
Proof. unfold String.rev. rewrite rev_app_rev_app. simpl. apply sapp_nil_r. Qed.

(** The reader inside a quoted field: up to the closing quote. *)
Lemma read_escape (s rest : string) q cur row rows :
  read_go (escape s +:+ String quotechar rest) InQuoted q cur row rows
  = read_go rest QuoteInQuoted q (String.rev_app s cur) row rows.
Proof.
  revert cur. induction s as [|c s IH]; intros cur; [done |].
  cbn [escape]. destruct (Ascii.eqb c quotechar) eqn:E.
  - apply Ascii.eqb_eq in E as ->. cbn -[quotechar]. rewrite !Ascii.eqb_refl.
    apply IH.
  - cbn -[quotechar]. rewrite E. apply IH.
Qed.

Lemma plain_chars_cons c s :
  plain_chars (String c s) = true ->
  Ascii.eqb c quotechar = false /\ Ascii.eqb c delimiter = false
  /\ Ascii.eqb c LF = false /\ Ascii.eqb c CR = false /\ plain_chars s = true.
Proof.
  cbn [plain_chars]. intros [H ?]%andb_true_iff.
  apply negb_true_iff in H.
  apply orb_false_iff in H as [H ?]. apply orb_false_iff in H as [H ?].
  apply orb_false_iff in H as [? ?]. done.
Qed.

(** The reader inside a bare field. *)
Lemma read_plain (t rest : string) q cur row rows :
  plain_chars t = true ->
  read_go (t +:+ rest) InField q cur row rows
  = read_go rest InField q (String.rev_app t cur) row rows.
Proof.
  revert cur. induction t as [|c t IH]; intros cur Ht; [done |].
  apply plain_chars_cons in Ht as (_ & Hd & Hl & Hc & Ht).
  cbn [String.append read_go]. rewrite Hd, Hl, Hc. simpl. by apply IH.
Qed.

(** A field and what follows it: the reader comes out with the field it
    was written from. *)
Lemma read_field (f : field) (c : ascii) (rest : string) q cur row rows :
  field_ok f -> c = delimiter \/ c = LF ->
  read_go (write_field f +:+ String c rest) StartField q cur row rows
  = read_go rest StartField false ""
      (if Ascii.eqb c delimiter then f :: row else [])
      (if Ascii.eqb c delimiter then rows else reverse (f :: row) :: rows).
Proof.
  intros Hf Hc. destruct f as [[] t]; unfold write_field; cbn [quoted text].
  - unfold quote_field. cbn [String.append read_go]. rewrite Ascii.eqb_refl.
    rewrite sapp_assoc. cbn [String.append]. rewrite read_escape.
    cbn [read_go]. rewrite rev_rev_app.
    by destruct Hc as [-> | ->].
  - destruct Hf as [? | [_ Ht]]; [done |]. cbn [text] in Ht.
    unfold plain in Ht. apply andb_true_iff in Ht as [Hne Ht].
    destruct t as [|d t]; [done |].
    apply plain_chars_cons in Ht as (Hq & Hd & Hl & Hr & Ht).
    cbn [String.append read_go]. rewrite Hq, Hd, Hl, Hr. cbn [orb].
    rewrite read_plain by done. cbn [read_go].
    change (String.rev_app t (String d "")) with (String.rev_app (String d t) "").
    rewrite rev_rev_app.
    by destruct Hc as [-> | ->].
Qed.

Lemma read_row (fs : list field) (rest : string) row rows :
  fs <> [] -> Forall field_ok fs ->
  read_go (write_row fs +:+ rest) StartField false "" row rows
  = read_go rest StartField false "" [] (reverse (reverse fs ++ row) :: rows).
Proof.
  intros Hne Hfs. revert row.
  induction Hfs as [|f fs Hf Hfs IH]; intros row; [done |].
  destruct fs as [|f' fs].
  - cbn [write_row]. rewrite sapp_assoc. cbn [String.append].
    rewrite read_field by auto.
    change (Ascii.eqb LF delimiter) with false. cbv iota. done.
  - cbn [write_row]. rewrite sapp_assoc. cbn [String.append].
    rewrite read_field by auto. rewrite Ascii.eqb_refl, IH by done.
    by rewrite (reverse_cons (f' :: fs) f), <- (assoc_L (++)).
Qed.

(** The file read back gives the fields it was written from. *)
Lemma read_write_rows (rs : list (list field)) rows :
  Forall row_ok rs ->
  read_go (write_rows rs) StartField false "" [] rows = Some (reverse rows ++ rs).
Proof.
  intros H. revert rows. induction H as [|r rs [Hne Hr] _ IH]; intros rows.
  - simpl. by rewrite app_nil_r.
  - cbn [write_rows]. rewrite read_row, IH by done.
    by rewrite app_nil_r, reverse_involutive, reverse_cons, <- (assoc_L (++)).
Qed.

Lemma plain_chars_pretty_N_go (x : N) (s : string) :
  plain_chars s = true -> plain_chars (pretty_N_go x s) = true.
Proof.
  revert s. induction (N.lt_wf_0 x) as [x _ IH]; intros s Hs.
  destruct (decide (x = 0)%N) as [->|Hx]; [by rewrite pretty_N_go_0 |].
  rewrite pretty_N_go_step by lia. apply IH.
  - apply N.div_lt; lia.
  - cbn [plain_chars]. rewrite Hs, andb_true_r.
    unfold pretty_N_char. by repeat case_match.
Qed.

Lemma pretty_N_go_nonempty (x : N) (s : string) : s <> "" -> pretty_N_go x s <> "".
Proof.
  revert s. induction (N.lt_wf_0 x) as [x _ IH]; intros s Hs.
  destruct (decide (x = 0)%N) as [->|Hx]; [by rewrite pretty_N_go_0 |].
  rewrite pretty_N_go_step by lia. apply IH; [apply N.div_lt; lia | done].
Qed.

Lemma plain_pretty_positive (p : positive) : plain (pretty p) = true.
Proof.
  unfold pretty, pretty_positive, pretty, pretty_N.
  rewrite decide_False by done. unfold plain. apply andb_true_iff. split.
  - apply negb_true_iff, String.eqb_neq.
    rewrite pretty_N_go_step by lia. by apply pretty_N_go_nonempty.
  - by apply plain_chars_pretty_N_go.
Qed.

Lemma plain_pretty_Z (z : Z) : plain (pretty z) = true.
Proof.
  destruct z as [|p|p]; [done | apply plain_pretty_positive |].
  unfold pretty, pretty_Z. pose proof (plain_pretty_positive p) as H.
  unfold plain in *. apply andb_true_iff in H as [_ H].
  cbn [String.append]. simpl. exact H.
Qed.

Section ToCsv.
Variable float_repr : Q -> string.
Hypothesis float_repr_plain : forall q, plain (float_repr q) = true.

Lemma field_of_ok (v : pyval) : field_ok (field_of float_repr v).
Proof using float_repr_plain.
  destruct v as [| |s|z|q]; cbn [field_of].
  - by left.
  - by left.
  - by left.
  - right. split; [done | apply plain_pretty_Z].
  - right. split; [done | apply float_repr_plain].
Qed.

End ToCsv.

Lemma plain_chars_app (s t : string) :
  plain_chars (s +:+ t) = plain_chars s && plain_chars t.
Proof.
  induction s as [|c s IH]; [done |]. cbn [String.append plain_chars].
  by rewrite IH, andb_assoc.
Qed.

Lemma one_decimal_plain (q : Q) : plain (Sample.one_decimal q) = true.
Proof.
  unfold Sample.one_decimal.
  set (a := pretty _). set (b := pretty _).
  assert (plain a = true) as Ha by apply plain_pretty_Z.
  assert (plain b = true) as Hb by apply plain_pretty_Z.
  unfold plain in *. apply andb_true_iff in Ha as [Ha1 Ha2].
  apply andb_true_iff in Hb as [_ Hb2]. apply andb_true_iff. split.
  - destruct a; [done | reflexivity].
  - rewrite plain_chars_app, Ha2. cbn [String.append plain_chars]. by rewrite Hb2.
Qed.


Example fields_of_sequential_frame :
  fields_of Sample.one_decimal Sample.sequential_frame
  = [ (fun c => {| quoted := true; text := c |})
        <$> ["title"; "price"; "availability"; "rating"; "upc"; "product_type";
             "price_excl_tax"; "price_incl_tax"; "tax"; "availability_detail";
             "num_reviews"; "category"; "description"];
      [ {| quoted := true; text := "Alpha" |}; {| quoted := false; text := "12.5" |};
        {| quoted := true; text := "In stock (5 available)" |};
        {| quoted := false; text := "3" |}; {| quoted := true; text := "a897fe39" |};
        {| quoted := true; text := "" |}; {| quoted := true; text := "" |};
        {| quoted := true; text := "" |}; {| quoted := true; text := "" |};
        {| quoted := true; text := "" |}; {| quoted := true; text := "0" |};
        {| quoted := true; text := "Poetry" |}; {| quoted := true; text := "A poem." |} ];
      [ {| quoted := true; text := "Beta" |}; {| quoted := false; text := "7.0" |};
        {| quoted := true; text := "In stock (1 available)" |};
        {| quoted := false; text := "0" |}; {| quoted := true; text := "" |};
        {| quoted := true; text := "" |}; {| quoted := true; text := "" |};
        {| quoted := true; text := "" |}; {| quoted := true; text := "" |};
        {| quoted := true; text := "" |}; {| quoted := true; text := "" |};
        {| quoted := true; text := "" |}; {| quoted := true; text := "" |} ] ].
Proof. vm_compute. reflexivity. Qed.


End CsvFacts.

(** ** More on strings and frames *)

Module MoreFacts.
Import Py PyStr PyStrFacts Pandas Schema.

Lemma endswith_app (s t : string) : endswith t (s +:+ t) = true.
Proof.
  unfold endswith. rewrite slength_app. apply andb_true_iff. split.
  - apply Nat.leb_le. lia.
  - replace (String.length s + String.length t - String.length t) with (String.length s)
      by lia.
    rewrite slice_from_app. apply String.eqb_refl.
Qed.

Lemma keep_char_app (p : ascii -> bool) (a b : string) :
  keep_char p (a +:+ b) = keep_char p a +:+ keep_char p b.
Proof.
  induction a as [|c a IH]; simpl; [done |]. destruct (p c); simpl; by rewrite IH.
Qed.

Lemma count_char_app (p : ascii -> bool) (a b : string) :
  count_char p (a +:+ b) = count_char p a + count_char p b.
Proof. induction a as [|c a IH]; simpl; [done |]. rewrite IH. lia. Qed.

Lemma sapp_inv_tail (s t u : string) : s +:+ u = t +:+ u -> s = t.
Proof.
  revert t. induction s as [|c s IH]; intros [|d t] H.
  - done.
  - apply (f_equal String.length) in H. simpl in H. rewrite slength_app in H. lia.
  - apply (f_equal String.length) in H. simpl in H. rewrite slength_app in H. lia.
  - simpl in H. injection H as -> H. f_equal. by apply IH.
Qed.

(** *** The frame of records that all have the same keys *)

Lemma foldl_add_key_fresh acc ks :
  NoDup (acc ++ ks) -> foldl add_key acc ks = acc ++ ks.
Proof.
  revert acc. induction ks as [|k ks IH]; intros acc H; simpl.
  - by rewrite app_nil_r.
  - unfold add_key at 2. rewrite bool_decide_false.
    + rewrite IH; rewrite <- (assoc_L (++)); done.
    + apply NoDup_app in H as (_ & H & _). intros Hin. apply (H _ Hin). by left.
Qed.

Lemma foldl_add_key_known acc ks :
  (forall k, k ∈ ks -> k ∈ acc) -> foldl add_key acc ks = acc.
Proof.
  induction ks as [|k ks IH]; intros H; simpl; [done |].
  unfold add_key at 2. rewrite bool_decide_true by (apply H; by left).
  apply IH. intros k' Hk'. apply H. by right.
Qed.

Lemma all_keys_uniform (records : list pydict) (ks : list string) :
  NoDup ks -> records <> [] -> Forall (fun r => keys r = ks) records ->
  all_keys records = ks.
Proof.
  intros Hnd Hne Hall. destruct records as [|r records]; [done |].
  apply Forall_cons in Hall as [Hr Hall].
  unfold all_keys. cbn [fmap list_fmap mjoin list_join]. rewrite Hr, foldl_app.
  rewrite (foldl_add_key_fresh [] ks) by done. simpl.
  apply foldl_add_key_known. intros k (ks' & Hk & (r' & -> & Hr')%list_elem_of_fmap)%list_elem_of_join.
  rewrite Forall_forall in Hall. by rewrite (Hall _ Hr') in Hk.
Qed.

Lemma dict_get_head (k : string) (v : pyval) (d : pydict) : dict_get k ((k, v) :: d) = Some v.
Proof. simpl. by rewrite String.eqb_refl. Qed.

Lemma dict_get_skip (k k' : string) (v : pyval) (d : pydict) :
  k <> k' -> dict_get k ((k', v) :: d) = dict_get k d.
Proof. intros H. simpl. by destruct (String.eqb_spec k k'). Qed.

(** The cells of a record under its own keys are its values. *)
Lemma values_under_own_keys (r : pydict) :
  NoDup (keys r) -> (fun c => default PNaN (dict_get c r)) <$> keys r = r.*2.
Proof.
  unfold keys. induction r as [|[k v] r IH]; intros H; [done |].
  rewrite fmap_cons in H. apply NoDup_cons in H as [Hk H].
  rewrite !fmap_cons. cbn [fst snd] in *.
  rewrite dict_get_head. cbn [default]. f_equal. rewrite <- IH by done.
  apply list_fmap_ext. intros i c Hc.
  rewrite dict_get_skip; [done |]. intros ->. apply Hk.
  by eapply list_elem_of_lookup_2.
Qed.

End MoreFacts.

(** ** More on the sequential crawl: what every run keeps *)

Module CrawlInvariants.
Import Py Bs4 PyStr PyStrFacts Pandas ScrapeBooksBs Crawl CrawlFacts FrameFacts Schema MoreFacts.

Lemma scrape_books_run fuel w st :
  scrape_books fuel w st
  = match while_pages fuel w (BASE_URL +:+ "index.html")
            {| books_data := []; log := log st |} with
    | (st', Ok _) => (st', Ok (of_records (books_data st')))
    | (st', Raise e) => (st', Raise e)
    | (st', Unfinished) => (st', Unfinished)
    end.
Proof.
  unfold scrape_books. unfold bind at 1. unfold bind at 1.
  by destruct (while_pages fuel w _ _) as [st' [[]|e|]].
Qed.

Lemma main_run project_dir fuel w st :
  main project_dir fuel w st
  = match scrape_books fuel w st with
    | (st', Ok df) => (logged (ToCsv (CSV_FILE project_dir) df) st', Ok tt)
    | (st', Raise e) => (st', Raise e)
    | (st', Unfinished) => (st', Unfinished)
    end.
Proof.
  unfold main. unfold bind at 1.
  by destruct (scrape_books fuel w st) as [st' [df|e|]].
Qed.

(** A property of records that each pass of the [for] loop establishes
    for the record it appends holds of the whole accumulator, however the
    crawl ends. *)
Section Records.
Variable w : web.
Variable P : pydict -> Prop.
Hypothesis P_record : forall product sm page details,
  product_summary product = Ok sm -> parse_product_soup page = Ok details ->
  P (dict_update (basic_info sm) details).

Lemma for_products_Forall products st st' r :
  for_products w products st = (st', r) ->
  Forall P (books_data st) -> Forall P (books_data st').
Proof using P_record.
  revert st. induction products as [|product rest IH]; intros st.
  - by intros [= <- <-].
  - rewrite for_products_cons.
    destruct (product_summary product) as [sm|e|] eqn:Hsm; [|by intros [= <- <-]..].
    destruct (respond w (product_url sm)) as [page|e|]; simpl;
      [|by intros [= <- <-]..].
    destruct (parse_product_soup page) as [details|e|] eqn:Hd;
      [|by intros [= <- <-]..].
    intros H Hst. apply IH in H; [done |]. simpl.
    apply Forall_app. split; [done |]. apply Forall_singleton. by eapply P_record.
Qed.

Lemma while_pages_Forall fuel page_url st st' r :
  while_pages fuel w page_url st = (st', r) ->
  Forall P (books_data st) -> Forall P (books_data st').
Proof using P_record.
  revert page_url st. induction fuel as [|fuel IH]; intros page_url st.
  - by intros [= <- <-].
  - rewrite while_pages_step.
    destruct (respond w page_url) as [page|e|]; [|by intros [= <- <-]..].
    destruct (for_products w (product_list page) (logged (Get page_url) st))
      as [st1 r1] eqn:Hfor.
    intros H Hst. apply for_products_Forall in Hfor; [|done].
    destruct r1 as [[]|e|]; [|by injection H as <- <-..].
    destruct (next_page page) as [[url|]|e|]; [by eapply IH | by injection H as <- <-..].
Qed.

Lemma scrape_books_Forall fuel st st' r :
  scrape_books fuel w st = (st', r) -> Forall P (books_data st').
Proof using P_record.
  rewrite scrape_books_run.
  destruct (while_pages fuel w _ _) as [st1 r1] eqn:Hwhile.
  apply while_pages_Forall in Hwhile; [|by constructor].
  by destruct r1 as [[]|e|]; intros [= <- _].
Qed.
End Records.

Lemma book_columns_NoDup : NoDup book_columns.
Proof. apply (bool_decide_unpack _). vm_compute. reflexivity. Qed.

Lemma record_keys product sm page details :
  product_summary product = Ok sm -> parse_product_soup page = Ok details ->
  keys (dict_update (basic_info sm) details) = book_columns.
Proof.
  intros _ Hd. apply parse_product_soup_keys in Hd as [Hk _].
  rewrite (update_details _ _ Hk). unfold keys in *. by rewrite fmap_app, Hk.
Qed.

Lemma scrape_books_frame (fuel : nat) (w : web) (st st' : state) (df : DataFrame) :
  scrape_books fuel w st = (st', Ok df) ->
  Forall (fun rec => keys rec = book_columns) (books_data st')
  /\ rows df = (fun rec => rec.*2) <$> books_data st'
  /\ Forall (fun row => length row = length (columns df)) (rows df)
  /\ (books_data st' <> [] -> columns df = book_columns)
  /\ (books_data st' = [] -> columns df = []).
Proof.
  intros H.
  assert (Forall (fun rec => keys rec = book_columns) (books_data st')) as Hkeys.
  { eapply (scrape_books_Forall w); [|exact H]. apply record_keys. }
  rewrite scrape_books_run in H.
  destruct (while_pages fuel w _ _) as [st1 [[]|e|]]; [|done..].
  injection H as <- <-.
  assert (books_data st1 <> [] -> all_keys (books_data st1) = book_columns) as Hcols.
  { intros Hne. apply all_keys_uniform; [apply book_columns_NoDup | done | done]. }
  assert (rows (of_records (books_data st1)) = (fun rec => rec.*2) <$> books_data st1)
    as Hrows.
  { destruct (decide (books_data st1 = [])) as [->|Hne]; [done |].
    cbn [of_records rows]. rewrite Hcols by done.
    apply list_fmap_ext. intros i rec Hrec. cbv beta.
    rewrite Forall_forall in Hkeys.
    assert (keys rec = book_columns) as Hk
      by (apply Hkeys; by eapply list_elem_of_lookup_2).
    rewrite <- Hk. apply values_under_own_keys. rewrite Hk. apply book_columns_NoDup. }
  split_and!; [done | done | | done | by intros ->].
  rewrite Hrows. apply Forall_forall.
  intros row (rec & -> & Hrec)%list_elem_of_fmap.
  cbn [of_records columns]. rewrite Hcols by (by intros E; rewrite E in Hrec; apply elem_of_nil in Hrec).
  rewrite Forall_forall in Hkeys. rewrite <- (Hkeys _ Hrec).
  unfold keys. by rewrite !length_fmap.
Qed.

(** Property X1. Whenever [scrape_books] returns a frame, each record it has
    appended has the thirteen keys of [book_columns], in that order; the
    frame has one row per record, in the order of the records, with one
    cell for each column; the cells of a row hold the values of its record
    in the order of the keys, a value [None] as a missing cell, which is
    [None] or [NaN] as pandas chooses for the column; and the columns are
    [book_columns], or none at all when the site listed no book. *)
Theorem scrape_books_frame_shape (fuel : nat) (w : web) (st st' : state) (df : DataFrame) :
  scrape_books fuel w st = (st', Ok df) ->
  Forall (fun rec => keys rec = book_columns) (books_data st')
  /\ length (rows df) = length (books_data st')
  /\ Forall (fun row => length row = length (columns df)) (rows df)
  /\ Forall2 (fun rec row => Forall2 holds rec.*2 row) (books_data st') (rows df)
  /\ (books_data st' <> [] -> columns df = book_columns)
  /\ (books_data st' = [] -> columns df = []).
Proof.
  intros Hrun.
  destruct (scrape_books_frame _ _ _ _ _ Hrun) as (Hkeys & Hrows & Hshape & Hcols & Hnil).
  split_and!; [done | | done | | done | done].
  - by rewrite Hrows, length_fmap.
  - rewrite Hrows. apply Forall2_fmap_r, Forall_Forall2_diag, Forall_true.
    intros rec. apply Forall_Forall2_diag, Forall_true. intros v. by left.
Qed.

Lemma scrape_books_frame_shape_witness :
  Forall2 (Forall2 holds) [Sample.alpha_record.*2; Sample.beta_record.*2]
    (rows Sample.sequential_frame)
  /\ columns Sample.sequential_frame = book_columns.
Proof.
  assert (scrape_books 1 Sample.one_page initial
          = ({| books_data := [Sample.alpha_record; Sample.beta_record];
                log := Get <$> [ BASE_URL +:+ "index.html";
                                 BASE_URL +:+ "catalogue/alpha.html";
                                 BASE_URL +:+ "catalogue/beta.html" ] |},
             Ok Sample.sequential_frame)) as Hrun by (vm_compute; reflexivity).
  destruct (scrape_books_frame_shape _ _ _ _ _ Hrun) as (_ & _ & _ & Hcells & Hcols & _).
  split; [|apply Hcols; discriminate].
  cbn [books_data] in Hcells. by apply Forall2_fmap_l in Hcells.
Defined.

(** *** The four fields read from the listing *)



Lemma product_summary_inv (product : product_pod) (sm : summary) :
  product_summary product = Ok sm ->
  (exists href, product_url sm = resolve href)
  /\ (exists price_text, py_float (keep_digits_dots price_text) = Ok (price sm))
  /\ (exists rating_word, rating sm = parse_rating rating_word).
Proof.
  unfold product_summary.
  destruct (h3_a product) as [[title_tag|]|]; [simpl|done..].
  destruct (a_href title_tag) as [href|]; [simpl|done].
  destruct (price_color product) as [price_tag|]; [simpl|done].
  destruct (py_float (keep_digits_dots (get_text_strip price_tag))) as [q|e|] eqn:Hq;
    [simpl|done..].
  destruct (instock_availability product) as [availability_tag|]; [simpl|done].
  destruct (star_rating product) as [star_classes|]; [simpl|done].
  intros [= <-]. simpl. split_and!; by eexists.
Qed.



(** *** The product information table *)

Lemma read_rows_app (rs1 rs2 : list table_row) (m : gmap string string) :
  read_rows (rs1 ++ rs2) m = let? m1 := read_rows rs1 m in read_rows rs2 m1.
Proof.
  revert m. induction rs1 as [|row rs1 IH]; intros m; [done |].
  cbn [app read_rows].
  destruct (th row) as [header|]; [simpl|done].
  destruct (td row) as [value|]; [simpl|done]. apply IH.
Qed.

(** Rows with other headers leave the entry of a header as it is. *)
Lemma read_rows_other (rs : list table_row) (m m' : gmap string string) (header : string) :
  read_rows rs m = Ok m' ->
  Forall (fun row => forall h, th row = Some h -> get_text_strip h <> header) rs ->
  m' !! header = m !! header.
Proof.
  revert m. induction rs as [|row rs IH]; intros m; [by intros [= <-] |].
  cbn [read_rows].
  destruct (th row) as [h|] eqn:Hh; [simpl|done].
  destruct (td row) as [v|]; [simpl|done].
  intros H [Hrow Hrs]%Forall_cons. rewrite (IH _ H Hrs).
  apply lookup_insert_ne. by apply Hrow.
Qed.

Lemma parse_product_soup_table (page : soup) (details : pydict) :
  parse_product_soup page = Ok details ->
  exists product_info : gmap string string,
    match table_striped page with
    | Some rs => read_rows rs ∅
    | None => Ok ∅
    end = Ok product_info
    /\ forall key header, (key, header) ∈ table_fields ->
         dict_get key details = Some (of_optional (product_info !! header)).
Proof.
  unfold parse_product_soup.
  destruct (match table_striped page with Some rs => read_rows rs ∅ | None => Ok ∅ end)
    as [product_info|e|]; [simpl|done..].
  destruct (match product_description page with
            | Some sibling => let? p := deref AttributeError sibling in Ok (Some (get_text_strip p))
            | None => Ok None end) as [description|e|]; [simpl|done..].
  intros [= <-]. exists product_info. split; [done |].
  intros key header. unfold table_fields. rewrite !elem_of_cons, elem_of_nil.
  intros [H|[H|[H|[H|[H|[H|[H|[]]]]]]]]; by injection H as -> ->.
Qed.

(** Property X3. When [parse_product_page] returns, each of the seven fields
    it takes from the product information table is the text of the cell of
    the last row that has the field's header (headers are compared after
    stripping, letter for letter), and [None] when the page has no such row
    or no table at all. *)
Theorem table_field_is_last_row (page : soup) (details : pydict) (key header : string) :
  (key, header) ∈ table_fields ->
  parse_product_soup page = Ok details ->
  (forall rows_before row rows_after h v,
     table_striped page = Some (rows_before ++ row :: rows_after) ->
     th row = Some h -> get_text_strip h = header -> td row = Some v ->
     Forall (fun later => forall h', th later = Some h' -> get_text_strip h' <> header)
       rows_after ->
     dict_get key details = Some (PStr (get_text_strip v)))
  /\ (forall rs, table_striped page = Some rs ->
        Forall (fun row => forall h', th row = Some h' -> get_text_strip h' <> header) rs ->
        dict_get key details = Some PNone)
  /\ (table_striped page = None -> dict_get key details = Some PNone).
Proof.
  intros Hfield (product_info & Hinfo & Hget)%parse_product_soup_table.
  rewrite (Hget _ _ Hfield). clear Hget. split_and!.
  - intros rows_before row rows_after h v Ht Hh Hheader Hv Hafter.
    rewrite Ht in Hinfo. rewrite read_rows_app in Hinfo.
    destruct (read_rows rows_before ∅) as [m1|e|]; [simpl in Hinfo|done..].
    rewrite Hh, Hv in Hinfo. simpl in Hinfo.
    rewrite (read_rows_other _ _ _ header Hinfo Hafter), Hheader.
    by rewrite lookup_insert_eq.
  - intros rs Ht Hrs. rewrite Ht in Hinfo.
    by rewrite (read_rows_other _ _ _ header Hinfo Hrs), lookup_empty.
  - intros Ht. rewrite Ht in Hinfo. injection Hinfo as <-. by rewrite lookup_empty.
Qed.

Lemma table_field_is_last_row_witness :
  exists details,
    parse_product_soup (Sample.detail "Poetry" "a897fe39" None) = Ok details
    /\ dict_get "upc" details = Some (PStr "a897fe39")
    /\ dict_get "tax" details = Some PNone.
Proof.
  assert (exists details,
            parse_product_soup (Sample.detail "Poetry" "a897fe39" None) = Ok details)
    as [details Hd] by (eexists; reflexivity).
  exists details. split; [exact Hd |]. split.
  - destruct (table_field_is_last_row _ details "upc" "UPC"
                ltac:(apply (bool_decide_unpack _); vm_compute; reflexivity) Hd)
      as (Hlast & _ & _).
    apply (Hlast [] {| th := Some ["UPC"]; td := Some ["a897fe39"] |}
             [ {| th := Some ["Number of reviews"]; td := Some ["0"] |} ]
             ["UPC"] ["a897fe39"]); try reflexivity.
    apply Forall_singleton. intros h' [= <-]. discriminate.
  - destruct (table_field_is_last_row _ details "tax" "Tax"
                ltac:(apply (bool_decide_unpack _); vm_compute; reflexivity) Hd)
      as (_ & Habsent & _).
    apply (Habsent _ eq_refl). repeat constructor; intros h' [= <-]; discriminate.
Defined.

(** *** Where the requests go *)

Lemma startswith_resolve (href : string) : startswith BASE_URL (resolve href) = true.
Proof. unfold resolve. apply prefix_app. Qed.

(** Property X4. What [next_page] finds: no URL when the page has no
    [li.next] or that element has no link in it; [KeyError] when the link
    has no [href]; and otherwise a URL that ends with the [href], starts
    with [BASE_URL] and has "catalogue/" in it, put there when the [href]
    has it nowhere. *)
Theorem next_page_cases (page : soup) :
  (next_page page = Ok None <-> li_next page = None \/ li_next page = Some None)
  /\ (forall e, next_page page = Raise e ->
        e = KeyError "href" /\ exists a, li_next page = Some (Some a) /\ a_href a = None)
  /\ (forall url, next_page page = Ok (Some url) ->
        startswith BASE_URL url = true /\ contains "catalogue/" url = true
        /\ exists a next_href,
             li_next page = Some (Some a) /\ a_href a = Some next_href
             /\ endswith next_href url = true
             /\ (startswith "catalogue/" next_href = true -> url = BASE_URL +:+ next_href)).
Proof.
  unfold next_page. destruct (li_next page) as [[a|]|]; [|by split_and!; [split; auto|..]..].
  destruct (a_href a) as [next_href|] eqn:Hhref; cbn [rbind deref].
  - destruct (contains "catalogue/" next_href) eqn:E.
    + split_and!; [split; [done | by intros [|]] | done |].
      intros url Hurl.
      assert (url = BASE_URL +:+ next_href) as -> by (by injection Hurl).
      split_and!.
      * apply prefix_app.
      * by apply contains_app_r.
      * exists a, next_href. split_and!; [done | done | apply endswith_app | done].
    + split_and!; [split; [done | by intros [|]] | done |].
      intros url Hurl.
      assert (url = BASE_URL +:+ "catalogue/" +:+ next_href) as -> by (by injection Hurl).
      split_and!.
      * apply prefix_app.
      * apply contains_app_r, contains_app_here.
      * exists a, next_href. split_and!; [done | done | | ].
        -- rewrite <- sapp_assoc. apply endswith_app.
        -- intros [t ->]%prefix_iff. by rewrite contains_app_here in E.
  - split_and!; [split; [done | by intros [|]] | | done].
    intros e [= <-]. split; [done |]. by exists a.
Qed.

Lemma next_page_on_site (page : soup) (url : string) :
  next_page page = Ok (Some url) -> startswith BASE_URL url = true.
Proof.
  unfold next_page. destruct (li_next page) as [[a|]|]; [|done..].
  destruct (a_href a) as [next_href|]; cbn [rbind deref]; [|done].
  destruct (contains "catalogue/" next_href); intros H.
  - assert (url = BASE_URL +:+ next_href) as -> by (by injection H). apply prefix_app.
  - assert (url = BASE_URL +:+ "catalogue/" +:+ next_href) as -> by (by injection H).
    apply prefix_app.
Qed.

Lemma for_products_requests w products st st' r :
  for_products w products st = (st', r) ->
  exists urls, log st' = log st ++ (Get <$> urls)
    /\ Forall (fun u => startswith BASE_URL u = true) urls.
Proof.
  revert st. induction products as [|product rest IH]; intros st.
  - intros [= <- <-]. exists []. by rewrite app_nil_r.
  - rewrite for_products_cons.
    destruct (product_summary product) as [sm|e|] eqn:Hsm.
    2,3: intros [= <- <-]; exists []; by rewrite app_nil_r.
    apply product_summary_inv in Hsm as ([href Hurl] & _).
    assert (startswith BASE_URL (product_url sm) = true) as Hon
      by (rewrite Hurl; apply startswith_resolve).
    destruct (let? page := respond w (product_url sm) in parse_product_soup page)
      as [details|e|].
    2,3: intros [= <- <-]; exists [product_url sm]; split; [done | by constructor].
    intros (urls & Hl & Hurls)%IH. simpl in Hl.
    exists (product_url sm :: urls). split; [by rewrite Hl, <- (assoc_L (++)) |].
    by constructor.
Qed.

Lemma while_pages_requests fuel w page_url st st' r :
  startswith BASE_URL page_url = true ->
  while_pages fuel w page_url st = (st', r) ->
  exists urls, log st' = log st ++ (Get <$> urls)
    /\ Forall (fun u => startswith BASE_URL u = true) urls.
Proof.
  revert page_url st. induction fuel as [|fuel IH]; intros page_url st Hon.
  - intros [= <- <-]. exists []. by rewrite app_nil_r.
  - rewrite while_pages_step.
    destruct (respond w page_url) as [page|e|].
    2,3: intros [= <- <-]; exists [page_url]; split; [done | by constructor].
    destruct (for_products w (product_list page) (logged (Get page_url) st))
      as [st1 r1] eqn:Hfor.
    apply for_products_requests in Hfor as (urls1 & Hl1 & Hurls1). simpl in Hl1.
    assert (exists urls, log st1 = log st ++ (Get <$> urls)
              /\ Forall (fun u => startswith BASE_URL u = true) urls) as Hst1.
    { exists (page_url :: urls1). split; [by rewrite Hl1, <- (assoc_L (++)) |].
      by constructor. }
    destruct r1 as [[]|e|]; [|by intros [= <- <-]..].
    destruct (next_page page) as [[url|]|e|] eqn:Hnext; [|by intros [= <- <-]..].
    apply next_page_on_site in Hnext.
    intros (urls2 & Hl2 & Hurls2)%IH; [|done].
    destruct Hst1 as (urls & Hl & Hurls).
    exists (urls ++ urls2). split.
    + by rewrite Hl2, Hl, fmap_app, <- (assoc_L (++)).
    + by apply Forall_app.
Qed.

Lemma next_page_cases_witness :
  next_page (Sample.listing [Sample.alpha] (Some "page-3.html"))
    = Ok (Some "https://books.toscrape.com/catalogue/page-3.html")
  /\ contains "catalogue/" "https://books.toscrape.com/catalogue/page-3.html" = true.
Proof.
  split; [reflexivity |].
  destruct (next_page_cases (Sample.listing [Sample.alpha] (Some "page-3.html")))
    as (_ & _ & Hurl).
  by destruct (Hurl _ eq_refl) as (_ & Hin & _).
Defined.

(** Property X5. However the crawl ends, all it has done is to send
    requests, and every URL it has asked for starts with [BASE_URL],
    whatever the [href]s of the pages are. *)
Theorem requests_stay_on_site (fuel : nat) (w : web) (st st' : state)
    (r : result DataFrame) :
  scrape_books fuel w st = (st', r) ->
  exists urls, log st' = log st ++ (Get <$> urls)
    /\ Forall (fun u => startswith BASE_URL u = true) urls.
Proof.
  rewrite scrape_books_run.
  destruct (while_pages fuel w _ _) as [st1 r1] eqn:Hwhile.
  apply while_pages_requests in Hwhile; [|apply prefix_app].
  by destruct r1 as [[]|e|]; intros [= <- _].
Qed.

Lemma requests_stay_on_site_witness :
  exists urls,
    Get <$> [ BASE_URL +:+ "index.html"; BASE_URL +:+ "catalogue/alpha.html";
              BASE_URL +:+ "catalogue/page-2.html"; BASE_URL +:+ "catalogue/gamma.html";
              BASE_URL +:+ "catalogue/beta.html" ]
    = log initial ++ (Get <$> urls)
    /\ Forall (fun u => startswith BASE_URL u = true) urls.
Proof.
  assert (scrape_books 2 Sample.broken_second_page initial
          = ({| books_data := [Sample.alpha_record; Sample.gamma_record];
                log := Get <$> [ BASE_URL +:+ "index.html";
                                 BASE_URL +:+ "catalogue/alpha.html";
                                 BASE_URL +:+ "catalogue/page-2.html";
                                 BASE_URL +:+ "catalogue/gamma.html";
                                 BASE_URL +:+ "catalogue/beta.html" ] |},
             Raise (HTTPError (BASE_URL +:+ "catalogue/beta.html") 404)))
    as Hrun by (vm_compute; reflexivity).
  exact (requests_stay_on_site _ _ _ _ _ Hrun).
Defined.

(** *** A crawl that does not end *)

(** Property X6. A listing page whose "next" link leads back to the page
    itself keeps the loop going for ever: however many passes are allowed,
    the loop has not ended, and each pass has asked for the page and its
    products once more and appended the page's records once more. *)
Theorem self_linked_page_never_ends (w : web) (url : string) (page : soup)
    (records : list pydict) (st : state) (fuel : nat) :
  respond w url = Ok page ->
  next_page page = Ok (Some url) ->
  Forall2 (fun product rec => enrich w product = Ok rec) (product_list page) records ->
  exists st',
    while_pages fuel w url st = (st', Unfinished)
    /\ books_data st' = books_data st ++ mjoin (replicate fuel records)
    /\ length (log st') = length (log st) + fuel * (1 + length records).
Proof.
  intros Hresp Hnext Hitems. revert st. induction fuel as [|fuel IH]; intros st.
  - exists st. split_and!; [done | by rewrite app_nil_r | simpl; lia].
  - rewrite while_pages_step, Hresp, (for_products_ok _ _ _ _ Hitems), Hnext.
    destruct (IH {| books_data := books_data (logged (Get url) st) ++ records;
                    log := log (logged (Get url) st)
                           ++ (Get <$> omap detail_url (product_list page)) |})
      as (st' & Hrun & Hdata & Hlog).
    exists st'. split_and!; [done | |].
    + rewrite Hdata. cbn [books_data logged replicate mjoin list_join].
      by rewrite <- (assoc_L (++)).
    + rewrite Hlog. cbn [log logged]. rewrite !length_app, length_fmap.
      assert (length (omap detail_url (product_list page)) = length records) as ->.
      { clear -Hitems. induction Hitems as [|product rec ps rs Hp _ IHp]; [done |].
        apply enrich_inv in Hp as (sm & _ & _ & Hsm & _).
        cbn [omap list_omap]. unfold detail_url at 1. rewrite Hsm. simpl.
        f_equal. exact IHp. }
      simpl. lia.
Qed.

Lemma self_linked_page_never_ends_witness :
  exists st',
    while_pages 3 Fixtures.looping_site (BASE_URL +:+ "catalogue/page-2.html") initial
      = (st', Unfinished)
    /\ books_data st' = [Sample.gamma_record; Sample.gamma_record; Sample.gamma_record]
    /\ length (log st') = 6.
Proof.
  apply (self_linked_page_never_ends Fixtures.looping_site
           (BASE_URL +:+ "catalogue/page-2.html") Fixtures.looping_page
           [Sample.gamma_record] initial 3).
  - reflexivity.
  - reflexivity.
  - repeat constructor.
Defined.

(** *** A crawl that ends *)





(** *** The price of a listing *)

Lemma keep_digits_dots_keep (s : string) :
  keep_digits_dots s = keep_char (fun c => is_digit c || is_dot c) s.
Proof. induction s as [|c s IH]; simpl; [done |]. unfold is_dot. by rewrite IH. Qed.

















End CrawlInvariants.

(** ** More on the concurrent variant *)

Module AsyncEdges.
Import Py PyStr PyStrFacts Pandas ScrapeLocalAsync GatherFacts FrameFacts AsyncFacts.

(** *** Which files are parsed *)

Lemma StronglySorted_filter {A : Type} (R : relation A) (P : A -> Prop)
    `{forall x, Decision (P x)} (l : list A) :
  StronglySorted R l -> StronglySorted R (filter P l).
Proof.
  induction 1 as [|x l Hl IH Hx]; [constructor |].
  rewrite filter_cons. case_decide; [|done].
  constructor; [done |]. rewrite Forall_forall in Hx. apply Forall_forall.
  intros y [_ Hy]%list_elem_of_filter. by apply Hx.
Qed.

Lemma merge_sort_permutation_eq (l l' : list string) :
  l ≡ₚ l' -> merge_sort String.le l = merge_sort String.le l'.
Proof.
  intros Hperm. apply (Sorted_unique String.le).
  - apply Sorted_merge_sort, _.
  - apply Sorted_merge_sort, _.
  - by rewrite !merge_sort_Permutation.
Qed.

(** Property X9. The files parsed are the entries of the directory whose
    names end with ".html" (in lower case), each as often as it is listed,
    joined to the directory and taken in increasing order of their names,
    compared character by character. *)
Theorem html_files_sorted_and_filtered (html_dir : string) (listdir : list string) :
  exists names,
    html_files html_dir listdir = path_join html_dir <$> names
    /\ names ≡ₚ filter (fun name => endswith ".html" name) listdir
    /\ StronglySorted String.le names
    /\ (forall name, name ∈ names <-> name ∈ listdir /\ endswith ".html" name = true).
Proof.
  exists (filter (fun name => endswith ".html" name) (merge_sort String.le listdir)).
  split_and!.
  - done.
  - by rewrite merge_sort_Permutation.
  - apply StronglySorted_filter, StronglySorted_merge_sort; apply _.
  - intros name. rewrite list_elem_of_filter, merge_sort_Permutation.
    rewrite Is_true_true. tauto.
Qed.

(** Property X10. The order in which the operating system lists the
    directory does not show: a directory listed in another order gives the
    same files in the same order, hence the same outcome of the scrape. *)
Theorem listdir_order_is_irrelevant (parse_html_file : string -> result (list pydict))
    (str_to_number : string -> option number) (html_dir : string)
    (listdir listdir' : list string) (completion : list nat) :
  listdir ≡ₚ listdir' ->
  html_files html_dir listdir = html_files html_dir listdir'
  /\ scrape_all_pages_async parse_html_file str_to_number html_dir listdir completion
     = scrape_all_pages_async parse_html_file str_to_number html_dir listdir' completion.
Proof.
  intros Hperm.
  assert (html_files html_dir listdir = html_files html_dir listdir') as H.
  { unfold html_files. by rewrite (merge_sort_permutation_eq _ _ Hperm). }
  split; [done |]. unfold scrape_all_pages_async. by rewrite H.
Qed.

Lemma listdir_order_is_irrelevant_witness :
  html_files "pages" ["page_2.html"; "notes.txt"; "page_1.html"]
  = html_files "pages" ["page_1.html"; "page_2.html"; "notes.txt"]
  /\ scrape_all_pages_async Sample.local_pages Sample.decimal_number "pages"
       ["page_2.html"; "notes.txt"; "page_1.html"] [1; 0]
     = scrape_all_pages_async Sample.local_pages Sample.decimal_number "pages"
         ["page_1.html"; "page_2.html"; "notes.txt"] [1; 0].
Proof.
  apply listdir_order_is_irrelevant.
  exact (Permutation_app_comm ["page_2.html"; "notes.txt"] ["page_1.html"]).
Defined.

(** *** Units that raise *)

Section Failure.
Context {A : Type}.
Implicit Types (units : list (result A)) (slots : list (option A)).

Lemma gather_go_raises units before i after e slots :
  units !! i = Some (Raise e) ->
  Forall (fun j => forall r, units !! j = Some r -> exists a, r = Ok a) before ->
  gather_go units (before ++ i :: after) slots = Raise e.
Proof.
  intros Hi Hbefore. revert slots.
  induction Hbefore as [|j before Hj _ IH]; intros slots.
  - cbn [app gather_go]. by rewrite Hi.
  - cbn [app gather_go]. destruct (units !! j) as [r|]; [|apply IH].
    destruct (Hj r eq_refl) as [a ->]. apply IH.
Qed.
End Failure.

(** Property X11. When the parsing of a file raises and every unit that
    completes before that one returns, the scrape ends with the exception of
    that file and gives no frame, whatever the units that would complete
    later hold. *)
Theorem first_failure_ends_the_scrape (parse_html_file : string -> result (list pydict))
    (str_to_number : string -> option number) (html_dir : string)
    (listdir : list string) (before after : list nat) (i : nat)
    (file_path : string) (e : exn) :
  html_files html_dir listdir !! i = Some file_path ->
  parse_html_file file_path = Raise e ->
  Forall (fun j => forall f, html_files html_dir listdir !! j = Some f ->
                   exists records, parse_html_file f = Ok records) before ->
  scrape_all_pages_async parse_html_file str_to_number html_dir listdir
    (before ++ i :: after)
  = Raise e.
Proof.
  intros Hi He Hbefore. unfold scrape_all_pages_async, gather.
  rewrite (gather_go_raises _ before i after e); [done | |].
  - rewrite list_lookup_fmap, Hi. simpl. unfold parse_file_async. by rewrite He.
  - eapply Forall_impl; [exact Hbefore |]. intros j Hj r.
    rewrite list_lookup_fmap.
    destruct (html_files html_dir listdir !! j) as [f|] eqn:Hf; [|done].
    simpl. intros [= <-]. unfold parse_file_async. destruct (Hj f Hf) as [recs ->].
    by eexists.
Qed.

Lemma first_failure_ends_the_scrape_witness :
  scrape_all_pages_async Fixtures.failing_second Sample.decimal_number "pages"
    ["page_2.html"; "page_1.html"] ([0] ++ 1 :: [])
  = Raise AttributeError.
Proof.
  apply (first_failure_ends_the_scrape Fixtures.failing_second Sample.decimal_number
           "pages" ["page_2.html"; "page_1.html"] [0] [] 1 "pages/page_2.html").
  - reflexivity.
  - reflexivity.
  - apply Forall_singleton. intros f Hf.
    assert (f = "pages/page_1.html") as -> by (vm_compute in Hf; by injection Hf).
    by eexists.
Defined.

(** *** Columns that are not there *)

Lemma convert_columns_app str_to_number todo1 todo2 df :
  convert_columns str_to_number (todo1 ++ todo2) df
  = let? df1 := convert_columns str_to_number todo1 df in
    convert_columns str_to_number todo2 df1.
Proof.
  revert df. induction todo1 as [|col todo1 IH]; intros df; [done |].
  cbn [app convert_columns]. destruct (get_column df col); [simpl|done..]. apply IH.
Qed.

Lemma assemble_missing str_to_number all_results present col later :
  numeric_cols = present ++ col :: later ->
  (forall c, c ∈ present -> exists r, r ∈ mjoin all_results /\ c ∈ keys r) ->
  (forall r, r ∈ mjoin all_results -> col ∉ keys r) ->
  assemble str_to_number all_results = Raise (KeyError col).
Proof.
  intros Hcols Hpresent Hcol. unfold assemble. rewrite Hcols, convert_columns_app.
  rewrite of_records_frame, convert_columns_frame; [simpl | apply all_keys_NoDup | |].
  - unfold get_column. cbn [frame columns]. rewrite column_index_None; [done |].
    intros (r & Hr & Hin)%elem_of_all_keys. by apply (Hcol r).
  - pose proof numeric_cols_NoDup as Hnd. rewrite Hcols in Hnd.
    by apply NoDup_app in Hnd as (Hnd & _ & _).
  - intros c Hc. by apply elem_of_all_keys, Hpresent.
Qed.

(** Property X12. Once the units are gathered, the conversion of the numeric
    columns raises [KeyError] for the first of id, rating, price and
    availability that no record has as a key, and so the scrape gives no
    frame. *)
Theorem missing_numeric_column_raises (parse_html_file : string -> result (list pydict))
    (str_to_number : string -> option number) (html_dir : string)
    (listdir : list string) (completion : list nat)
    (all_results : list (list pydict)) (present later : list string) (col : string) :
  gather (parse_file_async parse_html_file <$> html_files html_dir listdir) completion
    = Ok all_results ->
  numeric_cols = present ++ col :: later ->
  (forall c, c ∈ present -> exists r, r ∈ mjoin all_results /\ c ∈ keys r) ->
  (forall r, r ∈ mjoin all_results -> col ∉ keys r) ->
  scrape_all_pages_async parse_html_file str_to_number html_dir listdir completion
  = Raise (KeyError col).
Proof.
  intros Hgather Hcols Hpresent Hcol. unfold scrape_all_pages_async.
  rewrite Hgather. simpl. by eapply assemble_missing.
Qed.

Lemma missing_numeric_column_raises_witness :
  scrape_all_pages_async Fixtures.unpriced Sample.decimal_number "pages"
    ["page_1.html"] [0]
  = Raise (KeyError "price").
Proof.
  apply (missing_numeric_column_raises Fixtures.unpriced Sample.decimal_number "pages"
           ["page_1.html"] [0] [[[("id", PStr "1"); ("rating", PStr "4")]]]
           ["id"; "rating"] ["availability"] "price").
  - reflexivity.
  - reflexivity.
  - intros c Hc. exists [("id", PStr "1"); ("rating", PStr "4")]. split; [by left |].
    exact Hc.
  - intros r ->%list_elem_of_singleton. apply (bool_decide_unpack _). vm_compute.
    reflexivity.
Defined.

Lemma gather_nil {A : Type} (completion : list nat) : gather (@nil (result A)) completion = Ok [].
Proof.
  unfold gather. assert (forall slots, gather_go (@nil (result A)) completion slots = Ok slots) as ->.
  { induction completion as [|i later IH]; intros slots; [done |]. apply IH. }
  done.
Qed.

(** Property X13. A directory with no file whose name ends with ".html", an
    empty directory for one, gives no empty frame: the scrape raises
    [KeyError] for the column id. *)
Theorem no_html_file_raises (parse_html_file : string -> result (list pydict))
    (str_to_number : string -> option number) (html_dir : string)
    (listdir : list string) (completion : list nat) :
  Forall (fun name => endswith ".html" name = false) listdir ->
  scrape_all_pages_async parse_html_file str_to_number html_dir listdir completion
  = Raise (KeyError "id").
Proof.
  intros Hnone.
  assert (html_files html_dir listdir = []) as Hfiles.
  { unfold html_files.
    destruct (filter _ (merge_sort String.le listdir)) as [|name names] eqn:E; [done |].
    assert (name ∈ filter (fun filename => endswith ".html" filename)
                     (merge_sort String.le listdir)) as Hin by (rewrite E; left).
    apply list_elem_of_filter in Hin as [Hhtml Hname].
    rewrite merge_sort_Permutation in Hname.
    rewrite Forall_forall in Hnone. rewrite (Hnone _ Hname) in Hhtml. done. }
  unfold scrape_all_pages_async. rewrite Hfiles. cbn [fmap list_fmap].
  rewrite gather_nil. reflexivity.
Qed.

Lemma no_html_file_raises_witness :
  scrape_all_pages_async Sample.local_pages Sample.decimal_number "pages"
    ["notes.txt"; "page_1.HTML"] []
  = Raise (KeyError "id").
Proof.
  apply no_html_file_raises. by repeat constructor.
Defined.

End AsyncEdges.

(** ** The generator: pages *)

Module PageFacts.
Import Py PyStr PyStrFacts PyMore Pandas GenerateSyntheticBooks PageNames MoreFacts.

(** *** Cutting a list into runs of [r] items *)

Lemma take_min_length {A : Type} (a : nat) (l : list A) :
  take (a `min` length l) l = take a l.
Proof.
  destruct (decide (a <= length l)) as [Hle|Hgt].
  - by rewrite Nat.min_l.
  - rewrite Nat.min_r, !take_ge by lia. done.
Qed.

Lemma runs_cover {A : Type} (r n : nat) (l : list A) :
  length l <= n * r ->
  mjoin ((fun i => take r (drop (i * r) l)) <$> seq 0 n) = l.
Proof.
  revert l. induction n as [|n IH]; intros l Hlen.
  - destruct l; [done | simpl in Hlen; lia].
  - cbn [seq fmap list_fmap mjoin list_join]. rewrite <- fmap_S_seq, <- list_fmap_compose.
    rewrite Nat.mul_0_l, drop_0.
    rewrite (list_fmap_ext _ (fun i => take r (drop (i * r) (drop r l))) (seq 0 n)).
    + rewrite IH; [apply take_drop |]. rewrite length_drop. lia.
    + intros _ i _. simpl. by rewrite drop_drop.
Qed.

(** The slice of a page is the run of its index. *)
Lemma slice_run {A : Type} (r : Z) (i : nat) (l : list A) :
  (0 < r)%Z ->
  slice (Z.of_nat i * r) (Z.min (Z.of_nat i * r + r) (Z.of_nat (length l))) l
  = take (Z.to_nat r) (drop (i * Z.to_nat r) l).
Proof.
  intros Hr. unfold slice, slice_bound.
  remember (Z.of_nat (length l)) as len eqn:Hlen.
  remember (Z.of_nat i * r)%Z as s eqn:Hs.
  assert (0 <= s)%Z by nia.
  rewrite !(proj2 (Z.ltb_ge _ 0)) by lia.
  assert (i * Z.to_nat r = Z.to_nat s) as -> by nia.
  destruct (decide (s <= len)%Z) as [Hle|Hgt].
  - rewrite (Z.min_l s len) by lia.
    rewrite <- (take_min_length (Z.to_nat r) (drop _ l)), length_drop.
    f_equal. lia.
  - rewrite !drop_ge by lia. by rewrite !take_nil.
Qed.

Lemma page_rows (df : DataFrame) (directory : string) (r num_pages : Z) (i : nat) :
  (0 < r)%Z ->
  rows (page_df (page_of df directory r num_pages (Z.of_nat i)))
  = take (Z.to_nat r) (drop (i * Z.to_nat r) (rows df)).
Proof. intros Hr. cbn [page_of page_df iloc rows]. by apply slice_run. Qed.

Lemma pages_of_positive (df : DataFrame) (directory : string) (r : Z) :
  (0 < r)%Z ->
  pages_of df directory r
  = Returns ((fun i => page_of df directory r
                         ((Z.of_nat (length (rows df)) + r - 1) / r) (Z.of_nat i))
             <$> seq 0 (Z.to_nat ((Z.of_nat (length (rows df)) + r - 1) / r))).
Proof.
  intros Hr. unfold pages_of. rewrite (proj2 (Z.eqb_neq r 0)) by lia.
  unfold range. by rewrite <- list_fmap_compose.
Qed.

(** The number of pages is the number of rows divided by the rows per
    page, rounded up. *)
Lemma num_pages_bounds (total r : Z) :
  (0 <= total)%Z -> (0 < r)%Z ->
  let n := ((total + r - 1) / r)%Z in
  (0 <= n /\ (n - 1) * r < total <= n * r)%Z \/ (total = 0 /\ n = 0)%Z.
Proof.
  intros Ht Hr n. subst n.
  pose proof (Z.div_mod (total + r - 1) r ltac:(lia)) as Hdm.
  pose proof (Z.mod_pos_bound (total + r - 1) r Hr) as Hm.
  destruct (decide (total = 0%Z)) as [->|Hne].
  - right. split; [done |]. apply Z.div_small. lia.
  - left. nia.
Qed.

(** Property X14. With a positive number of rows per page, the pages written
    hold the rows of the frame, each once and in their order, under the
    frame's columns: there are as many pages as the number of rows divided
    by the rows per page, rounded up; every page but the last has exactly
    that many rows, and the last has at least one and no more. *)
Theorem pages_partition_the_rows (df : DataFrame) (directory : string)
    (rows_per_page : Z) :
  (0 < rows_per_page)%Z ->
  exists pages,
    pages_of df directory rows_per_page = Returns pages
    /\ mjoin ((fun p => rows (page_df p)) <$> pages) = rows df
    /\ Forall (fun p => columns (page_df p) = columns df) pages
    /\ (Z.of_nat (length (rows df)) <= Z.of_nat (length pages) * rows_per_page
        < Z.of_nat (length (rows df)) + rows_per_page)%Z
    /\ (forall i p, pages !! i = Some p ->
          (1 <= Z.of_nat (length (rows (page_df p))) <= rows_per_page)%Z
          /\ (S i < length pages ->
              Z.of_nat (length (rows (page_df p))) = rows_per_page)).
Proof.
  intros Hr. rewrite pages_of_positive by done.
  set (total := Z.of_nat (length (rows df))).
  set (n := ((total + rows_per_page - 1) / rows_per_page)%Z).
  pose proof (num_pages_bounds total rows_per_page ltac:(lia) Hr) as Hn.
  fold n in Hn. cbv zeta in Hn.
  eexists. split; [reflexivity |]. split_and!.
  - rewrite <- list_fmap_compose.
    rewrite (list_fmap_ext _ (fun i => take (Z.to_nat rows_per_page)
                                         (drop (i * Z.to_nat rows_per_page) (rows df)))
               (seq 0 (Z.to_nat n))).
    + apply runs_cover. nia.
    + intros _ i _. exact (page_rows _ _ _ _ _ Hr).
  - apply Forall_fmap, Forall_forall. by intros i _.
  - rewrite length_fmap, length_seq. nia.
  - rewrite length_fmap, length_seq. nia.
  - intros i p. rewrite list_lookup_fmap, length_fmap, length_seq.
    destruct (seq 0 (Z.to_nat n) !! i) as [j|] eqn:Hj; [simpl|done].
    apply lookup_seq in Hj as [-> Hi]. intros [= <-].
    rewrite page_rows by done. rewrite length_take, length_drop. simpl. nia.
Qed.

Lemma pages_partition_the_rows_witness :
  exists pages,
    pages_of {| columns := ["id"]; rows := [[PInt 1]; [PInt 2]; [PInt 3]; [PInt 4]; [PInt 5]] |}
      "local/pages" 2
    = Returns pages
    /\ (fun p => rows (page_df p)) <$> pages
       = [ [[PInt 1]; [PInt 2]]; [[PInt 3]; [PInt 4]]; [[PInt 5]] ].
Proof.
  destruct (pages_partition_the_rows
              {| columns := ["id"];
                 rows := [[PInt 1]; [PInt 2]; [PInt 3]; [PInt 4]; [PInt 5]] |}
              "local/pages" 2 ltac:(lia)) as (pages & Hpages & _).
  exists pages. split; [exact Hpages |].
  vm_compute in Hpages. by injection Hpages as <-.
Defined.

(** *** The files and their links *)

Lemma page_name_of (page_idx : nat) :
  "page_" +:+ pretty (Z.of_nat page_idx + 1)%Z +:+ ".html" = page_name (S page_idx).
Proof. unfold page_name. do 2 f_equal. f_equal. lia. Qed.

Lemma previous_link_of (page_idx : nat) :
  previous_link (Z.of_nat page_idx) = link (page_name page_idx) "Previous".
Proof. unfold previous_link, link, page_name. by rewrite !sapp_assoc. Qed.

Lemma next_link_of (page_idx : nat) :
  next_link (Z.of_nat page_idx) = link (page_name (page_idx + 2)) "Next".
Proof.
  unfold next_link, link, page_name. rewrite !sapp_assoc.
  do 4 f_equal. f_equal. lia.
Qed.

Lemma page_name_inj : Inj (=) (=) page_name.
Proof.
  intros j k H. unfold page_name in H.
  apply (inj (String.app "page_")), sapp_inv_tail, (inj pretty) in H. lia.
Qed.

(** A page name is joined to the directory as it is. *)
Lemma path_join_page_name (directory : string) (k : nat) :
  path_join directory (page_name k)
  = (if String.eqb directory "" || endswith "/" directory
     then directory else directory +:+ "/") +:+ page_name k.
Proof.
  unfold path_join. change (startswith "/" (page_name k)) with false. cbv iota.
  destruct (String.eqb directory "" || endswith "/" directory); [done |].
  by rewrite sapp_assoc.
Qed.

Lemma path_join_page_name_inj (directory : string) (j k : nat) :
  path_join directory (page_name j) = path_join directory (page_name k) -> j = k.
Proof.
  rewrite !path_join_page_name. intros H.
  by apply (inj (String.app _)), page_name_inj in H.
Qed.

Lemma page_files (df : DataFrame) (directory : string) (r : Z) (pages : list page) :
  r <> 0%Z -> pages_of df directory r = Returns pages ->
  file_path <$> pages = (fun k => path_join directory (page_name k)) <$> seq 1 (length pages).
Proof.
  intros Hr. unfold pages_of. rewrite (proj2 (Z.eqb_neq r 0)) by done.
  intros [= <-]. unfold range.
  rewrite <- !list_fmap_compose, !length_fmap, length_seq, <- fmap_S_seq.
  rewrite <- list_fmap_compose. apply list_fmap_ext. intros _ i _.
  cbn [compose page_of file_path]. by rewrite page_name_of.
Qed.

(** Property X15. With a positive number of rows per page, the [k]-th page
    written is the file [page_k.html] of the directory, so that no page
    overwrites another. Its navigation holds a link "Previous" exactly when
    a page was written before it, and the link is to the file of that page;
    and a link "Next" exactly when a page is written after it, to the file
    of that page. *)
Theorem page_files_and_links (df : DataFrame) (directory : string) (rows_per_page : Z) :
  (0 < rows_per_page)%Z ->
  exists pages,
    pages_of df directory rows_per_page = Returns pages
    /\ file_path <$> pages
       = path_join directory <$> (page_name <$> seq 1 (length pages))
    /\ NoDup (file_path <$> pages)
    /\ (forall i p, pages !! i = Some p ->
          page_number p = Z.of_nat (S i)
          /\ nav_links p
             = (if decide (i = 0) then []
                else (fun name => link name "Previous")
                     <$> option_list ((page_name <$> seq 1 (length pages)) !! (i - 1)))
               ++ ((fun name => link name "Next")
                   <$> option_list ((page_name <$> seq 1 (length pages)) !! (S i)))).
Proof.
  intros Hr. destruct (pages_of df directory rows_per_page) as [pages|e] eqn:Hpages;
    [|by rewrite pages_of_positive in Hpages].
  exists pages. pose proof (page_files df directory rows_per_page pages ltac:(lia) Hpages)
    as Hfiles.
  split_and!; [done | by rewrite <- list_fmap_compose | |].
  - rewrite Hfiles. apply NoDup_fmap_2_strong; [|apply NoDup_seq].
    intros j k _ _. apply path_join_page_name_inj.
  - rewrite pages_of_positive in Hpages by done. injection Hpages as <-.
    intros i p. rewrite list_lookup_fmap, !length_fmap, !length_seq.
    set (n := ((Z.of_nat (length (rows df)) + rows_per_page - 1) / rows_per_page)%Z).
    destruct (seq 0 (Z.to_nat n) !! i) as [j|] eqn:Hj; [simpl|done].
    apply lookup_seq in Hj as [-> Hi]. intros [= <-].
    cbn [page_of page_number nav_links]. split; [lia |]. f_equal.
    + destruct i as [|i]; [done |].
      rewrite (proj2 (Z.ltb_lt 0 _)) by lia. rewrite decide_False by done.
      rewrite list_lookup_fmap, lookup_seq_lt by lia. simpl.
      rewrite previous_link_of. do 3 f_equal. lia.
    + destruct (decide (S i < Z.to_nat n)) as [Hlt|Hge].
      * rewrite (proj2 (Z.ltb_lt _ _)) by lia.
        rewrite list_lookup_fmap, lookup_seq_lt by lia. simpl.
        rewrite next_link_of. do 3 f_equal. lia.
      * rewrite (proj2 (Z.ltb_ge _ _)) by lia.
        rewrite list_lookup_fmap, lookup_seq_ge by lia. done.
Qed.

Lemma page_files_and_links_witness :
  exists pages,
    pages_of {| columns := ["id"]; rows := [[PInt 1]; [PInt 2]; [PInt 3]; [PInt 4]; [PInt 5]] |}
      "local/pages" 2
    = Returns pages
    /\ file_path <$> pages
       = ["local/pages/page_1.html"; "local/pages/page_2.html"; "local/pages/page_3.html"]
    /\ nav_links <$> pages
       = [ [link "page_2.html" "Next"];
           [link "page_1.html" "Previous"; link "page_3.html" "Next"];
           [link "page_2.html" "Previous"] ].
Proof.
  destruct (page_files_and_links
              {| columns := ["id"];
                 rows := [[PInt 1]; [PInt 2]; [PInt 3]; [PInt 4]; [PInt 5]] |}
              "local/pages" 2 ltac:(lia)) as (pages & Hpages & Hfiles & _ & _).
  exists pages. split; [exact Hpages |].
  vm_compute in Hpages. injection Hpages as <-. split; reflexivity.
Defined.

(** *** No rows per page, no rows, fewer than no rows per page *)




End PageFacts.

(** ** From the generator to the concurrent scraper *)

Module PipelineFacts.
Import Py PyStr PyStrFacts PyMore Pandas GenerateSyntheticBooks PageNames
  ScrapeLocalAsync PageFacts AsyncEdges MoreFacts.

Lemma endswith_page_name (k : nat) : endswith ".html" (page_name k) = true.
Proof.
  unfold page_name. rewrite <- sapp_assoc. apply endswith_app.
Qed.

Lemma filter_all {A : Type} (P : A -> Prop) `{forall x, Decision (P x)} (l : list A) :
  Forall P l -> filter P l = l.
Proof.
  induction 1 as [|x l Hx _ IH]; [done |].
  rewrite filter_cons, decide_True by done. by rewrite IH.
Qed.

Lemma StronglySorted_lookup {A : Type} (R : relation A) (l : list A) (i j : nat) (x y : A) :
  StronglySorted R l -> i < j -> l !! i = Some x -> l !! j = Some y -> R x y.
Proof.
  intros Hl. revert i j. induction Hl as [|z l _ IH Hz]; intros i j Hij Hi Hj; [done |].
  destruct j as [|j]; [lia |]. destruct i as [|i].
  - injection Hi as <-. rewrite Forall_forall in Hz. apply Hz.
    by eapply list_elem_of_lookup_2.
  - eapply (IH i j); [lia | done | done].
Qed.

Lemma html_files_of_pages (directory : string) (listdir : list string) (n : nat) :
  listdir ≡ₚ page_name <$> seq 1 n ->
  html_files directory listdir
  = path_join directory <$> merge_sort String.le (page_name <$> seq 1 n).
Proof.
  intros Hperm. unfold html_files. rewrite (merge_sort_permutation_eq _ _ Hperm).
  f_equal. apply filter_all. rewrite merge_sort_Permutation.
  apply Forall_fmap, Forall_forall. intros k _. simpl.
  by rewrite endswith_page_name.
Qed.

(** Property X17. When the directory holds the pages [save_html_pages] has
    written and nothing else, the files the concurrent scraper parses are
    these pages, each once. It takes them in the order in which they were
    written as long as there are at most nine; from ten pages on it does
    not, as it sorts the names as strings. *)
Theorem written_pages_are_the_files_parsed (df : DataFrame) (directory : string)
    (rows_per_page : Z) (pages : list page) (listdir : list string) :
  (0 < rows_per_page)%Z ->
  pages_of df directory rows_per_page = Returns pages ->
  listdir ≡ₚ page_name <$> seq 1 (length pages) ->
  html_files directory listdir ≡ₚ file_path <$> pages
  /\ (length pages <= 9 -> html_files directory listdir = file_path <$> pages)
  /\ (10 <= length pages -> html_files directory listdir <> file_path <$> pages).
Proof.
  intros Hr Hpages Hperm.
  rewrite (page_files df directory rows_per_page pages ltac:(lia) Hpages).
  rewrite (html_files_of_pages _ _ _ Hperm).
  rewrite (list_fmap_compose page_name (path_join directory)).
  generalize (length pages) as n. clear. intros n. split_and!.
  - by rewrite merge_sort_Permutation.
  - intros Hn. f_equal.
    do 10 (destruct n as [|n]; [vm_compute; reflexivity |]). lia.
  - intros Hn Heq.
    assert (merge_sort String.le (page_name <$> seq 1 n) = page_name <$> seq 1 n) as Hsame.
    { apply list_eq. intros i. apply (f_equal (fun l => l !! i)) in Heq.
      rewrite !list_lookup_fmap in Heq. rewrite list_lookup_fmap.
      destruct (merge_sort String.le (page_name <$> seq 1 n) !! i) as [x|] eqn:Hx;
        destruct (seq 1 n !! i) as [k|] eqn:Hk; simpl in *; try done.
      apply list_elem_of_lookup_2 in Hx. rewrite merge_sort_Permutation in Hx.
      apply list_elem_of_fmap in Hx as (j & -> & _).
      injection Heq as Heq. by apply path_join_page_name_inj in Heq as ->. }
    assert (StronglySorted String.le (page_name <$> seq 1 n)) as Hsorted.
    { rewrite <- Hsame. apply StronglySorted_merge_sort; apply _. }
    assert (String.le (page_name 2) (page_name 10)) as Hle.
    { apply (StronglySorted_lookup _ _ 1 9 _ _ Hsorted); [lia | |];
        rewrite list_lookup_fmap, lookup_seq_lt by lia; done. }
    revert Hle. apply (bool_decide_unpack _). vm_compute. reflexivity.
Qed.

Lemma written_pages_are_the_files_parsed_witness :
  html_files "local/pages" ["page_3.html"; "page_1.html"; "page_2.html"]
  = ["local/pages/page_1.html"; "local/pages/page_2.html"; "local/pages/page_3.html"].
Proof.
  assert (exists pages,
            pages_of {| columns := ["id"];
                        rows := [[PInt 1]; [PInt 2]; [PInt 3]; [PInt 4]; [PInt 5]] |}
              "local/pages" 2 = Returns pages
            /\ length pages = 3
            /\ file_path <$> pages
               = ["local/pages/page_1.html"; "local/pages/page_2.html";
                  "local/pages/page_3.html"]) as (pages & Hpages & Hlen & Hfiles)
    by (eexists; split_and!; reflexivity).
  destruct (written_pages_are_the_files_parsed _ "local/pages" 2 pages
              ["page_3.html"; "page_1.html"; "page_2.html"] ltac:(lia) Hpages)
    as (_ & Hsame & _).
  - rewrite Hlen. exact (Permutation_app_comm ["page_3.html"] ["page_1.html"; "page_2.html"]).
  - rewrite <- Hfiles. apply Hsame. lia.
Defined.

End PipelineFacts.

(** ** The length of a description *)

Module WordFacts.
Import Py PyStr PyStrFacts PyMore Schema Words MoreFacts.

Lemma split_go_nil (cur : string) : cur <> "" -> split_go cur "" = [cur].
Proof. intros H. simpl. by destruct (String.eqb_spec cur ""). Qed.

Lemma split_go_space (cur : string) (c : ascii) (s : string) :
  is_space c = true -> cur <> "" -> split_go cur (String c s) = cur :: split_go "" s.
Proof. intros Hc H. simpl. rewrite Hc. by destruct (String.eqb_spec cur ""). Qed.

Lemma split_go_word (cur w s : string) :
  count_char is_space w = 0 -> split_go cur (w +:+ s) = split_go (cur +:+ w) s.
Proof.
  revert cur. induction w as [|c w IH]; intros cur; [by rewrite sapp_nil_r |].
  simpl. destruct (is_space c); [done |]. simpl. intros H.
  rewrite IH by done. by rewrite sapp_assoc.
Qed.

Lemma split_go_blank (s : string) : all_space s = true -> split_go "" s = [].
Proof.
  induction s as [|c s IH]; [done |]. simpl.
  intros [-> Hs]%andb_true_iff. by apply IH.
Qed.

Lemma split_go_pad_r (cur s r : string) :
  all_space r = true -> split_go cur (s +:+ r) = split_go cur s.
Proof.
  intros Hr. revert cur. induction s as [|c s IH]; intros cur.
  - cbn [String.append]. destruct r as [|c r]; [done |].
    simpl in Hr. apply andb_true_iff in Hr as [Hc Hr].
    cbn [split_go]. rewrite Hc, (split_go_blank _ Hr).
    by destruct (String.eqb cur "").
  - cbn [String.append split_go]. by rewrite !IH.
Qed.

Lemma split_pad (l s r : string) :
  all_space l = true -> all_space r = true -> split (l +:+ s +:+ r) = split s.
Proof.
  intros Hl Hr. unfold split. rewrite <- sapp_assoc, split_go_pad_r by done.
  clear r Hr. induction l as [|c l IH]; [done |].
  simpl in Hl. apply andb_true_iff in Hl as [Hc Hl].
  cbn [String.append split_go]. rewrite Hc. simpl. by apply IH.
Qed.

(** Words joined by single spaces are split into the same words. *)
Lemma split_join (words : list string) :
  Forall is_word words -> split (join " " words) = words.
Proof.
  unfold split, join. induction 1 as [|w words [Hne Hw] Hwords IH]; [done |].
  destruct words as [|w' words].
  - cbn [String.concat]. rewrite <- (sapp_nil_r w) at 1.
    rewrite split_go_word by done. by apply split_go_nil.
  - cbn [String.concat] in *. rewrite split_go_word by done.
    change (" " +:+ ?t) with (String " " t).
    rewrite split_go_space by done. by rewrite IH.
Qed.

(** The words of a string are words. *)
Lemma split_go_words (cur s : string) :
  count_char is_space cur = 0 -> Forall is_word (split_go cur s).
Proof.
  revert cur. induction s as [|c s IH]; intros cur Hcur.
  - simpl. destruct (String.eqb_spec cur ""); by repeat constructor.
  - cbn [split_go]. destruct (is_space c) eqn:Hc.
    + destruct (String.eqb_spec cur ""); [by apply IH |].
      constructor; [done | by apply IH].
    + apply IH. rewrite count_char_app. simpl. rewrite Hc. lia.
Qed.

End WordFacts.

Module FeatureFacts.
Import Py PyStr PyStrFacts PyMore Pandas Schema Words TrainModel WordFacts.

(** Property X18. The feature [description_length] of [preprocess_features]
    is 0 for a description that is missing, empty or blank, and the number
    of words for words that single spaces separate; whitespace before and
    after a description does not count, and what [split] counts are words:
    runs without whitespace that are not empty. *)
Theorem description_length_counts_words (float_str : Q -> string) :
  description_length float_str PNone = PInt 0
  /\ description_length float_str PNaN = PInt 0
  /\ (forall s, all_space s = true -> description_length float_str (PStr s) = PInt 0)
  /\ (forall words, Forall is_word words ->
        description_length float_str (PStr (join " " words))
        = PInt (Z.of_nat (length words)))
  /\ (forall l s r, all_space l = true -> all_space r = true ->
        description_length float_str (PStr (l +:+ s +:+ r))
        = description_length float_str (PStr s))
  /\ (forall s, Forall is_word (split s)).
Proof.
  unfold description_length. cbn [fillna_empty str]. split_and!; try done.
  - intros s Hs. unfold split. by rewrite split_go_blank.
  - intros words Hwords. by rewrite split_join.
  - intros l s r Hl Hr. by rewrite split_pad.
  - intros s. by apply split_go_words.
Qed.

(** Property X19. The length the application computes for the text the user
    types is the feature the model was trained on for the same text. *)
Theorem desc_length_agrees_with_training (float_str : Q -> string) (description : string) :
  description_length float_str (PStr description)
  = PInt (Z.of_nat (App.desc_length description)).
Proof.
  unfold description_length, App.desc_length. cbn [fillna_empty str].
  by destruct (String.eqb_spec description "") as [->|_].
Qed.

(** *** The frames [preprocess_features] takes and gives *)

Lemma column_index_lookup col cols i :
  column_index col cols = Some i ->
  cols !! i = Some col /\ forall j, j < i -> cols !! j <> Some col.
Proof.
  revert i. induction cols as [|c cols IH]; intros i; [done |]. simpl.
  destruct (String.eqb_spec col c) as [->|Hne].
  - intros [= <-]. split; [done | lia].
  - destruct (column_index col cols) as [k|]; [|done]. intros [= <-].
    destruct (IH k eq_refl) as [Hk Hfirst]. split; [done |].
    intros [|j] Hj; simpl; [congruence | apply Hfirst; lia].
Qed.

Lemma column_index_is_Some col cols : col ∈ cols <-> is_Some (column_index col cols).
Proof.
  split.
  - intros (i & Hi & _)%FrameFacts.column_index_Some. by eexists.
  - intros [i (Hi & _)%column_index_lookup]. by eapply list_elem_of_lookup_2.
Qed.

Lemma column_index_snoc col cols c :
  column_index c (cols ++ [col])
  = match column_index c cols with
    | Some i => Some i
    | None => if String.eqb c col then Some (length cols) else None
    end.
Proof.
  induction cols as [|c0 cols IH]; simpl.
  - by destruct (String.eqb c col).
  - destruct (String.eqb c c0); [done |]. rewrite IH.
    destruct (column_index c cols); [done |]. by destruct (String.eqb c col).
Qed.

Lemma get_column_cells (df : DataFrame) (c : string) :
  c ∈ columns df -> get_column df c = Ok ((fun r => cell df r c) <$> rows df).
Proof.
  intros [i Hi]%column_index_is_Some. unfold get_column, cell. by rewrite Hi.
Qed.

Lemma get_column_absent (df : DataFrame) (c : string) :
  c ∉ columns df -> get_column df c = Raise (KeyError c).
Proof.
  intros H. unfold get_column.
  destruct (column_index c (columns df)) eqn:E; [|done].
  destruct H. apply column_index_is_Some. by eexists.
Qed.

(** What [df[col] = series] does to the cells. *)
Lemma set_column_cells (df : DataFrame) (col : string) (series : list pyval) :
  Forall (fun r => length r = length (columns df)) (rows df) ->
  length series = length (rows df) ->
  (forall c, c ∈ columns (set_column df col series) <-> c ∈ columns df \/ c = col)
  /\ length (rows (set_column df col series)) = length (rows df)
  /\ (forall i r v, rows df !! i = Some r -> series !! i = Some v ->
        exists r', rows (set_column df col series) !! i = Some r'
          /\ forall c, cell (set_column df col series) r' c
                       = if decide (c = col) then v else cell df r c).
Proof.
  intros Hshape Hlen. unfold set_column.
  destruct (column_index col (columns df)) as [k|] eqn:Hk.
  - apply column_index_lookup in Hk as Hk'. destruct Hk' as [Hcol _].
    cbn [columns rows]. split_and!.
    + intros c. split; [by left |]. intros [?| ->]; [done |].
      by eapply list_elem_of_lookup_2.
    + rewrite length_zip_with. lia.
    + intros i r v Hr Hv. exists (<[k := v]> r). split.
      { rewrite lookup_zip_with, Hr, Hv. done. }
      intros c. unfold cell. cbn [columns].
      rewrite Forall_forall in Hshape.
      assert (length r = length (columns df)) as Hlr
        by (apply Hshape; by eapply list_elem_of_lookup_2).
      destruct (decide (c = col)) as [->|Hne].
      * rewrite Hk. simpl. rewrite list_lookup_insert_eq; [done |].
        rewrite Hlr. by eapply lookup_lt_Some.
      * destruct (column_index c (columns df)) as [j|] eqn:Hj; [simpl|done].
        rewrite list_lookup_insert_ne; [done |]. intros ->.
        apply column_index_lookup in Hj as [Hj _]. congruence.
  - assert (col ∉ columns df) as Hnot.
    { intros [i Hi]%column_index_is_Some. congruence. }
    cbn [columns rows]. split_and!.
    + intros c. rewrite elem_of_app, list_elem_of_singleton. done.
    + rewrite length_zip_with. lia.
    + intros i r v Hr Hv. exists (r ++ [v]). split.
      { rewrite lookup_zip_with, Hr, Hv. done. }
      intros c. unfold cell. cbn [columns]. rewrite column_index_snoc.
      rewrite Forall_forall in Hshape.
      assert (length r = length (columns df)) as Hlr
        by (apply Hshape; by eapply list_elem_of_lookup_2).
      destruct (decide (c = col)) as [->|Hne].
      * rewrite Hk, String.eqb_refl. simpl. rewrite <- Hlr.
        by rewrite lookup_app_r, Nat.sub_diag by lia.
      * destruct (column_index c (columns df)) as [j|] eqn:Hj; simpl.
        -- apply column_index_lookup in Hj as [Hj _].
           rewrite lookup_app_l; [done |]. rewrite Hlr. by eapply lookup_lt_Some.
        -- by destruct (String.eqb_spec c col).
Qed.

Lemma filter_ext_in {A : Type} (P Q : A -> Prop) `{forall x, Decision (P x)}
    `{forall x, Decision (Q x)} (l : list A) :
  (forall x, x ∈ l -> (P x <-> Q x)) -> filter P l = filter Q l.
Proof.
  induction l as [|x l IH]; intros Hl; [done |]. rewrite !filter_cons.
  rewrite IH by (intros y Hy; apply Hl; by right).
  destruct (decide (P x)) as [HP|HP], (decide (Q x)) as [HQ|HQ]; try done.
  - destruct HQ. apply Hl; [by left | done].
  - destruct HP. apply Hl; [by left | done].
Qed.

Section Preprocess.
Variable float_str : Q -> string.
Variable not_in_index : list string -> list string -> string.

(** The frame after [df['description_length'] = ...]. *)
Lemma with_length_cells (df df' : DataFrame) :
  Forall (fun r => length r = length (columns df)) (rows df) ->
  df' = set_column df "description_length"
          (description_length float_str <$> ((fun r => cell df r "description") <$> rows df)) ->
  (forall c, c ∈ columns df' <-> c ∈ columns df \/ c = "description_length")
  /\ (forall c, c <> "description_length" ->
        (fun r => cell df' r c) <$> rows df' = (fun r => cell df r c) <$> rows df)
  /\ (fun r => cell df' r <$> feature_cols) <$> rows df'
     = (fun r => [ cell df r "category"; cell df r "rating"; cell df r "availability";
                   description_length float_str (cell df r "description") ])
       <$> rows df.
Proof using Type.
  intros Hshape ->.
  destruct (set_column_cells df "description_length"
              (description_length float_str <$> ((fun r => cell df r "description") <$> rows df))
              Hshape) as (Hcols & Hlen & Hcells); [by rewrite !length_fmap |].
  set (df' := set_column df "description_length" _) in *.
  assert (forall i r, rows df !! i = Some r ->
            exists r', rows df' !! i = Some r'
              /\ forall c, cell df' r' c
                           = if decide (c = "description_length")
                             then description_length float_str (cell df r "description")
                             else cell df r c) as Hrow.
  { intros i r Hr. apply (Hcells i r); [done |].
    by rewrite !list_lookup_fmap, Hr. }
  split_and!; [done | |].
  - intros c Hc. apply list_eq. intros i. rewrite !list_lookup_fmap.
    destruct (rows df !! i) as [r|] eqn:Hr.
    + destruct (Hrow i r Hr) as (r' & -> & Hr'). simpl.
      by rewrite Hr', decide_False.
    + apply lookup_ge_None in Hr. rewrite lookup_ge_None_2 by lia. done.
  - apply list_eq. intros i. rewrite !list_lookup_fmap.
    destruct (rows df !! i) as [r|] eqn:Hr.
    + destruct (Hrow i r Hr) as (r' & -> & Hr'). simpl. by rewrite !Hr'.
    + apply lookup_ge_None in Hr. rewrite lookup_ge_None_2 by lia. done.
Qed.

(** Property X20. [preprocess_features] needs the columns description,
    category, rating, availability and price. Where the frame lacks one, it
    raises [KeyError]: for description first, then for those of category,
    rating and availability that are not there, then for price. Where the
    frame has them all, it returns the features under the four labels of
    [feature_cols], one row for each row of the frame and in the same order,
    the last feature being the length of the row's description; and the
    prices of the rows, in the same order. *)
Theorem preprocess_features_shape (df : DataFrame) :
  Forall (fun r => length r = length (columns df)) (rows df) ->
  ("description" ∉ columns df ->
   preprocess_features float_str not_in_index df = Raise (KeyError "description"))
  /\ ("description" ∈ columns df ->
      filter (fun c => c ∉ columns df) ["category"; "rating"; "availability"] <> [] ->
      preprocess_features float_str not_in_index df
      = Raise (KeyError (not_in_index feature_cols
                           (filter (fun c => c ∉ columns df)
                              ["category"; "rating"; "availability"]))))
  /\ (Forall (fun c => c ∈ columns df) ["description"; "category"; "rating"; "availability"] ->
      "price" ∉ columns df ->
      preprocess_features float_str not_in_index df = Raise (KeyError "price"))
  /\ (Forall (fun c => c ∈ columns df)
        ["description"; "category"; "rating"; "availability"; "price"] ->
      preprocess_features float_str not_in_index df
      = Ok ({| columns := feature_cols;
               rows := (fun r => [ cell df r "category"; cell df r "rating";
                                   cell df r "availability";
                                   description_length float_str (cell df r "description") ])
                       <$> rows df |},
            (fun r => cell df r "price") <$> rows df)).
Proof using Type.
  intros Hshape.
  remember (set_column df "description_length"
              (description_length float_str
               <$> ((fun r => cell df r "description") <$> rows df))) as df' eqn:Hdf'.
  destruct (with_length_cells df df' Hshape Hdf') as (Hcols & Hcell & Hfeatures).
  assert ("description" ∈ columns df ->
          preprocess_features float_str not_in_index df
          = let? X := select_columns not_in_index df' feature_cols in
            let? y := get_column df' "price" in
            Ok (X, y)) as Hrun.
  { intros Hd. unfold preprocess_features. rewrite (get_column_cells _ _ Hd).
    by rewrite Hdf'. }
  assert (filter (fun c => c ∉ columns df') feature_cols
          = filter (fun c => c ∉ columns df) ["category"; "rating"; "availability"])
    as Hmissing.
  { change feature_cols
      with (["category"; "rating"; "availability"] ++ ["description_length"]).
    rewrite filter_app, (filter_cons _ "description_length"), filter_nil.
    rewrite decide_False, app_nil_r by (intros H; apply H, Hcols; by right).
    apply filter_ext_in. intros c Hc. rewrite Hcols.
    assert (c <> "description_length")
      by (intros ->; revert Hc; apply (bool_decide_unpack _); vm_compute; reflexivity).
    tauto. }
  split_and!.
  - intros Hd. unfold preprocess_features. by rewrite (get_column_absent _ _ Hd).
  - intros Hd Hne. rewrite (Hrun Hd). unfold select_columns. rewrite Hmissing.
    by destruct (filter _ ["category"; "rating"; "availability"]).
  - intros Hall Hprice. rewrite !Forall_cons in Hall.
    destruct Hall as (Hd & Hc & Hr & Ha & _). rewrite (Hrun Hd).
    unfold select_columns. rewrite Hmissing, !filter_cons, filter_nil.
    rewrite !decide_False by (by intros H; apply H). cbn [rbind].
    rewrite get_column_absent; [done |]. rewrite Hcols. by intros [?|?].
  - intros Hall. rewrite !Forall_cons in Hall.
    destruct Hall as (Hd & Hc & Hr & Ha & Hp & _). rewrite (Hrun Hd).
    unfold select_columns. rewrite Hmissing, !filter_cons, filter_nil.
    rewrite !decide_False by (by intros H; apply H). cbn [rbind].
    rewrite get_column_cells by (apply Hcols; by left). cbn [rbind columns rows].
    by rewrite Hfeatures, (Hcell "price").
Qed.
End Preprocess.

Lemma preprocess_features_shape_witness :
  preprocess_features Sample.one_decimal (fun _ _ => "not in index") Fixtures.local_frame
  = Ok ({| columns := ["category"; "rating"; "availability"; "description_length"];
           rows := [ [PStr "Poetry"; PInt 3; PInt 5; PInt 4];
                     [PStr "Art"; PInt 4; PInt 1; PInt 0] ] |},
        [PFloat (Qmake 25 2); PFloat (Qmake 7 1)]).
Proof.
  destruct (preprocess_features_shape Sample.one_decimal (fun _ _ => "not in index")
              Fixtures.local_frame) as (_ & _ & _ & Hall).
  - by repeat constructor.
  - rewrite Hall; [reflexivity |].
    repeat constructor; apply (bool_decide_unpack _); vm_compute; reflexivity.
Defined.

Lemma description_length_counts_words_witness :
  description_length Sample.one_decimal (PStr (join " " ["A"; "poem"; "about"; "spring."]))
  = PInt 4.
Proof.
  destruct (description_length_counts_words Sample.one_decimal) as (_ & _ & _ & Hwords & _).
  apply (Hwords ["A"; "poem"; "about"; "spring."]). by repeat constructor.
Defined.

End FeatureFacts.

(** ** The generator: records *)

Module GeneratorFacts.
Import Py PyStr PyStrFacts PyMore Pandas Schema Words GenerateSyntheticBooks PageNames
  WordFacts PageFacts MoreFacts.

(** *** Case, and the words of a sentence *)

Lemma is_space_upper (c : ascii) : is_space (upper c) = is_space c.
Proof. destruct c as [[] [] [] [] [] [] [] []]; reflexivity. Qed.

Lemma is_space_lower (c : ascii) : is_space (lower c) = is_space c.
Proof. destruct c as [[] [] [] [] [] [] [] []]; reflexivity. Qed.

Lemma is_upper_upper (c : ascii) : is_lower c = true -> is_upper (upper c) = true.
Proof. destruct c as [[] [] [] [] [] [] [] []]; done. Qed.

Lemma is_lower_not_space (c : ascii) : is_lower c = true -> is_space c = false.
Proof. destruct c as [[] [] [] [] [] [] [] []]; done. Qed.

(** How many words [split] finds depends on where the whitespace is
    and on nothing else. *)
Lemma length_split_go_cur (cur cur' s : string) :
  (cur = "" <-> cur' = "") -> length (split_go cur s) = length (split_go cur' s).
Proof.
  revert cur cur'. induction s as [|c s IH]; intros cur cur' Hcur.
  - simpl. destruct (String.eqb_spec cur ""), (String.eqb_spec cur' ""); tauto.
  - cbn [split_go]. destruct (is_space c).
    + destruct (String.eqb_spec cur ""), (String.eqb_spec cur' ""); simpl;
        try tauto; by rewrite ?(IH "" "").
    + apply IH. split; by destruct cur, cur'.
Qed.

Lemma length_split_go_map (f : ascii -> ascii) (cur cur' s t : string) :
  (forall c, is_space (f c) = is_space c) ->
  (cur = "" <-> cur' = "") ->
  length (split_go cur (map_chars f s +:+ t)) = length (split_go cur' (s +:+ t)).
Proof.
  intros Hf. revert cur cur'. induction s as [|c s IH]; intros cur cur' Hcur.
  - by apply length_split_go_cur.
  - cbn [map_chars String.append split_go]. rewrite Hf. destruct (is_space c).
    + destruct (String.eqb_spec cur ""), (String.eqb_spec cur' ""); simpl;
        try tauto; by rewrite ?(IH "" "").
    + apply IH. split; by destruct cur, cur'.
Qed.

Lemma length_split_capitalize (s t : string) :
  length (split (capitalize s +:+ t)) = length (split (s +:+ t)).
Proof.
  unfold split. destruct s as [|c s]; [done |].
  cbn [capitalize String.append split_go]. rewrite is_space_upper.
  destruct (is_space c); simpl; apply length_split_go_map;
    auto using is_space_lower; done.
Qed.

(** A full stop after words joined by single spaces adds no word. *)
Lemma join_cons (sep w w' : string) (words : list string) :
  join sep (w :: w' :: words) = w +:+ sep +:+ join sep (w' :: words).
Proof. done. Qed.

Lemma length_split_go_join_stop (cur : string) (words : list string) :
  Forall is_word words -> words <> [] ->
  length (split_go cur (join " " words +:+ ".")) = length words.
Proof.
  intros Hwords. revert cur.
  induction Hwords as [|w words [Hne Hw] Hwords IH]; intros cur Hnil; [done |].
  destruct words as [|w' words].
  - change (join " " [w]) with w. rewrite split_go_word by done.
    change "." with ("." +:+ ""). rewrite split_go_word by done.
    rewrite split_go_nil; [done |]. by destruct (cur +:+ w).
  - rewrite join_cons, !sapp_assoc, split_go_word by done.
    change (" " +:+ ?t) with (String " " t).
    rewrite split_go_space; [| done | by destruct cur, w].
    cbn [length]. f_equal. by apply IH.
Qed.

Lemma length_split_join_stop (words : list string) :
  Forall is_word words -> words <> [] ->
  length (split (join " " words +:+ ".")) = length words.
Proof. apply length_split_go_join_stop. Qed.

(** *** Computations that always return *)

Section Generator.
Variable rng : Type.
Variable randbelow : N -> rng -> N * rng.
Variable random_float : rng -> Q * rng.
(** What is known of the generator: [_randbelow(n)] is below [n], and
    [random()] is in [0, 1). *)
Hypothesis randbelow_lt : forall n g, (0 < n)%N -> ((randbelow n g).1 < n)%N.
Hypothesis random_float_range : forall g, (0 <= (random_float g).1 /\ (random_float g).1 < 1)%Q.

Lemma always_ret {A : Type} (a : A) (P : A -> Prop) : P a -> always (rret rng a) P.
Proof using Type. intros H g. by exists a, g. Qed.

Lemma always_bind {A B : Type} (m : Rand rng A) (k : A -> Rand rng B)
    (P : A -> Prop) (Q : B -> Prop) :
  always m P -> (forall a, P a -> always (k a) Q) -> always (rbind rng m k) Q.
Proof using Type.
  intros Hm Hk g. destruct (Hm g) as (a & g1 & Hg & Ha).
  unfold rbind. rewrite Hg. by apply Hk.
Qed.

Lemma always_impl {A : Type} (m : Rand rng A) (P Q : A -> Prop) :
  always m P -> (forall a, P a -> Q a) -> always m Q.
Proof using Type.
  intros Hm HPQ g. destruct (Hm g) as (a & g1 & Hg & Ha). exists a, g1. auto.
Qed.

Lemma always_repeat {A : Type} (n : nat) (m : Rand rng A) (P : A -> Prop) :
  always m P -> always (repeat_draw rng n m) (fun xs => length xs = n /\ Forall P xs).
Proof using Type.
  intros Hm. induction n as [|n IH]; [by apply always_ret |].
  cbn [repeat_draw]. eapply always_bind; [exact Hm |]. intros x Hx.
  eapply always_bind; [exact IH |]. intros xs [Hlen Hxs].
  apply always_ret. split; [simpl; lia | by constructor].
Qed.

Lemma always_choice {A : Type} (seq : list A) :
  seq <> [] -> always (choice rng randbelow seq) (fun x => x ∈ seq).
Proof using randbelow_lt.
  intros Hne g. unfold choice. destruct seq as [|x0 seq]; [done |].
  pose proof (randbelow_lt (N.of_nat (length (x0 :: seq))) g ltac:(simpl; lia)) as Hlt.
  destruct (randbelow _ g) as [i g1]. simpl in Hlt.
  destruct (lookup_lt_is_Some_2 (x0 :: seq) (N.to_nat i)) as [x Hx]; [simpl; lia |].
  rewrite Hx. exists x, g1. split; [done |]. by eapply list_elem_of_lookup_2.
Qed.

Lemma always_randint (a b : Z) :
  (a <= b)%Z -> always (randint rng randbelow a b) (fun z => (a <= z <= b)%Z).
Proof using randbelow_lt.
  intros Hab g. unfold randint. rewrite (proj2 (Z.ltb_lt 0 _)) by lia.
  pose proof (randbelow_lt (Z.to_N (b + 1 - a)) g ltac:(lia)) as Hlt.
  destruct (randbelow _ g) as [i g1]. simpl in Hlt. exists (a + Z.of_N i)%Z, g1.
  split; [done | lia].
Qed.

Lemma randint_empty (a b : Z) (g : rng) :
  (b < a)%Z -> randint rng randbelow a b g = Raises EmptyRangeError.
Proof using Type. intros H. unfold randint. by rewrite (proj2 (Z.ltb_ge 0 _)) by lia. Qed.

Lemma always_uniform_5_25 :
  always (uniform rng random_float 5 25) (fun x => (5 <= x /\ x <= 25)%Q).
Proof using random_float_range.
  intros g. unfold uniform. pose proof (random_float_range g) as [H0 H1].
  destruct (random_float g) as [x g1]. simpl in *. eexists _, g1. split; [done |].
  split; lra.
Qed.

Lemma round2_between (lo hi : Z) (x : Q) :
  (inject_Z lo <= x /\ x <= inject_Z hi)%Q ->
  (inject_Z lo <= round2 x /\ round2 x <= inject_Z hi)%Q.
Proof using Type.
  destruct x as [xn xd]. intros [Hlo Hhi].
  unfold Qle, inject_Z in Hlo, Hhi. cbn [Qnum Qden] in Hlo, Hhi.
  unfold round2. cbn [Qmult Qnum Qden]. rewrite Pos.mul_1_r.
  set (below := (xn * 100 / Z.pos xd)%Z).
  pose proof (Z.div_mod (xn * 100) (Z.pos xd) ltac:(lia)) as Hdm.
  pose proof (Z.mod_pos_bound (xn * 100) (Z.pos xd) ltac:(lia)) as Hm.
  fold below in Hdm.
  assert (lo * 100 <= below)%Z as Hb1 by nia.
  assert (below <= hi * 100)%Z as Hb2 by nia.
  assert (0 < xn * 100 - below * Z.pos xd -> below + 1 <= hi * 100)%Z as Hb3 by nia.
  assert (forall n, (lo * 100 <= n <= hi * 100)%Z ->
                    (inject_Z lo <= Qred (n # 100) /\ Qred (n # 100) <= inject_Z hi)%Q)
    as Hin.
  { intros n Hn. rewrite Qred_correct. unfold Qle, inject_Z. cbn [Qnum Qden]. lia. }
  destruct (Z.ltb_spec (2 * (xn * 100 - below * Z.pos xd)) (Z.pos xd)) as [?|Hge];
    [apply Hin; lia |].
  destruct (Z.ltb_spec (Z.pos xd) (2 * (xn * 100 - below * Z.pos xd))) as [?|Hle];
    [apply Hin; lia |].
  destruct (Z.even below); apply Hin; lia.
Qed.

(** Rounding to two decimals leaves a number with two decimals as it
    is. *)
Lemma round2_fixed (n : Z) : round2 (Qred (n # 100)) = Qred (n # 100).
Proof using Type.
  pose proof (Qred_correct (n # 100)) as H.
  destruct (Qred (n # 100)) as [yn yd] eqn:E.
  unfold Qeq in H. cbn [Qnum Qden] in H.
  unfold round2. cbn [Qmult Qnum Qden]. rewrite Pos.mul_1_r.
  assert (yn * 100 / Z.pos yd = n)%Z as -> by (rewrite H; apply Z.div_mul; lia).
  rewrite H, Z.sub_diag, Z.mul_0_r. by rewrite (proj2 (Z.ltb_lt 0 (Z.pos yd))) by lia.
Qed.

Lemma round2_idempotent (x : Q) : round2 (round2 x) = round2 x.
Proof using Type.
  assert (exists n, round2 x = Qred (n # 100)) as [n ->] by (by eexists).
  apply round2_fixed.
Qed.

(** *** Words and sentences *)

Lemma letters_lower : Forall (fun c => is_lower c = true) letters.
Proof using Type. apply (bool_decide_unpack _). vm_compute. reflexivity. Qed.

Lemma all_chars_of_list (p : ascii -> bool) (chars : list ascii) :
  Forall (fun c => p c = true) chars ->
  all_chars p (String.string_of_list_ascii chars) = true.
Proof using Type. induction 1 as [|c chars Hc _ IH]; [done |]. simpl. by rewrite Hc. Qed.

Lemma length_of_list (chars : list ascii) :
  String.length (String.string_of_list_ascii chars) = length chars.
Proof using Type. induction chars as [|c chars IH]; simpl; [done | by rewrite IH]. Qed.

Lemma always_random_word (length : Z) :
  always (random_word rng randbelow length)
    (fun w => String.length w = Z.to_nat length /\ all_chars is_lower w = true).
Proof using randbelow_lt.
  unfold random_word. eapply always_bind.
  - apply always_repeat, always_choice. done.
  - intros chars [Hlen Hchars]. apply always_ret. split.
    + by rewrite length_of_list.
    + apply all_chars_of_list. eapply Forall_impl; [exact Hchars |].
      intros c Hc. pose proof letters_lower as Hl. rewrite Forall_forall in Hl. by apply Hl.
Qed.

(** Property X21. Whatever the state of the generator, [random_word(length)]
    returns a word of [length] characters, none for a negative [length], and
    each of them is a lower-case letter from a to z. *)
Theorem random_word_is_lowercase (length : Z) :
  always (random_word rng randbelow length)
    (fun w => String.length w = Z.to_nat length /\ all_chars is_lower w = true).
Proof using randbelow_lt. apply always_random_word. Qed.

Lemma lower_is_word (w : string) : all_chars is_lower w = true -> w <> "" -> is_word w.
Proof using Type.
  intros Hw Hne. split; [done |]. clear Hne.
  induction w as [|c w IH]; [done |]. simpl in *.
  apply andb_true_iff in Hw as [Hc Hw]. by rewrite (is_lower_not_space _ Hc), IH.
Qed.

Lemma always_sentence_word :
  always (rbind rng (randint rng randbelow 3 10)
            (fun length => random_word rng randbelow length))
    (fun w => 3 <= String.length w <= 10 /\ all_chars is_lower w = true).
Proof using randbelow_lt.
  eapply always_bind; [by apply (always_randint 3 10) |].
  intros length Hlength. eapply always_impl; [apply always_random_word |].
  cbv beta in *. intros w [Hlen Hw]. split; [lia | done].
Qed.

Lemma sentence_words_are_words (words : list string) :
  Forall (fun w => 3 <= String.length w <= 10 /\ all_chars is_lower w = true) words ->
  Forall is_word words.
Proof using Type.
  intros H. eapply Forall_impl; [exact H |]. cbv beta.
  intros w [Hlen Hw]. apply lower_is_word; [done |].
  intros ->. simpl in Hlen. lia.
Qed.

Lemma always_random_sentence (min_words max_words : Z) :
  (min_words <= max_words)%Z ->
  always (random_sentence rng randbelow min_words max_words)
    (fun sentence =>
       exists (num_words : Z) (words : list string),
         (min_words <= num_words <= max_words)%Z
         /\ length words = Z.to_nat num_words
         /\ Forall (fun w => 3 <= String.length w <= 10 /\ all_chars is_lower w = true)
              words
         /\ sentence = capitalize (join " " words) +:+ "."
         /\ endswith "." sentence = true
         /\ ((1 <= num_words)%Z ->
             length (split sentence) = Z.to_nat num_words
             /\ exists c rest, sentence = String c rest /\ is_upper c = true)).
Proof using randbelow_lt.
  intros Hle. unfold random_sentence. eapply always_bind.
  { by apply always_randint. }
  intros num_words Hnum. cbv beta in Hnum. eapply always_bind.
  { apply always_repeat, always_sentence_word. }
  intros words [Hlen Hwords]. apply always_ret.
  exists num_words, words. split_and!; [lia | lia | done | done | done | |].
  { apply endswith_app. }
  intros Hpos. pose proof (sentence_words_are_words _ Hwords) as Hw.
  assert (words <> []) as Hne by (intros ->; simpl in Hlen; lia).
  split.
  + rewrite length_split_capitalize, length_split_join_stop by done. done.
  + destruct words as [|w words]; [done |].
    apply Forall_cons in Hwords as [[Hl Hlower] _].
    destruct w as [|c w]; [simpl in Hl; lia |].
    simpl in Hlower. apply andb_true_iff in Hlower as [Hc _].
    assert (exists rest, join " " (String c w :: words) = String c rest) as [rest ->].
    { destruct words; simpl; by eexists. }
    cbn [capitalize String.append]. eexists _, _. split; [done |].
    by apply is_upper_upper.
Qed.

(** Property X22. [random_sentence(min_words, max_words)] raises
    [ValueError] when [max_words] is below [min_words]. Otherwise, whatever
    the state of the generator, it returns some number of words from
    [min_words] to [max_words], none if that number is not positive, each of
    three to ten lower-case letters, joined by single spaces, the first
    letter in upper case, and a full stop at the end; so that [split] finds
    that number of words in it. *)
Theorem random_sentence_shape (min_words max_words : Z) :
  ((max_words < min_words)%Z ->
   forall g, random_sentence rng randbelow min_words max_words g = Raises EmptyRangeError)
  /\ ((min_words <= max_words)%Z ->
      always (random_sentence rng randbelow min_words max_words)
        (fun sentence =>
           exists (num_words : Z) (words : list string),
             (min_words <= num_words <= max_words)%Z
             /\ length words = Z.to_nat num_words
             /\ Forall (fun w => 3 <= String.length w <= 10 /\ all_chars is_lower w = true)
                  words
             /\ sentence = capitalize (join " " words) +:+ "."
             /\ endswith "." sentence = true
             /\ ((1 <= num_words)%Z ->
                 length (split sentence) = Z.to_nat num_words
                 /\ exists c rest, sentence = String c rest /\ is_upper c = true))).
Proof using randbelow_lt.
  split.
  - intros Hlt g. unfold random_sentence, rbind. by rewrite randint_empty.
  - apply always_random_sentence.
Qed.

(** *** Records *)

Lemma always_generate_record (i : Z) :
  always (generate_record rng randbelow random_float i) (generated_record i).
Proof using randbelow_lt random_float_range.
  unfold generate_record.
  eapply always_bind; [by apply always_choice |]. intros adjective Hadjective.
  eapply always_bind; [by apply always_choice |]. intros noun Hnoun.
  eapply always_bind; [by apply always_choice |]. intros category Hcategory.
  eapply always_bind; [by apply (always_randint 1 5) |]. intros rating Hrating.
  eapply always_bind; [apply always_uniform_5_25 |]. intros noise Hnoise.
  eapply always_bind; [by apply (always_randint 1 20) |]. intros availability Havailability.
  eapply always_bind; [by apply (always_random_sentence 8 20) |]. cbv beta in *.
  intros description (num_words & words & Hnum & Hlen & _ & _ & _ & Hsplit).
  apply always_ret. unfold generated_record.
  exists adjective, noun, category, description, rating, availability,
    (round2 (inject_Z (rating * 5) + noise)).
  destruct Hsplit as [Hsplit _]; [lia |].
  assert (inject_Z (5 * rating + 5) <= round2 (inject_Z (rating * 5) + noise)
          /\ round2 (inject_Z (rating * 5) + noise) <= inject_Z (5 * rating + 25))%Q
    as Hprice; [|split_and!; try done; try lia; try tauto; apply round2_idempotent].
  apply (round2_between (5 * rating + 5) (5 * rating + 25)).
  rewrite !inject_Z_plus, inject_Z_mult, (Z.mul_comm rating), inject_Z_mult.
  change (inject_Z 5) with 5%Q. change (inject_Z 25) with 25%Q.
  split; lra.
Qed.

Lemma always_generate_records (indices : list Z) :
  always (generate_records rng randbelow random_float indices)
    (fun data => Forall2 generated_record indices data).
Proof using randbelow_lt random_float_range.
  induction indices as [|i rest IH]; [by apply always_ret |].
  cbn [generate_records].
  eapply always_bind; [apply always_generate_record |]. intros record Hrecord.
  eapply always_bind; [exact IH |]. intros data Hdata.
  apply always_ret. by constructor.
Qed.

Lemma generated_record_keys (i : Z) (record : pydict) :
  generated_record i record ->
  keys record = ["id"; "title"; "category"; "rating"; "price"; "availability"; "description"].
Proof using Type. by intros (? & ? & ? & ? & ? & ? & ? & -> & _). Qed.

Lemma always_generate_dataset (num_records : Z) :
  always (generate_dataset rng randbelow random_float num_records)
    (fun df =>
       exists data,
         length data = Z.to_nat num_records
         /\ rows df = (fun record => record.*2) <$> data
         /\ ((0 < num_records)%Z ->
             columns df = ["id"; "title"; "category"; "rating"; "price"; "availability";
                           "description"])
         /\ (forall (i : nat) record,
               data !! i = Some record -> generated_record (Z.of_nat i) record)).
Proof using randbelow_lt random_float_range.
  unfold generate_dataset.
  eapply always_bind; [apply always_generate_records |]. intros data Hdata.
  apply always_ret. exists data.
  assert (length data = Z.to_nat num_records) as Hlen.
  { apply Forall2_length in Hdata. unfold range in Hdata.
    by rewrite length_fmap, length_seq in Hdata. }
  assert (forall (i : nat) record,
            data !! i = Some record -> generated_record (Z.of_nat i) record) as Hrec.
  { intros i record Hi.
    destruct (Forall2_lookup_r _ _ _ _ _ Hdata Hi) as (j & Hj & Hr).
    unfold range in Hj. rewrite list_lookup_fmap in Hj.
    destruct (seq 0 (Z.to_nat num_records) !! i) as [k|] eqn:Hk; [|done].
    apply lookup_seq in Hk as [-> _]. by injection Hj as <-. }
  assert (Forall (fun r => keys r = ["id"; "title"; "category"; "rating"; "price";
                                     "availability"; "description"]) data) as Hkeys.
  { apply Forall_forall. intros record [i Hi]%list_elem_of_lookup_1.
    by eapply generated_record_keys, Hrec. }
  assert (data <> [] ->
          all_keys data = ["id"; "title"; "category"; "rating"; "price"; "availability";
                           "description"]) as Hcols.
  { intros Hne. apply all_keys_uniform; [|done|done].
    apply (bool_decide_unpack _). vm_compute. reflexivity. }
  split_and!; [done | | | done].
  - destruct (decide (data = [])) as [->|Hne]; [done |].
    cbn [of_records rows]. rewrite Hcols by done.
    apply list_fmap_ext. intros i record Hi. cbv beta.
    rewrite Forall_forall in Hkeys.
    assert (keys record = ["id"; "title"; "category"; "rating"; "price"; "availability";
                           "description"]) as Hk
      by (apply Hkeys; by eapply list_elem_of_lookup_2).
    rewrite <- Hk. apply values_under_own_keys. rewrite Hk.
    apply (bool_decide_unpack _). vm_compute. reflexivity.
  - intros Hpos. apply Hcols. intros ->. simpl in Hlen. lia.
Qed.

(** Property X23. Whatever the state of the generator,
    [generate_dataset(num_records)] raises nothing and returns a frame of
    [num_records] rows, none for a negative number; its columns are id,
    title, category, rating, price, availability and description; and its
    rows are, in order, the values of records as [generated_record]
    describes them: the identifiers running from 1, a title of an
    adjective, a noun and the identifier, a category of the list, a rating
    from 1 to 5, a price that exceeds five times the rating by 5 to 25
    and that [round(price, 2)] leaves as it is, a stock from 1 to 20 and a
    description of 8 to 20 words. *)
Theorem generate_dataset_shape (num_records : Z) :
  always (generate_dataset rng randbelow random_float num_records)
    (fun df =>
       exists data,
         length data = Z.to_nat num_records
         /\ rows df = (fun record => record.*2) <$> data
         /\ ((0 < num_records)%Z ->
             columns df = ["id"; "title"; "category"; "rating"; "price"; "availability";
                           "description"])
         /\ (forall (i : nat) record,
               data !! i = Some record -> generated_record (Z.of_nat i) record)).
Proof using randbelow_lt random_float_range. apply always_generate_dataset. Qed.

End Generator.

(** *** The script *)

Section Script.
Variable rng : Type.
Variable randbelow : N -> rng -> N * rng.
Variable random_float : rng -> Q * rng.
Hypothesis randbelow_lt : forall n g, (0 < n)%N -> ((randbelow n g).1 < n)%N.
Hypothesis random_float_range : forall g, (0 <= (random_float g).1 /\ (random_float g).1 < 1)%Q.
Variable float_repr : Q -> string.
Variable to_html : DataFrame -> string.
Variable script_dir project_dir : string.

(** Property X24. Whatever the state of the generator, the script raises
    nothing. It writes a frame of 5000 rows to [CSV_FILE], and then five
    pages, [page_1.html] to [page_5.html] of [LOCAL_HTML_DIR], each with
    1000 rows of that frame, the rows of the frame in their order. *)
Theorem main_writes_the_csv_and_five_pages (g : rng) :
  exists df pages,
    main rng randbelow random_float float_repr to_html script_dir project_dir g
    = ((path_join (path_join project_dir "data") "synthetic_books.csv",
        Csv.to_csv float_repr df)
       :: ((fun p => (file_path p,
                      html_content (page_number p) (join " | " (nav_links p))
                        (to_html (page_df p)))) <$> pages),
       Returns tt)
    /\ Z.of_nat (length (rows df)) = 5000%Z
    /\ file_path <$> pages
       = path_join (path_join (path_join script_dir "local") "pages")
         <$> (page_name <$> seq 1 5)
    /\ Forall (fun p => Z.of_nat (length (rows (page_df p))) = 1000%Z) pages
    /\ mjoin ((fun p => rows (page_df p)) <$> pages) = rows df.
Proof using randbelow_lt random_float_range.
  destruct (always_generate_dataset rng randbelow random_float randbelow_lt
              random_float_range NUM_RECORDS g)
    as (df & g' & Hrun & data & Hlen & Hrows & _ & _).
  assert (Z.of_nat (length (rows df)) = 5000%Z) as Htotal.
  { rewrite Hrows, length_fmap, Hlen. unfold NUM_RECORDS. lia. }
  pose proof (pages_of_positive df (LOCAL_HTML_DIR script_dir) ROWS_PER_PAGE
                ltac:(unfold ROWS_PER_PAGE; lia)) as Hpages.
  rewrite Htotal in Hpages.
  change ((5000 + ROWS_PER_PAGE - 1) / ROWS_PER_PAGE)%Z with 5%Z in Hpages.
  change (Z.to_nat 5) with 5 in Hpages.
  set (pages := (fun i => page_of df (LOCAL_HTML_DIR script_dir) ROWS_PER_PAGE 5
                             (Z.of_nat i)) <$> seq 0 5) in *.
  exists df, pages. split_and!.
  - unfold main. rewrite Hrun. unfold save_html_pages. rewrite Hpages. reflexivity.
  - done.
  - rewrite (page_files df (LOCAL_HTML_DIR script_dir) ROWS_PER_PAGE _ ltac:(done) Hpages).
    by rewrite <- list_fmap_compose.
  - unfold pages. apply Forall_fmap, Forall_forall. intros i [_ Hi]%elem_of_seq.
    cbv beta. unfold compose. rewrite page_rows by done.
    rewrite length_take, length_drop. unfold ROWS_PER_PAGE. lia.
  - unfold pages. rewrite <- list_fmap_compose.
    rewrite (list_fmap_ext _ (fun i => take (Z.to_nat ROWS_PER_PAGE)
                                         (drop (i * Z.to_nat ROWS_PER_PAGE) (rows df)))
               (seq 0 5)).
    + apply runs_cover. unfold ROWS_PER_PAGE. lia.
    + intros _ i _. apply (page_rows df). done.
Qed.
End Script.

(** *** The counting generator of the examples *)

Lemma counting_randbelow_lt (n g : N) : (0 < n)%N -> ((counting_randbelow n g).1 < n)%N.
Proof. intros Hn. simpl. apply N.mod_lt. lia. Qed.

Lemma counting_random_range (g : N) :
  (0 <= (counting_random g).1 /\ (counting_random g).1 < 1)%Q.
Proof.
  unfold counting_random, Qle, Qlt. cbn [fst Qnum Qden].
  pose proof (N.mod_lt g 10 ltac:(lia)) as H. revert H.
  generalize (g mod 10)%N. intros r Hr. lia.
Qed.

Lemma random_word_is_lowercase_witness :
  exists w g',
    random_word N counting_randbelow 4 7%N = Returns (w, g')
    /\ String.length w = 4 /\ all_chars is_lower w = true.
Proof.
  destruct (random_word_is_lowercase N counting_randbelow counting_randbelow_lt 4 7%N)
    as (w & g' & Hrun & Hlen & Hlower).
  exists w, g'. split_and!; [exact Hrun | exact Hlen | exact Hlower].
Defined.

Lemma random_sentence_shape_witness :
  random_sentence N counting_randbelow 5 4 0%N = Raises EmptyRangeError.
Proof.
  destruct (random_sentence_shape N counting_randbelow counting_randbelow_lt 5 4)
    as [Hempty _].
  apply Hempty. lia.
Defined.

Lemma generate_dataset_shape_witness :
  exists df g' (data : list pydict),
    generate_dataset N counting_randbelow counting_random 3 0%N = Returns (df, g')
    /\ length data = 3
    /\ rows df = (fun record => record.*2) <$> data
    /\ columns df = ["id"; "title"; "category"; "rating"; "price"; "availability";
                     "description"]
    /\ (forall (i : nat) record,
          data !! i = Some record -> generated_record (Z.of_nat i) record).
Proof.
  destruct (generate_dataset_shape N counting_randbelow counting_random
              counting_randbelow_lt counting_random_range 3 0%N)
    as (df & g' & Hrun & data & Hlen & Hrows & Hcols & Hrecords).
  exists df, g', data.
  split_and!; [exact Hrun | exact Hlen | exact Hrows | | exact Hrecords].
  apply Hcols. lia.
Defined.

Lemma main_writes_the_csv_and_five_pages_witness :
  exists df pages,
    (main N counting_randbelow counting_random (fun _ => "0.0") (fun _ => "<table/>")
       "/repo/scraping" "/repo" 0%N).2 = Returns tt
    /\ Z.of_nat (length (rows df)) = 5000%Z
    /\ file_path <$> pages
       = [ "/repo/scraping/local/pages/page_1.html";
           "/repo/scraping/local/pages/page_2.html";
           "/repo/scraping/local/pages/page_3.html";
           "/repo/scraping/local/pages/page_4.html";
           "/repo/scraping/local/pages/page_5.html" ].
Proof.
  destruct (main_writes_the_csv_and_five_pages N counting_randbelow counting_random
              counting_randbelow_lt counting_random_range (fun _ => "0.0")
              (fun _ => "<table/>") "/repo/scraping" "/repo" 0%N)
    as (df & pages & Hrun & Htotal & Hfiles & _).
  exists df, pages. split_and!; [by rewrite Hrun | exact Htotal | exact Hfiles].
Defined.

End GeneratorFacts.

(** ** The files the scrapers write *)

Module SinkFacts.
Import Py PyStr Pandas ScrapeBooksBs ScrapeLocalAsync Csv Schema FrameFacts CrawlFacts
  CrawlInvariants AsyncFacts CsvFacts MoreFacts.

Section Sinks.
Variable float_repr : Q -> string.
Hypothesis float_repr_plain : forall q, plain (float_repr q) = true.

Lemma read_fields_of (cols : list string) (rs : list (list pyval)) :
  cols <> [] -> Forall (fun r => length r = length cols) rs ->
  read_fields (to_csv float_repr {| columns := cols; rows := rs |})
  = Some (((fun c : string => {| quoted := true; text := c |}) <$> cols)
          :: ((fun r : list pyval => field_of float_repr <$> r) <$> rs)).
Proof using float_repr_plain.
  intros Hcols Hrows. unfold read_fields, to_csv.
  rewrite read_write_rows; [done |]. unfold fields_of. cbn [columns rows]. constructor.
  - split; [by destruct cols |]. apply Forall_fmap, Forall_true. intros c. by left.
  - apply Forall_fmap. eapply Forall_impl; [exact Hrows |].
    intros r Hr. split.
    + destruct r; [|done]. by destruct cols.
    + apply Forall_fmap, Forall_true. intros v. apply field_of_ok, float_repr_plain.
Qed.

(** Property X25. When [main] of the sequential crawler returns and the site
    listed a book at least, the file it has written splits back into a
    header of the thirteen names of [book_columns], quoted, and one row of
    thirteen fields for each book, in the order of the crawl: its values as
    [field_of] writes them. *)
Theorem crawl_file_reads_back (project_dir : string) (fuel : nat) (w : Bs4.web)
    (st' : state) :
  main project_dir fuel w initial = (st', Ok tt) ->
  books_data st' <> [] ->
  exists df,
    last (log st') = Some (ToCsv (CSV_FILE project_dir) df)
    /\ read_fields (to_csv float_repr df)
       = Some (((fun c : string => {| quoted := true; text := c |}) <$> book_columns)
               :: ((fun rec : pydict => field_of float_repr <$> rec.*2)
                   <$> books_data st'))
    /\ Forall (fun rec : pydict => length rec = 13) (books_data st').
Proof using float_repr_plain.
  rewrite main_run.
  destruct (scrape_books fuel w initial) as [st1 [df|e|]] eqn:Hrun; [|done..].
  intros [= <-] Hne. cbn [logged books_data log] in *.
  destruct (scrape_books_frame _ _ _ _ _ Hrun) as (Hkeys & Hrows & Hshape & Hcols & _).
  exists df. split_and!.
  - by rewrite last_snoc.
  - destruct df as [cols rs]. cbn [columns rows] in *.
    rewrite read_fields_of; [| by rewrite Hcols | done].
    rewrite Hcols, Hrows by done. by rewrite <- list_fmap_compose.
  - eapply Forall_impl; [exact Hkeys |]. intros rec Hk. cbv beta in Hk.
    apply (f_equal length) in Hk. unfold keys in Hk. by rewrite length_fmap in Hk.
Qed.

(** The frame the concurrent scraper assembles, when it assembles
    one. *)
Lemma assemble_frame (str_to_number : string -> option number)
    (all_results : list (list pydict)) (df : DataFrame) :
  assemble str_to_number all_results = Ok df ->
  "id" ∈ columns df
  /\ Forall (fun r => length r = length (columns df)) (rows df)
  /\ length (rows df) = length (mjoin all_results).
Proof using Type.
  unfold assemble. intros H.
  pose proof (convert_columns_columns _ _ _ _ H) as [Hcols Hin].
  cbn [of_records columns] in Hcols, Hin.
  rewrite of_records_frame, convert_columns_frame in H;
    [| apply all_keys_NoDup | apply numeric_cols_NoDup | exact Hin].
  injection H as <-. cbn [frame columns rows]. split_and!.
  - apply Hin. by left.
  - apply Forall_forall. intros row (r & -> & _)%list_elem_of_fmap.
    by rewrite length_fmap.
  - by rewrite length_fmap.
Qed.

(** Property X26. The script of the concurrent scraper writes nothing when
    the scrape raises. When the scrape returns a frame, it writes one file,
    [OUTPUT_CSV_ASYNC], with a row for each record parsed; and the file
    splits back into the fields it was written from, the header among them,
    which has the column id in it. *)
Theorem async_file_reads_back (parse_html_file : string -> result (list pydict))
    (HTML_DIR DATA_DIR : string) (str_to_number : string -> option number)
    (listdir : list string) (completion : list nat) :
  (forall e,
     scrape_all_pages_async parse_html_file str_to_number HTML_DIR listdir completion
     = Raise e ->
     AsyncScript.main parse_html_file HTML_DIR DATA_DIR str_to_number float_repr
       listdir completion
     = ([], Raise e))
  /\ (forall df,
        scrape_all_pages_async parse_html_file str_to_number HTML_DIR listdir completion
        = Ok df ->
        AsyncScript.main parse_html_file HTML_DIR DATA_DIR str_to_number float_repr
          listdir completion
        = ([(path_join DATA_DIR "scraped_books_local_async.csv", to_csv float_repr df)],
           Ok tt)
        /\ read_fields (to_csv float_repr df) = Some (fields_of float_repr df)
        /\ length (fields_of float_repr df) = S (length (rows df))
        /\ "id" ∈ columns df).
Proof using float_repr_plain.
  unfold AsyncScript.main. split.
  - by intros e ->.
  - intros df Hdf. rewrite Hdf. split; [done |].
    unfold scrape_all_pages_async in Hdf.
    destruct (gather _ completion) as [all_results|e|]; [simpl in Hdf|done..].
    apply assemble_frame in Hdf as (Hid & Hshape & _).
    split_and!; [| by unfold fields_of; cbn [length]; rewrite length_fmap | done].
    destruct df as [cols rs]. cbn [columns rows] in *.
    rewrite read_fields_of; [done | | done]. intros ->. by apply elem_of_nil in Hid.
Qed.
End Sinks.

Lemma crawl_file_reads_back_witness :
  exists df,
    last ((Get <$> [ BASE_URL +:+ "index.html"; BASE_URL +:+ "catalogue/alpha.html";
                     BASE_URL +:+ "catalogue/beta.html" ])
          ++ [ToCsv "/repo/data/books_data_bs.csv" Sample.sequential_frame])
    = Some (ToCsv "/repo/data/books_data_bs.csv" df)
    /\ read_fields (to_csv Sample.one_decimal df)
       = Some (((fun c : string => {| quoted := true; text := c |}) <$> book_columns)
               :: ((fun rec : pydict => field_of Sample.one_decimal <$> rec.*2)
                   <$> [Sample.alpha_record; Sample.beta_record])).
Proof.
  assert (main "/repo" 1 Sample.one_page initial
          = ({| books_data := [Sample.alpha_record; Sample.beta_record];
                log := (Get <$> [ BASE_URL +:+ "index.html";
                                  BASE_URL +:+ "catalogue/alpha.html";
                                  BASE_URL +:+ "catalogue/beta.html" ])
                       ++ [ToCsv "/repo/data/books_data_bs.csv" Sample.sequential_frame] |},
             Ok tt)) as Hrun by (vm_compute; reflexivity).
  destruct (crawl_file_reads_back Sample.one_decimal one_decimal_plain _ _ _ _ Hrun
              ltac:(done)) as (df & Hlast & Hread & _).
  exists df. split; [exact Hlast | exact Hread].
Defined.

Lemma async_file_reads_back_witness :
  exists df,
    AsyncScript.main Sample.local_pages "pages" "data" Sample.decimal_number
      Sample.one_decimal ["page_2.html"; "notes.txt"; "page_1.html"] [1; 0]
    = ([("data/scraped_books_local_async.csv", to_csv Sample.one_decimal df)], Ok tt)
    /\ read_fields (to_csv Sample.one_decimal df) = Some (fields_of Sample.one_decimal df)
    /\ length (rows df) = 3.
Proof.
  destruct (scrape_all_pages_async Sample.local_pages Sample.decimal_number "pages"
              ["page_2.html"; "notes.txt"; "page_1.html"] [1; 0]) as [df| |] eqn:Hdf;
    [|vm_compute in Hdf; discriminate..].
  destruct (async_file_reads_back Sample.one_decimal one_decimal_plain Sample.local_pages
              "pages" "data" Sample.decimal_number
              ["page_2.html"; "notes.txt"; "page_1.html"] [1; 0]) as [_ Hok].
  destruct (Hok df Hdf) as (Hmain & Hread & _ & _).
  exists df. split_and!; [exact Hmain | exact Hread |].
  vm_compute in Hdf. by injection Hdf as <-.
Defined.

End SinkFacts.
